(* ===== verification/_CoqProject ===== *)
-Q . S2P
Prelude.v
PyStr.v
Prompt.v
Stream.v
Chat.v
Transcript.v
Render.v
World.v
App.v
Execution.v
Untyped.v
StopLogic.v
Stopped.v
Rules.v
Session.v
Spec.v
Runtime.v
Bounds.v
Interrupt.v
Runner.v
Config.v
Process.v
Refinement.v
