(* ===== verification/Prelude.v ===== *)
(** * Verification of the Automated Code Generator and Enhancer (src/app.py)

    The program is one Streamlit script.  Streamlit executes the script from
    its first line to its last on every user interaction; the only value that
    survives from one execution to the next is the dictionary
    [st.session_state].  One execution

    - configures the page and the Gemini client and opens a chat
      (app.py 7-18),
    - injects a style sheet and a header (app.py 68-122),
    - creates the transcript [st.session_state["chat_history"]] when it is
      missing (app.py 125-126),
    - reads the language and the action from two widgets (app.py 129-132),
    - draws the text area and the button of the selected action (app.py
      137-138, 154-155); the text area has a key, under which the runtime
      keeps its text in the same dictionary,
    - when the button of the chosen action was clicked and the text is not
      empty, builds a prompt, sends it to the chat, concatenates the streamed
      answer (functions [generate_required_code], app.py 21-39, and
      [enhance_code], app.py 42-61), appends the question and the answer to
      the transcript and displays the answer (app.py 135-166),
    - lists the transcript when "Show Chat History" was clicked
      (app.py 169-172).

    ** Files, and what each models

    - [Prelude]  (this file) strings as the program uses them (append,
      substring, concatenation of a list, occurrence), the type [result] of
      fallible Python code and the exceptions [exn], the state-and-exception
      monad [exec] in which the script is written, with the notation
      [let* x := m in k] of scope [py_scope], the relational logic
      [steps R m] (every run of [m] relates the state it starts in to the
      state it ends in, raised or not), the tactics [steps_step] and
      [steps_tac], and the hint database [pystr].
    - [PyStr]  truth value of a [str] ([truthy], the test [if requirements:]),
      formatted string literals ([part], [fstring]) and [str.lower]
      ([lower]), lines ([single_line], [first_line]).
    - [Prompt]  the prompt builder: [generate_template] and
      [generate_prompt] are the f-string of [generate_required_code]
      (app.py 22-33), [enhance_template] and [enhance_prompt] that of
      [enhance_code] (app.py 43-55), character for character.
    - [Stream]  the stream accumulator: a streamed response is a [Stream]
      of [Chunk]s that ends ([Done]) or breaks ([Broken]); [text] is
      [chunk.text], which raises on a chunk without text; [accumulate] is
      the loop [for chunk in response: code += chunk.text] (app.py 36-38
      and 58-60); [joined (texts s)] and [failure s] are its reference.
      [for_loop] is the same loop one call of [next] at a time, over any
      iterator ([Next]), a response or one that never ends, with the
      calls it is allowed as fuel.
    - [Chat]  the model session: [Client] ([genai.GenerativeModel]),
      [ChatSession] ([model.start_chat], app.py 17-18), [send_message]
      (app.py 35 and 57).  The remote service is the type class [Service]:
      what it answers to a client, a history and a prompt.  [reliable]
      says that a service answers every request with a stream that ends.
    - [Transcript]  the transcript store: the session dictionary is a
      [gmap] from keys to Python values ([pyval]); [init_history] is
      app.py 125-126, [append_history] the four [append] calls (app.py
      144, 149, 161, 166), [read_history] the loop header of app.py 171.
      [typed] says that the key holds a list when present, [well_formed]
      that a transcript is a sequence of You/Bot exchanges.
    - [Render]  the rendering surface: the Streamlit calls of the script
      as [Command]s, the widgets' answers as a [Frontend], and the text
      the script displays ([style_sheet], [page_header], the labels).
    - [World]  the state of one execution ([World]: session dictionary,
      environment, configured credential, the globals [model] and [chat],
      the [trace] of [Event]s sent to the page and to the service, and the
      request of the runtime to stop, [pending]), what an execution is
      given ([Host]), [boot], and the statements [show] (a Streamlit call:
      it raises [ScriptControlException] when the runtime has asked the
      execution to stop, and displays otherwise), [global], [on_session] and
      [store_widget] (the value of a widget with a key, kept in the
      dictionary); the tactics [script_simpl], [script_steps].
    - [App]  the script, statement by statement: [configure_client]
      (app.py 7-18), [generate_required_code] (21-39), [enhance_code]
      (42-61), [page_top] (68-132 up to the widgets), [generate_section]
      (137-149), [enhance_section] (154-166), [history_section] (169-172),
      composed in [run_script]; [execute ss] is one execution started on
      the dictionary [ss].
    - [Execution]  what one execution does: [execute_run] gives the final
      world of [run_script] on any typed dictionary in closed form, and the
      observables [next_session], [outcome], [sent], [displayed] are
      characterised from it.  The properties of one interaction are proved
      here.
    - [Untyped]  what an execution does when ["chat_history"] holds a
      [str] instead of a list: the error paths of [append_history] and
      [read_history] through the whole script ([execute_str]).
    - [StopLogic]  a relational logic for the executions the runtime
      stops: [cut_of] relates the run of a script under a request to stop
      to its run without, [stops_well] is closed under the constructs of
      the monad and holds of every statement of the script, and so of
      [run_script] on every dictionary; the tactic [stop_steps].
    - [Stopped]  the executions the runtime stops because the user has
      interacted with the page while the script was running
      ([execute_until n]: the execution notices at its Streamlit call
      number [n + 1]), and what they leave; the environment every
      execution leaves ([execute_env], [execute_until_env]).
    - [Rules]  the rules of Streamlit a script can break with the calls
      this one makes: the identity of a widget ([WidgetId], [widget_id])
      and the check of the commands of a run ([api_ok]: the page is
      configured by the first command, no two widgets have one identity).
    - [Session]  sequences of executions with arbitrary inputs ([run_all])
      and the dictionaries they reach ([reachable]) from the empty one.
    - [Spec]  the interaction controller as the specification describes it
      ([Controller], [interact], [handle]), whose model session keeps the
      context of earlier exchanges, and the relation of the script to it.
    - [Runtime]  the Streamlit runtime around the script: the page it
      keeps between two runs ([Page]: the options selected, the keys of the
      widgets drawn, the session dictionary), the interactions of the user
      ([Interaction]), the inputs of the run an interaction starts
      ([frontend_of], [host_of]), the run and what it leaves ([rerun], with
      [sweep] for the values of the widgets the run has not drawn), and
      sequences of interactions ([browse]).
    - [Interrupt]  sequences of interactions in which the next interaction
      can stop a run while it makes its request ([Timing], [stopped_run],
      [run_timed], [browse_timed]), and the environment such a run leaves
      ([environ_timed]).
    - [Runner]  the interface between the runs and the process that
      serves them: the class [Runner] (the page and the environment a run
      leaves and the requests it sends, with what the process relies on:
      the run keeps [page_ok], is the same on servers that are the same
      to the script, and leaves the environment of [load_dotenv()]), and
      its two instances,
      [completed_runs] for [rerun] and [timed_runs] for [run_timed].
    - [Config]  a server without a credential, against a service that
      refuses the clients without one ([rejects_anonymous]).
    - [Bounds]  the sizes of what a run and a session display, send and
      store, with the measures of a sequence of interactions ([clicks],
      [longest], [browse_sent]).
    - [Process]  one server process and the sessions of the browsers it
      serves, for any [Runner]: the process ([Process]: its environment,
      the [.env] file, the page of every open session), what happens in it
      ([Step]: a session interacts, a browser leaves, the file is edited;
      [visit], [step], [serve]), the processes a start leads to
      ([served]), and one session taken alone ([alone], [project]).
      [os.environ] is the one thing a run changes that the next run of any
      session finds changed ([load_dotenv], app.py 10).
    - [Refinement]  the runtime and the script together against the
      specified controller, one step of the controller per interaction
      ([supervise]).

    ** What the theorems show

    - Prompts: both arguments are embedded unchanged at fixed offsets
      ([generate_prompt_embeds], [enhance_prompt_embeds]); the length
      ([prompt_length]); the two templates never collide
      ([prompts_differ]); a prompt determines its arguments when the
      language is one line ([generate_prompt_inj], [enhance_prompt_inj])
      (the example [generate_prompt_ambiguous] shows that the premise is
      needed).
    - Stream: the loop is the ordered concatenation
      ([accumulate_of_texts], [accumulate_ok_iff]), raises exactly the
      first failure ([accumulate_raises_iff]), composes
      ([accumulate_then]), reads each chunk once ([accumulate_length]),
      and, over any iterator that ends, ends after one call of [next] per
      chunk read and one more with the concatenation in arrival order
      ([for_loop_terminates]); over an iterator that never ends it does
      not end ([for_loop_endless]).
    - Transcript: creation keeps what is there ([init_history_keeps]),
      append cannot fail after it ([append_after_init]), the executable
      check is the specification of well-formedness ([well_formed_iff]),
      and a sequence of exchanges is a conversation
      ([well_formed_conversation]).
    - One execution: a successful request appends the question then the
      answer ([generate_appends_exchange], [enhance_appends_exchange]);
      an empty text or an unclicked button does nothing
      ([empty_input_no_effect]); a failure of the service leaves the
      transcript as it was and is the only thing an execution raises
      ([upstream_error_keeps_transcript], [only_upstream_errors]); at most
      one request is sent, always with an empty history
      ([one_request_fresh_context]); the transcript only grows
      ([transcript_append_only]) and stays typed and well formed
      ([next_session_typed], [next_session_well_formed]); everything sent
      out, in order ([execution_trace]), and what is displayed
      ([history_displayed], [code_block_tag],
      [first_command_page_config]); on a dictionary that holds
      a [str] the request is sent and the execution then fails
      ([str_history_raises]).
    - Sessions: the transcript is the concatenation of the exchanges made
      ([session_transcript]), every reachable dictionary satisfies the
      invariant ([reachable_invariant]), no request of a session carries
      context ([session_requests_fresh]), and the transcript only grows
      ([session_append_only]).
    - Interactions: what each interaction does to the transcript and
      what it sends ([interaction_effect]); a text entered is the text the
      next click sends ([entered_text_is_sent]); the text of an area that
      is no longer on the page is dropped ([hidden_text_is_dropped]); a
      run of the page as it is, or a click that makes no request, changes
      nothing
      ([quiet_run_changes_nothing]); the invariant of the pages a user can
      reach ([browse_invariant]).
    - Stopped executions: a stopped execution is a prefix of the full
      one in what it displays, raises and sends, for every call it can be
      stopped at and on every dictionary ([stopped_run_is_prefix], from
      [run_script_stops_well], which is proved statement by statement with
      no analysis of the cases of the script), and on a typed dictionary
      in what it appends (from the closed form [execute_until_run]);
      stopped at the title or the code block of the
      answer, it has made the request and leaves the question in the
      transcript without the answer ([stopped_after_request]); on any
      dictionary it only appends to the transcript
      ([stopped_run_keeps]).
    - Interactions that stop a run: the pages a user can reach when runs
      can be stopped during the request keep a weaker invariant, in which
      a question can be without its answer ([browse_timed_invariant],
      with [conversation] in place of [well_formed]; [impatient_run] is a
      visit that ends with such a transcript).
    - Rules of the runtime: no run, on any dictionary, stopped or not,
      configures the page anywhere but first or draws two widgets with
      one identity ([run_keeps_rules]).
    - Configuration: without a credential the page is displayed as usual
      and it is the request of a click that fails, with the error of the
      service ([missing_credential_on_use]).
    - Bounds: one run makes between 7 Streamlit calls and 11 more than
      the transcript has entries, adds two entries or none, and sends a
      prompt of the text of the user and 392 to 402 characters more
      ([run_bounds]); in a session there are at most as many requests as
      clicks, at most two entries of the transcript for every request
      and exactly two against a reliable service, and no request is
      larger than 402 characters more than the longest text entered,
      however long the conversation ([browse_bounds]).
    - Processes: under any interleaving the page of a session is the page
      its own steps lead to, and the requests sent for it are those of
      its own interactions ([serve_sent], [serve_sent_alone]), by an
      equivalence of servers under which runs are equal ([same_service],
      [rerun_service], [run_timed_service]).  This is proved once against the interface
      [Runner] ([isolated]) and stated for the runs that reach their end
      ([sessions_isolated]) and for the runs that can be stopped
      ([timed_sessions_isolated]: a run stopped in one session leaves no
      question without answer in another).  Every process reached keeps
      the invariant of its pages and the variables it was started with
      ([served_process_ok], [serve_conversing]; an invariant of every page
      is kept by the steps when the runs keep it, [step_every_page]); the
      credential is read by every run until one has found it in the file
      and is fixed from then on: the requests the script sends are made
      with it ([credential_follows_dotenv], on the requests and the
      environment of the runs of the script; [serve_environ_key] for any
      [Runner]).
    - Refinement: one execution implements one step of the specified
      controller taken without context ([execution_refines_step]); whole
      sessions agree when the service ignores the context
      ([memoryless_session_refines], and [page_refines_controller] for the
      sequences of interactions of the runtime); at any request the two
      agree exactly when the answer of the service with the context of
      the controller is its answer with none ([context_not_carried],
      [echo_session_differs] for a service that shows its context): the
      script opens a new chat on every execution (app.py 18), the
      specification keeps one.

    ** Bounds and fuel

    A response the script returns from is a finite [Stream], so the loop
    [accumulate] over it is structurally recursive and total.  The only
    definition with fuel is [for_loop], the loop over any iterator, whose
    fuel is the number of calls of [next] allowed.  For an iterator with a
    size that every chunk makes smaller, [for_loop_terminates] shows that
    [calls s] calls, at most one more than the size, are enough and that
    fewer are not, and that the result is that of the reference
    ([joined (texts s)], [failure s]); on a response it is [accumulate]
    ([for_loop_accumulate]).  On an iterator that never ends no number of
    calls is enough ([for_loop_endless]): the script would not return
    from such a response, and the executions of [App] are of responses
    that end.  Strings
    and lists are unbounded, as Python's are, and the script puts no
    limit on the text, the answer or the transcript: [Bounds] has what is
    bounded all the same, in terms of the text entered and of the number
    of clicks.  The number [n] of
    [execute_until n] is not a bound: it says where the execution is
    stopped, and every [n] is covered ([stopped_run_is_prefix]); the theorems
    on [execute] are about executions that are not stopped
    ([pending] is [None] in [boot]).

    ** Not modelled

    The code of the Streamlit runtime is not in the repository: [Runtime]
    has its documented behaviour for the four widgets the script uses,
    and [Process] has several sessions on one process, whose runs do not
    interleave statement by statement: the script shares nothing between
    runs but [os.environ], which every run extends in the same way
    ([execute_env], [execute_until_env]), and the credential that
    [genai.configure] keeps in a global of the client library, which
    every run sets, before it makes its model, to what it has read from
    the environment ([configured] in [World] is that global during one
    run).  The sequences of [Runtime] and
    [Session] are of runs that reach their end; [Interrupt] and the
    timed processes of [Process] have the sequences with runs that are
    stopped once their widgets are drawn, and a run that is stopped
    earlier is in [Stopped] for one execution only: what the runtime and
    the browser do with the values of widgets that a stopped run has not
    drawn is not modelled.  The text of an area is in the dictionary
    from the interaction that enters it ([act] of [Runtime]); in the
    script the call [st.text_area] writes what it returns under the key
    once the area is displayed ([st_text_area]), so an execution stopped
    at that very call has not written it, whereas Streamlit has the value
    of the widget before the call: for the pages of [Runtime] the two
    agree, since the text is under the key already.  A text area is
    known by its key alone ([widget_id] of [Rules], [sweep] of
    [Runtime]): the label of the area for the snippet changes with the
    language (app.py 154) and the text stays; a release of Streamlit that
    makes the label part of the identity of a keyed widget would empty
    the area when the language changes.  Layout and
    drawing in the browser, the cache and the other widgets of Streamlit,
    which the script does not use, are not modelled.  The client library
    [google.generativeai] and the remote service are the interface
    [Service]: any function of the client, the history and the prompt.  Of
    [python-dotenv], "the entries of the file are added for the names
    the environment does not define".  A display call raises nothing but
    [ScriptControlException] in the model.  The imports (app.py 1-4) have no
    behaviour of their own.

    Most theorems are about dictionaries that hold, under ["chat_history"],
    nothing or a list of pairs of strings ([typed]), which is what the
    script itself writes; [Untyped] has the other case, and
    [transcript_append_only] holds in both.

    ** Conventions

    A Python [str] is modelled by [string]: the sequence of the bytes of its
    UTF-8 encoding.  Concatenation, emptiness and equality of [str] values
    coincide with those of their encodings, which is all the script uses,
    apart from [str.lower], which is modelled on ASCII letters (the only
    strings it is applied to are the five options of the language selector).

    An exception is a value: fallible code returns [result], and the script
    monad [exec] keeps the state reached when the exception was raised, as
    Python does (nothing is rolled back). *)

From Stdlib Require Import String Ascii List Lia Bool Arith RelationClasses.
Import ListNotations.

#[local] Open Scope string_scope.

(** ** Strings *)

Declare Scope py_scope.
Delimit Scope py_scope with py.

Create HintDb pystr discriminated.
Create Rewrite HintDb pystr.

Lemma append_nil_r (s : string) : s ++ "" = s.
Proof. induction s as [|c s IH]; simpl; [reflexivity | now rewrite IH]. Qed.

Lemma append_assoc (s1 s2 s3 : string) : (s1 ++ s2) ++ s3 = s1 ++ (s2 ++ s3).
Proof. induction s1 as [|c s1 IH]; simpl; [reflexivity | now rewrite IH]. Qed.

Lemma length_append (s1 s2 : string) :
  String.length (s1 ++ s2) = String.length s1 + String.length s2.
Proof. induction s1 as [|c s1 IH]; simpl; [reflexivity | now rewrite IH]. Qed.

Lemma append_inv_head (s a b : string) : s ++ a = s ++ b -> a = b.
Proof. induction s as [|c s IH]; simpl; [trivial | intros [= H]; auto]. Qed.

Lemma append_eq_nil (a b : string) : a ++ b = "" -> a = "" /\ b = "".
Proof. destruct a; simpl; [auto | discriminate]. Qed.

Lemma length_zero_nil (s : string) : String.length s = 0 -> s = "".
Proof. destruct s; simpl; [reflexivity | discriminate]. Qed.

(** Two strings followed by the same tail are equal: by induction on the
    first, the lengths settling the cases where one of them is exhausted. *)
Lemma append_inv_tail (a b s : string) : a ++ s = b ++ s -> a = b.
Proof.
  revert b; induction a as [|c a IH]; intros [|d b] H; simpl in H.
  - reflexivity.
  - apply (f_equal String.length) in H; simpl in H.
    rewrite length_append in H; lia.
  - apply (f_equal String.length) in H; simpl in H.
    rewrite length_append in H; lia.
  - injection H as -> H. now rewrite (IH b H).
Qed.

(** Python's slice [s[n:n+m]] is [substring n m s]. *)
Lemma substring_skip (a s : string) (n m : nat) :
  substring (String.length a + n) m (a ++ s) = substring n m s.
Proof. induction a as [|c a IH]; simpl; [reflexivity | apply IH]. Qed.

Lemma substring_prefix (l t : string) : substring 0 (String.length l) (l ++ t) = l.
Proof.
  induction l as [|c l IH]; simpl; [now destruct t | now rewrite IH].
Qed.

Lemma substring_middle (a l t : string) :
  substring (String.length a) (String.length l) (a ++ l ++ t) = l.
Proof.
  rewrite <- (Nat.add_0_r (String.length a)), substring_skip.
  apply substring_prefix.
Qed.

#[export] Hint Rewrite append_nil_r append_assoc length_append : pystr.

(** ** Prefixes and substrings

    [prefix_of p s]: [s] starts with [p]; [occurs_in p s]: [p] is a
    contiguous part of [s] (Python's [p in s]).  [occursb] decides the
    latter with the Standard Library's [String.prefix]. *)

Definition prefix_of (p s : string) : Prop := exists t, s = p ++ t.

Definition occurs_in (p s : string) : Prop := exists a b, s = a ++ p ++ b.

Fixpoint occursb (p s : string) : bool :=
  String.prefix p s ||
  match s with
  | EmptyString => false
  | String _ s' => occursb p s'
  end.

Lemma prefix_true_iff (p s : string) : String.prefix p s = true <-> prefix_of p s.
Proof.
  revert s; induction p as [|c p IH]; intros [|d s]; simpl.
  - split; [now exists "" | reflexivity].
  - split; [now exists (String d s) | reflexivity].
  - split; [discriminate | intros [t [=]]].
  - destruct (ascii_dec c d) as [->|Hcd]; rewrite ?IH; split.
    + intros [t ->]; now exists t.
    + intros [t [= ->]]; now exists t.
    + discriminate.
    + intros [t [= -> _]]; now elim Hcd.
Qed.

Lemma prefix_of_occurs (p s : string) : prefix_of p s -> occurs_in p s.
Proof. intros [t ->]; now exists "", t. Qed.

Lemma occurs_in_refl (s : string) : occurs_in s s.
Proof. exists "", ""; simpl; now rewrite append_nil_r. Qed.

Lemma occurs_in_middle (a p b : string) : occurs_in p (a ++ p ++ b).
Proof. now exists a, b. Qed.

Lemma occurs_in_append_l (p s a : string) : occurs_in p s -> occurs_in p (a ++ s).
Proof. intros (x & y & ->); exists (a ++ x), y; now rewrite append_assoc. Qed.

Lemma occurs_in_append_r (p s b : string) : occurs_in p s -> occurs_in p (s ++ b).
Proof.
  intros (x & y & ->); exists x, (y ++ b); now rewrite !append_assoc.
Qed.

Lemma occurs_in_trans (p q s : string) :
  occurs_in p q -> occurs_in q s -> occurs_in p s.
Proof.
  intros Hpq (x & y & ->).
  now apply occurs_in_append_l, occurs_in_append_r.
Qed.

Lemma occurs_in_length (p s : string) :
  occurs_in p s -> String.length p <= String.length s.
Proof. intros (x & y & ->); rewrite !length_append; lia. Qed.

Lemma occurs_in_cons (p : string) (c : ascii) (s : string) :
  occurs_in p (String c s) <-> prefix_of p (String c s) \/ occurs_in p s.
Proof.
  split.
  - intros ([|d x] & y & H); simpl in H.
    + left; now exists y.
    + right; injection H as _ ->; now exists x, y.
  - intros [H | H]; [now apply prefix_of_occurs |].
    now apply (occurs_in_append_l p s (String c "")).
Qed.

Lemma occursb_true_iff (p s : string) : occursb p s = true <-> occurs_in p s.
Proof.
  induction s as [|c s IH]; cbn [occursb]; rewrite orb_true_iff, prefix_true_iff.
  - split; [intros [H | [=]]; now apply prefix_of_occurs |].
    intros (x & y & H); left.
    symmetry in H; apply append_eq_nil in H as [-> H].
    apply append_eq_nil in H as [-> ->]; now exists "".
  - now rewrite IH, occurs_in_cons.
Qed.

#[export] Hint Resolve occurs_in_refl occurs_in_middle occurs_in_append_l
  occurs_in_append_r prefix_of_occurs : pystr.

(** ** Concatenation of a list of strings

    [joined l] is [""].join(l) in Python: the elements of [l] one after the
    other, which is what the Standard Library's [String.concat] gives for
    the empty separator. *)

Definition joined (l : list string) : string := fold_right append "" l.

Lemma joined_app (l1 l2 : list string) : joined (l1 ++ l2) = joined l1 ++ joined l2.
Proof.
  induction l1 as [|s l1 IH]; simpl; [reflexivity |].
  now rewrite IH, append_assoc.
Qed.

Lemma joined_concat (l : list string) : joined l = String.concat "" l.
Proof.
  induction l as [|s [|t l] IH]; simpl in *;
    [reflexivity | apply append_nil_r | now rewrite IH].
Qed.

Lemma length_joined (l : list string) :
  String.length (joined l) = list_sum (map String.length l).
Proof.
  induction l as [|s l IH]; simpl; [reflexivity |].
  now rewrite length_append, IH.
Qed.

Lemma occurs_in_joined (s : string) (l : list string) :
  In s l -> occurs_in s (joined l).
Proof.
  induction l as [|t l IH]; simpl; [intros [] |].
  intros [-> | H]; [apply (occurs_in_middle "") | auto with pystr].
Qed.

#[export] Hint Rewrite joined_app length_joined : pystr.

(** ** Lists taken two elements at a time *)

Lemma pairs_ind {A} (P : list A -> Prop) :
  P [] -> (forall x, P [x]) -> (forall x y l, P l -> P (x :: y :: l)) ->
  forall l, P l.
Proof.
  intros H0 H1 H2 l.
  enough (P l /\ forall x, P (x :: l)) by tauto.
  induction l as [|y l [IH1 IH2]]; split; auto.
Qed.

(** ** Results of fallible code

    A Python call either returns a value or raises an exception.  [E] is
    the type of exceptions. *)

Inductive result (E A : Type) : Type :=
| Ok (a : A)
| Raise (e : E).

Arguments Ok {E A} a.
Arguments Raise {E A} e.

(** The exceptions the script can meet: a missing key of a dictionary, a
    name that is not bound, a method a value does not have, a value of the wrong form ([chunk.text] on
    a chunk with no text), and whatever the client of the remote service
    raises (no connection, a refused credential, an interrupted stream);
    [ScriptControlException] is what a Streamlit call raises to stop the
    script when the user has interacted with the page in the meantime
    ([StopException] or [RerunException], by the configuration of the
    runtime). *)
Inductive exn : Type :=
| KeyError (key : string)
| NameError (name : string)
| AttributeError (attribute : string)
| ValueError (message : string)
| UpstreamError (message : string)
| ScriptControlException.

Definition is_ok {E A} (r : result E A) : bool :=
  match r with Ok _ => true | Raise _ => false end.

Definition result_bind {E A B} (r : result E A) (k : A -> result E B) : result E B :=
  match r with Ok a => k a | Raise e => Raise e end.

Lemma is_ok_true_iff {E A} (r : result E A) : is_ok r = true <-> exists a, r = Ok a.
Proof.
  destruct r as [a|e]; simpl; split;
    [now exists a | reflexivity | discriminate | intros [a [=]]].
Qed.

(** ** The script monad

    Statements of the script read and change a world [W] (the session
    dictionary, the chat, the commands sent to the page) and may raise.  A
    raised exception ends the computation and leaves the world as it was
    when it was raised. *)

Section Exec.
Context {W E : Type}.

Definition exec (A : Type) : Type := W -> W * result E A.

Definition ret {A} (a : A) : exec A := fun w => (w, Ok a).

Definition raise {A} (e : E) : exec A := fun w => (w, Raise e).

Definition bind {A B} (m : exec A) (k : A -> exec B) : exec B :=
  fun w =>
    match m w with
    | (w', Ok a) => k a w'
    | (w', Raise e) => (w', Raise e)
    end.

Definition lift {A} (r : result E A) : exec A := fun w => (w, r).

Definition get : exec W := fun w => (w, Ok w).

Definition modify (f : W -> W) : exec unit := fun w => (f w, Ok tt).

(** [if b: body] with no [else]. *)
Definition when (b : bool) (body : exec unit) : exec unit :=
  if b then body else ret tt.

(** [for x in l: body x]. *)
Fixpoint for_each {A} (l : list A) (body : A -> exec unit) : exec unit :=
  match l with
  | [] => ret tt
  | x :: l' => bind (body x) (fun _ => for_each l' body)
  end.

Lemma bind_ret_l {A B} (a : A) (k : A -> exec B) (w : W) : bind (ret a) k w = k a w.
Proof. reflexivity. Qed.

Lemma bind_ret_r {A} (m : exec A) (w : W) : bind m ret w = m w.
Proof. unfold bind, ret; now destruct (m w) as [w' [a|e]]. Qed.

Lemma bind_assoc {A B C} (m : exec A) (k : A -> exec B) (h : B -> exec C) (w : W) :
  bind (bind m k) h w = bind m (fun a => bind (k a) h) w.
Proof. unfold bind; now destruct (m w) as [w' [a|e]]. Qed.

Lemma bind_raise {A B} (e : E) (k : A -> exec B) (w : W) :
  bind (raise e) k w = (w, Raise e).
Proof. reflexivity. Qed.

Lemma bind_ok {A B} (m : exec A) (k : A -> exec B) (w w' : W) (a : A) :
  m w = (w', Ok a) -> bind m k w = k a w'.
Proof. unfold bind; now intros ->. Qed.

Lemma bind_fails {A B} (m : exec A) (k : A -> exec B) (w w' : W) (e : E) :
  m w = (w', Raise e) -> bind m k w = (w', Raise e).
Proof. unfold bind; now intros ->. Qed.

(** What a sequence returns, read backwards: either its first part
    raised, or it returned and the rest ran from there. *)
Lemma bind_inv {A B} (m : exec A) (k : A -> exec B) (w w2 : W) (r : result E B) :
  bind m k w = (w2, r) ->
  (exists e, m w = (w2, Raise e) /\ r = Raise e) \/
  (exists w1 a, m w = (w1, Ok a) /\ k a w1 = (w2, r)).
Proof.
  unfold bind; destruct (m w) as [w1 [a|e]]; intros H.
  - right; now exists w1, a.
  - left; injection H as -> <-; now exists e.
Qed.

Lemma bind_ext {A B} (m : exec A) (k k' : A -> exec B) (w : W) :
  (forall a w', k a w' = k' a w') -> bind m k w = bind m k' w.
Proof. intros H; unfold bind; destruct (m w) as [w' [a|e]]; auto. Qed.

Lemma for_each_app {A} (l1 l2 : list A) (body : A -> exec unit) (w : W) :
  for_each (l1 ++ l2) body w
  = bind (for_each l1 body) (fun _ => for_each l2 body) w.
Proof.
  revert w; induction l1 as [|x l1 IH]; intros w; simpl; [reflexivity |].
  rewrite bind_assoc; apply bind_ext; intros _ w'; apply IH.
Qed.
End Exec.

Arguments exec W E A : clear implicits.

Notation "'let*' x ':=' m 'in' k" := (bind m (fun x => k))
  (at level 10, x name, m at level 100, k at level 200,
   format "'[v' 'let*'  x  ':='  m  'in' '/' k ']'") : py_scope.

(** ** Relations kept by every statement

    [steps R m]: the world [m] ends in is related by [R] to the world it
    started in, whatever [m] returns or raises.  For a reflexive and
    transitive [R] the property is closed under the constructs of the
    monad, so that a property of the whole script follows from the same
    property of the statements that write to the world. *)

Section Steps.
Context {W E : Type} (R : W -> W -> Prop) `{!PreOrder R}.

Definition steps {A} (m : exec W E A) : Prop := forall w, R w (fst (m w)).

Lemma steps_ret {A} (a : A) : steps (ret a).
Proof. intros w; reflexivity. Qed.

Lemma steps_raise {A} (e : E) : steps (raise (A := A) e).
Proof. intros w; reflexivity. Qed.

Lemma steps_lift {A} (r : result E A) : steps (lift r).
Proof. intros w; reflexivity. Qed.

Lemma steps_get : steps get.
Proof. intros w; reflexivity. Qed.

Lemma steps_modify (f : W -> W) : (forall w, R w (f w)) -> steps (modify f).
Proof. intros H w; apply H. Qed.

Lemma steps_bind {A B} (m : exec W E A) (k : A -> exec W E B) :
  steps m -> (forall a, steps (k a)) -> steps (bind m k).
Proof.
  intros Hm Hk w; unfold bind.
  specialize (Hm w); destruct (m w) as [w' [a|e]]; simpl in *; [|assumption].
  transitivity w'; [assumption | apply Hk].
Qed.

Lemma steps_when (b : bool) (body : exec W E unit) : steps body -> steps (when b body).
Proof. destruct b; simpl; [trivial | intros _; apply steps_ret]. Qed.

Lemma steps_for_each {A} (l : list A) (body : A -> exec W E unit) :
  (forall x, steps (body x)) -> steps (for_each l body).
Proof.
  intros H; induction l as [|x l IH]; simpl;
    [apply steps_ret | apply steps_bind; auto].
Qed.
End Steps.

(** [steps_step] takes one construct of the monad apart; [steps_tac]
    proves [steps R m] for a computation built from the constructs above,
    leaving the goals about the statements it does not know. *)
Ltac steps_step :=
  first
    [ apply steps_ret; try exact _
    | apply steps_raise; try exact _
    | apply steps_lift; try exact _
    | apply steps_get; try exact _
    | apply steps_bind; try exact _; [| intros ?]
    | apply steps_when; try exact _
    | apply steps_for_each; try exact _; intros ?
    | apply steps_modify; intros ? ].

Ltac steps_tac := repeat steps_step.
