(* ===== verification/PyStr.v ===== *)
(** * Python strings as the script uses them

    Truth value of a [str] ([if requirements:]), formatted string literals
    ([f"... {language} ..."]) and [str.lower] on ASCII text, with the facts
    the components share: what a formatted literal contains, how long it is,
    and that lowering keeps the length and is idempotent. *)

From Stdlib Require Import String Ascii List Lia Bool Arith.
From S2P Require Import Prelude.
Import ListNotations.

#[local] Open Scope string_scope.

(** ** Truth value

    [if s:] takes the branch when [s] is not the empty string. *)

Definition truthy (s : string) : bool :=
  match s with
  | EmptyString => false
  | String _ _ => true
  end.

(** ** Formatted string literals

    An f-string is a sequence of literal pieces and of replacement fields.
    The fields of the script hold [str] values with no conversion and no
    format specification, which are inserted unchanged. *)

Inductive part : Type :=
| Lit (s : string)
| Field (v : string).

Definition part_text (p : part) : string :=
  match p with Lit s => s | Field v => v end.

Definition fstring (ps : list part) : string := joined (map part_text ps).

Definition fields (ps : list part) : list string :=
  flat_map (fun p => match p with Lit _ => [] | Field v => [v] end) ps.

Definition literals (ps : list part) : list string :=
  flat_map (fun p => match p with Lit s => [s] | Field _ => [] end) ps.

(** ** [str.lower] on ASCII

    Bytes 65 to 90 (A to Z) are moved 32 up; every other byte is kept.  On
    text outside ASCII Python lowers by Unicode code point, which this
    definition does not model. *)

Definition is_upper (c : ascii) : bool :=
  Nat.leb 65 (nat_of_ascii c) && Nat.leb (nat_of_ascii c) 90.

Definition lower_ascii (c : ascii) : ascii :=
  if is_upper c then ascii_of_nat (nat_of_ascii c + 32) else c.

Fixpoint lower (s : string) : string :=
  match s with
  | EmptyString => EmptyString
  | String c s' => String (lower_ascii c) (lower s')
  end.

(** ** Lines

    [LF] is the line feed; [single_line s] holds when [s] has none, and
    [first_line s] is [s] up to its first line feed. *)

Definition LF : ascii := ascii_of_nat 10.

Fixpoint single_line (s : string) : bool :=
  match s with
  | EmptyString => true
  | String c s' => negb (Ascii.eqb c LF) && single_line s'
  end.

Fixpoint first_line (s : string) : string :=
  match s with
  | EmptyString => EmptyString
  | String c s' => if Ascii.eqb c LF then EmptyString else String c (first_line s')
  end.

(** ** Facts *)

Lemma truthy_true_iff (s : string) : truthy s = true <-> s <> "".
Proof. destruct s; simpl; split; congruence. Qed.

Lemma truthy_false_iff (s : string) : truthy s = false <-> s = "".
Proof. destruct s; simpl; split; congruence. Qed.

Lemma truthy_length (s : string) : truthy s = true <-> 0 < String.length s.
Proof. destruct s; simpl; split; (congruence || lia). Qed.

Lemma fstring_app (ps qs : list part) : fstring (ps ++ qs) = fstring ps ++ fstring qs.
Proof. unfold fstring; now rewrite map_app, joined_app. Qed.

Lemma fstring_cons (p : part) (ps : list part) : fstring (p :: ps) = part_text p ++ fstring ps.
Proof. reflexivity. Qed.

Lemma in_fields (v : string) (ps : list part) : In v (fields ps) <-> In (Field v) ps.
Proof.
  unfold fields; rewrite in_flat_map; split.
  - intros ([s|u] & Hin & H); simpl in H; [easy |].
    destruct H as [-> | []]; assumption.
  - intros H; exists (Field v); simpl; auto.
Qed.

(** Every value put in a replacement field is found unchanged in the
    formatted string. *)
Lemma field_occurs (v : string) (ps : list part) :
  In v (fields ps) -> occurs_in v (fstring ps).
Proof.
  rewrite in_fields; intros H; apply occurs_in_joined.
  change v with (part_text (Field v)); now apply in_map.
Qed.

Lemma literal_occurs (s : string) (ps : list part) :
  In (Lit s) ps -> occurs_in s (fstring ps).
Proof.
  intros H; apply occurs_in_joined.
  change s with (part_text (Lit s)); now apply in_map.
Qed.

(** The length of a formatted string: its literal text plus its values. *)
Lemma length_fstring (ps : list part) :
  String.length (fstring ps)
  = list_sum (map String.length (literals ps)) + list_sum (map String.length (fields ps)).
Proof.
  induction ps as [|[s|v] ps IH]; [reflexivity | |];
    rewrite fstring_cons, length_append, IH; simpl; lia.
Qed.

Lemma lower_ascii_not_upper (c : ascii) : is_upper (lower_ascii c) = false.
Proof.
  unfold lower_ascii; destruct (is_upper c) eqn:Hc; [|assumption].
  unfold is_upper in *; apply andb_true_iff in Hc as [H1 H2].
  apply Nat.leb_le in H1, H2.
  rewrite nat_ascii_embedding by lia.
  apply andb_false_iff; right; apply Nat.leb_gt; lia.
Qed.

Lemma lower_ascii_idem (c : ascii) : lower_ascii (lower_ascii c) = lower_ascii c.
Proof. unfold lower_ascii at 1; now rewrite lower_ascii_not_upper. Qed.

Lemma lower_idem (s : string) : lower (lower s) = lower s.
Proof. induction s as [|c s IH]; simpl; [reflexivity | now rewrite lower_ascii_idem, IH]. Qed.

Lemma length_lower (s : string) : String.length (lower s) = String.length s.
Proof. induction s as [|c s IH]; simpl; [reflexivity | now rewrite IH]. Qed.

Lemma lower_append (s t : string) : lower (s ++ t) = lower s ++ lower t.
Proof. induction s as [|c s IH]; simpl; [reflexivity | now rewrite IH]. Qed.

Lemma truthy_lower (s : string) : truthy (lower s) = truthy s.
Proof. now destruct s. Qed.

Lemma first_line_append (l t : string) :
  single_line l = true -> first_line (l ++ t) = l ++ first_line t.
Proof.
  induction l as [|c l IH]; simpl; [reflexivity |].
  intros [Hc Hl]%andb_true_iff; apply negb_true_iff in Hc.
  now rewrite Hc, IH.
Qed.

Lemma first_line_single (l : string) : single_line l = true -> first_line l = l.
Proof.
  intros H; rewrite <- (append_nil_r l) at 1.
  now rewrite first_line_append, append_nil_r.
Qed.

Lemma single_line_append (s t : string) :
  single_line (s ++ t) = single_line s && single_line t.
Proof.
  induction s as [|c s IH]; simpl; [reflexivity | now rewrite IH, andb_assoc].
Qed.

(** A formatted string of five parts, as both prompts are. *)
Lemma fstring_5 (a u b v c : string) :
  fstring [Lit a; Field u; Lit b; Field v; Lit c] = a ++ u ++ b ++ v ++ c.
Proof. unfold fstring; simpl; now rewrite append_nil_r. Qed.

Lemma fstring_3 (a u b : string) : fstring [Lit a; Field u; Lit b] = a ++ u ++ b.
Proof. unfold fstring; simpl; now rewrite append_nil_r. Qed.

#[export] Hint Rewrite fstring_app length_lower lower_idem lower_append : pystr.
#[export] Hint Resolve field_occurs literal_occurs : pystr.
