(* ===== verification/Prompt.v ===== *)
(** * Prompt builder

    The two prompts of the script: the formatted string literal of
    [generate_required_code] (app.py 22-33) and that of [enhance_code]
    (app.py 43-55), character for character, line breaks and the four
    spaces of indentation of the source included. *)

From Stdlib Require Import String Ascii List Lia Bool Arith.
From S2P Require Import Prelude PyStr.
Import ListNotations.

#[local] Open Scope string_scope.

(** The literal of [generate_required_code]: the language after
    "optimized", the requirements after "Requirements:". *)
Definition generate_template (requirements language : string) : list part :=
    [Lit "
    Based on the following user requirements, generate efficient and optimized ";
     Field language;
     Lit " code:
    
    Requirements: ";
     Field requirements;
     Lit "
    
    The generated code should:
    - Be optimized for performance and scalability.
    - Follow best practices and coding standards.
    - Ensure that the code is error-free and maintainable.
    
    Additionally, provide a brief description of the code functionality.
    "].

Definition generate_prompt (requirements language : string) : string :=
  fstring (generate_template requirements language).

(** The literal of [enhance_code]: the language after "following", the
    snippet after "Code:". *)
Definition enhance_template (snippet language : string) : list part :=
    [Lit "
    Optimize the following ";
     Field language;
     Lit " code for performance, readability, and error-free execution:
    
    Code: ";
     Field snippet;
     Lit "
    
    The enhanced code should:
    - Be optimized for performance.
    - Be free from potential errors or bugs.
    - Follow best practices and coding standards.
    - Be more readable and maintainable.
    
    Provide a brief explanation of the improvements made to the code.
    "].

Definition enhance_prompt (snippet language : string) : string :=
  fstring (enhance_template snippet language).

(** ** What the prompts contain *)

(** Both prompts have the shape [a ++ language ++ b ++ text ++ c]; the
    lemmas of this section are about that shape, for any literal text. *)
Definition shaped (a b c text language : string) : string :=
  fstring [Lit a; Field language; Lit b; Field text; Lit c].

Section Shape.
Variables a b c : string.

Lemma shaped_embeds (text language : string) :
  occurs_in language (shaped a b c text language)
  /\ occurs_in text (shaped a b c text language).
Proof. split; apply field_occurs; simpl; auto. Qed.

Lemma shaped_slices (text language : string) :
  substring (String.length a) (String.length language) (shaped a b c text language)
  = language
  /\ substring (String.length a + String.length language + String.length b)
       (String.length text) (shaped a b c text language) = text.
Proof.
  unfold shaped; rewrite fstring_5; split; [apply substring_middle |].
  rewrite <- !length_append.
  replace (a ++ language ++ b ++ text ++ c)
    with (((a ++ language) ++ b) ++ text ++ c) by now rewrite !append_assoc.
  apply substring_middle.
Qed.

Lemma shaped_length (text language : string) :
  String.length (shaped a b c text language)
  = String.length a + String.length b + String.length c
    + String.length language + String.length text.
Proof. unfold shaped; rewrite fstring_5, !length_append; lia. Qed.
End Shape.

(** When the literal after the language is a line [b1] that ends there
    (a line feed, then [b2]) and the languages have no line feed, the
    formatted string determines both values: the language is what stands
    between [a] and [b1] on the first line after [a]. *)
Lemma shaped_inj (a b1 b2 c t1 l1 t2 l2 : string) :
  single_line b1 = true -> single_line l1 = true -> single_line l2 = true ->
  shaped a (b1 ++ String LF b2) c t1 l1 = shaped a (b1 ++ String LF b2) c t2 l2 ->
  l1 = l2 /\ t1 = t2.
Proof.
  intros Hb1 H1 H2; unfold shaped; rewrite !fstring_5; intros H%append_inv_head.
  assert (l1 = l2) as ->.
  { apply (f_equal first_line) in H.
    rewrite !append_assoc, <- !(append_assoc _ b1) in H.
    rewrite (first_line_append (l1 ++ b1)), (first_line_append (l2 ++ b1)) in H
      by (rewrite single_line_append, ?H1, ?H2, Hb1; reflexivity).
    simpl in H; rewrite ?Ascii.eqb_refl, ?append_nil_r in H.
    now apply append_inv_tail in H. }
  split; [reflexivity |].
  do 2 apply append_inv_head in H; now apply append_inv_tail in H.
Qed.

(** The literal pieces of the two prompts, by position. *)
Definition generate_literal (i : nat) : string :=
  nth i (literals (generate_template "" "")) "".

Definition enhance_literal (i : nat) : string :=
  nth i (literals (enhance_template "" "")) "".

Lemma generate_prompt_shape (requirements language : string) :
  generate_prompt requirements language
  = shaped (generate_literal 0) (generate_literal 1) (generate_literal 2)
      requirements language.
Proof. reflexivity. Qed.

Lemma enhance_prompt_shape (snippet language : string) :
  enhance_prompt snippet language
  = shaped (enhance_literal 0) (enhance_literal 1) (enhance_literal 2)
      snippet language.
Proof. reflexivity. Qed.

(** In both prompts the language is followed by the rest of its line. *)
Lemma generate_literal_line :
  exists b2, generate_literal 1 = " code:" ++ String LF b2.
Proof. eexists; reflexivity. Qed.

Lemma enhance_literal_line :
  exists b2, enhance_literal 1
    = " code for performance, readability, and error-free execution:" ++ String LF b2.
Proof. eexists; reflexivity. Qed.

(** ** Properties of the two prompts *)

(** C8: The prompt of [generate_required_code] carries both arguments
    unchanged: the language is the slice that starts at offset 80, the
    requirements the slice that starts 30 characters after the language
    ends; in particular both occur in the prompt verbatim. *)
Theorem generate_prompt_embeds (requirements language : string) :
  let p := generate_prompt requirements language in
  substring 80 (String.length language) p = language
  /\ substring (80 + String.length language + 30) (String.length requirements) p
     = requirements
  /\ occurs_in language p /\ occurs_in requirements p.
Proof.
  cbv zeta; rewrite generate_prompt_shape.
  destruct (shaped_slices (generate_literal 0) (generate_literal 1)
              (generate_literal 2) requirements language) as [H1 H2].
  split; [exact H1 | split; [exact H2 | apply shaped_embeds]].
Qed.

(** The prompt of [enhance_code] carries both arguments unchanged: the
    language is the slice that starts at offset 28, the snippet the slice
    that starts 77 characters after the language ends. *)
Theorem enhance_prompt_embeds (snippet language : string) :
  let p := enhance_prompt snippet language in
  substring 28 (String.length language) p = language
  /\ substring (28 + String.length language + 77) (String.length snippet) p = snippet
  /\ occurs_in language p /\ occurs_in snippet p.
Proof.
  cbv zeta; rewrite enhance_prompt_shape.
  destruct (shaped_slices (enhance_literal 0) (enhance_literal 1)
              (enhance_literal 2) snippet language) as [H1 H2].
  split; [exact H1 | split; [exact H2 | apply shaped_embeds]].
Qed.

(** The prompts add a fixed amount of text to their arguments: 390
    characters for [generate_required_code], 392 for [enhance_code]. *)
Theorem prompt_length (text language : string) :
  String.length (generate_prompt text language)
  = 390 + String.length language + String.length text
  /\ String.length (enhance_prompt text language)
     = 392 + String.length language + String.length text.
Proof.
  rewrite generate_prompt_shape, enhance_prompt_shape, !shaped_length.
  split; reflexivity.
Qed.

(** The two tasks never produce the same prompt, whatever their
    arguments: the prompts differ at their sixth character. *)
Theorem prompts_differ (requirements language snippet language' : string) :
  generate_prompt requirements language <> enhance_prompt snippet language'.
Proof.
  rewrite generate_prompt_shape, enhance_prompt_shape.
  unfold shaped; rewrite !fstring_5; simpl; discriminate.
Qed.

(** C37: For languages written on one line, as the five the page offers
    are, the prompt of [generate_required_code] determines the language and
    the requirements it was built from. *)
Theorem generate_prompt_inj (r1 l1 r2 l2 : string) :
  single_line l1 = true -> single_line l2 = true ->
  generate_prompt r1 l1 = generate_prompt r2 l2 -> l1 = l2 /\ r1 = r2.
Proof.
  rewrite (generate_prompt_shape r1), (generate_prompt_shape r2).
  destruct generate_literal_line as [b2 ->]; now apply shaped_inj.
Qed.

Lemma generate_prompt_inj_witness :
  "Go" = "Go" /\ "add two numbers" = "add two numbers".
Proof.
  apply (generate_prompt_inj "add two numbers" "Go" "add two numbers" "Go");
    reflexivity.
Defined.

(** The same for [enhance_code]: a one-line language and the snippet
    are determined by the prompt. *)
Theorem enhance_prompt_inj (s1 l1 s2 l2 : string) :
  single_line l1 = true -> single_line l2 = true ->
  enhance_prompt s1 l1 = enhance_prompt s2 l2 -> l1 = l2 /\ s1 = s2.
Proof.
  rewrite (enhance_prompt_shape s1), (enhance_prompt_shape s2).
  destruct enhance_literal_line as [b2 ->]; now apply shaped_inj.
Qed.

Lemma enhance_prompt_inj_witness : "C++" = "C++" /\ "int x;" = "int x;".
Proof.
  apply (enhance_prompt_inj "int x;" "C++" "int x;" "C++"); reflexivity.
Defined.

(** The premise is needed.  With a language that spans lines the prompt
    does not determine the pair: a language that ends with the text the
    template puts after it, followed by requirements [y], gives the prompt
    of the plain language with requirements that start with that text. *)
Example generate_prompt_ambiguous :
  exists r1 l1 r2 l2,
    l1 <> l2 /\ r1 <> r2 /\ generate_prompt r1 l1 = generate_prompt r2 l2.
Proof.
  exists ("x" ++ generate_literal 1 ++ "y"), "Go".
  exists "y", ("Go" ++ generate_literal 1 ++ "x").
  split; [discriminate | split; [discriminate | reflexivity]].
Qed.
