(* ===== verification/Stream.v ===== *)
(** * Stream accumulator

    The response of [chat.send_message(prompt, stream=True)] is iterated
    once, chunk by chunk, and the texts of the chunks are concatenated
    (app.py 36-38 and 58-60).  A response is a finite sequence of chunks
    that ends normally or with an exception raised by the iteration; reading
    the text of a chunk can itself raise.  This file has the loop, a
    reference definition of what it computes, and the theorems that relate
    them; and the loop one call of [next] at a time over any iterator,
    which ends when the iterator does. *)

From Stdlib Require Import String Ascii List Lia Bool Arith.
From S2P Require Import Prelude PyStr.
Import ListNotations.

#[local] Open Scope string_scope.

(** A chunk of the response: one with text, or one whose [text] property
    raises (a chunk with no text part). *)
Inductive Chunk : Type :=
| TextChunk (t : string)
| NoText (e : exn).

(** [chunk.text]. *)
Definition text (c : Chunk) : result exn string :=
  match c with
  | TextChunk t => Ok t
  | NoText e => Raise e
  end.

(** The iterator over the response: exhausted, a chunk and the rest, or an
    exception raised while waiting for the next chunk. *)
Inductive Stream : Type :=
| Done
| Yield (c : Chunk) (rest : Stream)
| Broken (e : exn).

(** The loop [for chunk in response: code += chunk.text], started with
    [code = acc]. *)
Fixpoint accumulate (acc : string) (response : Stream) : result exn string :=
  match response with
  | Done => Ok acc
  | Yield c rest =>
      match text c with
      | Ok t => accumulate (acc ++ t) rest
      | Raise e => Raise e
      end
  | Broken e => Raise e
  end.

(** ** Reference definitions *)

(** The response that yields the given texts and ends normally. *)
Fixpoint of_texts (ts : list string) : Stream :=
  match ts with
  | [] => Done
  | t :: ts' => Yield (TextChunk t) (of_texts ts')
  end.

(** The texts a response yields before it ends or fails. *)
Fixpoint texts (s : Stream) : list string :=
  match s with
  | Yield (TextChunk t) rest => t :: texts rest
  | _ => []
  end.

(** The exception a response ends with, if any: that of the first chunk
    with no text or of the broken iteration. *)
Fixpoint failure (s : Stream) : option exn :=
  match s with
  | Done => None
  | Yield (TextChunk _) rest => failure rest
  | Yield (NoText e) _ => Some e
  | Broken e => Some e
  end.

(** The number of chunks the loop reads. *)
Fixpoint chunks_read (s : Stream) : nat :=
  match s with
  | Yield (TextChunk _) rest => S (chunks_read rest)
  | Yield (NoText _) _ => 1
  | _ => 0
  end.

(** One response after another: what follows the normal end of the first. *)
Fixpoint then_stream (s1 s2 : Stream) : Stream :=
  match s1 with
  | Done => s2
  | Yield c rest => Yield c (then_stream rest s2)
  | Broken e => Broken e
  end.

(** ** The loop, one call of the iterator at a time

    A [for] statement calls [next] on the iterator of the response until
    the iterator is exhausted; each call gives a chunk, the end of the
    iteration, or an exception of the transport.  Nothing in the script
    bounds the chunks of a response, so the loop is stated over any
    iterator: its positions [I] and what [next] gives at a position.  A
    response is one such iterator, and so is one that never ends. *)
Inductive Next (I : Type) : Type :=
| Item (c : Chunk) (rest : I)
| StopIteration
| Failed (e : exn).

Arguments Item {I} c rest.
Arguments StopIteration {I}.
Arguments Failed {I} e.

(** [next] on a response. *)
Definition next (it : Stream) : Next Stream :=
  match it with
  | Done => StopIteration
  | Yield c rest => Item c rest
  | Broken e => Failed e
  end.

(** The loop of app.py 37-38 over the iterator [advance], run for at most
    [fuel] calls of it: [None] when the calls allowed are used up before
    the loop has ended. *)
Fixpoint for_loop {I : Type} (advance : I -> Next I) (fuel : nat) (acc : string) (it : I) :
    option (result exn string) :=
  match fuel with
  | 0 => None
  | S fuel' =>
      match advance it with
      | StopIteration => Some (Ok acc)
      | Failed e => Some (Raise e)
      | Item c rest =>
          match text c with
          | Ok t => for_loop advance fuel' (acc ++ t) rest
          | Raise e => Some (Raise e)
          end
      end
  end.

(** The calls of [next] the loop makes on a response: one per chunk it
    reads, and the one that ends the iteration or fails. *)
Fixpoint calls (s : Stream) : nat :=
  match s with
  | Yield (TextChunk _) rest => S (calls rest)
  | _ => 1
  end.

(** The chunks of a response, read or not. *)
Fixpoint chunks (s : Stream) : nat :=
  match s with
  | Yield _ rest => S (chunks rest)
  | _ => 0
  end.

(** What an iterator gives from the position [it], as a response: its
    chunks up to the end of the iteration, and no more than [n] of them. *)
Fixpoint response_of {I : Type} (advance : I -> Next I) (n : nat) (it : I) : Stream :=
  match advance it with
  | StopIteration => Done
  | Failed e => Broken e
  | Item c rest =>
      match n with
      | 0 => Done
      | S n' => Yield c (response_of advance n' rest)
      end
  end.

(** An iterator ends when something gets smaller with every chunk it
    gives: the chunks still to come, the bytes left on the connection. *)
Definition ends {I : Type} (advance : I -> Next I) (size : I -> nat) : Prop :=
  forall it c rest, advance it = Item c rest -> size rest < size it.

(** The iterator that gives the chunk [c] for ever. *)
Definition endless (c : Chunk) (it : unit) : Next unit := Item c it.

(** ** The loop and its reference *)

Lemma accumulate_acc (acc : string) (s : Stream) :
  accumulate acc s = result_bind (accumulate "" s) (fun t => Ok (acc ++ t)).
Proof.
  revert acc; induction s as [|[t|e] rest IH|e]; intros acc; simpl;
    [now rewrite append_nil_r | | reflexivity | reflexivity].
  rewrite IH, (IH t); destruct (accumulate "" rest) as [u|e]; simpl;
    [now rewrite append_assoc | reflexivity].
Qed.

Lemma accumulate_spec (acc : string) (s : Stream) :
  accumulate acc s
  = match failure s with
    | None => Ok (acc ++ joined (texts s))
    | Some e => Raise e
    end.
Proof.
  revert acc; induction s as [|[t|e] rest IH|e]; intros acc; simpl;
    [now rewrite append_nil_r | | reflexivity | reflexivity].
  rewrite IH; destruct (failure rest); [reflexivity | now rewrite append_assoc].
Qed.

Lemma failure_of_texts (ts : list string) : failure (of_texts ts) = None.
Proof. induction ts; simpl; auto. Qed.

Lemma texts_of_texts (ts : list string) : texts (of_texts ts) = ts.
Proof. induction ts as [|t ts IH]; simpl; [reflexivity | now rewrite IH]. Qed.

Lemma failure_then (s1 s2 : Stream) :
  failure (then_stream s1 s2)
  = match failure s1 with Some e => Some e | None => failure s2 end.
Proof. induction s1 as [|[t|e] rest IH|e]; simpl; auto. Qed.

Lemma texts_then (s1 s2 : Stream) :
  failure s1 = None -> texts (then_stream s1 s2) = (texts s1 ++ texts s2)%list.
Proof.
  induction s1 as [|[t|e] rest IH|e]; simpl; intros H;
    [reflexivity | now rewrite IH | discriminate | discriminate].
Qed.

Lemma length_texts (s : Stream) : failure s = None -> length (texts s) = chunks_read s.
Proof.
  induction s as [|[t|e] rest IH|e]; simpl; intros H;
    [reflexivity | now rewrite IH | discriminate | discriminate].
Qed.

Lemma accumulate_raises (acc : string) (s : Stream) (e : exn) :
  accumulate acc s = Raise e -> failure s = Some e.
Proof. rewrite accumulate_spec; destruct (failure s); congruence. Qed.

#[export] Hint Rewrite failure_of_texts texts_of_texts failure_then : pystr.

(** ** Properties of the loop *)

(** C3: On a response that yields the texts [ts] and ends normally the
    loop returns their concatenation in arrival order, which is Python's
    [str.join] with the empty separator; on the empty response it returns
    the empty string. *)
Theorem accumulate_of_texts (ts : list string) :
  accumulate "" (of_texts ts) = Ok (String.concat "" ts)
  /\ accumulate "" Done = Ok "".
Proof.
  split; [|reflexivity].
  now rewrite accumulate_spec, failure_of_texts, texts_of_texts, joined_concat.
Qed.

(** C40: The loop returns exactly when no chunk lacks text and the
    iteration does not break, and then it returns the start value followed
    by the texts of all the chunks, in order. *)
Theorem accumulate_ok_iff (acc : string) (s : Stream) (r : string) :
  accumulate acc s = Ok r <-> failure s = None /\ r = acc ++ joined (texts s).
Proof.
  rewrite accumulate_spec; destruct (failure s) as [e|]; split.
  - discriminate.
  - intros [[=] _].
  - intros [= <-]; auto.
  - intros [_ ->]; reflexivity.
Qed.

(** C10: The loop raises exactly the first exception of the response: that
    of the first chunk without text, or of the iteration when it breaks
    before such a chunk.  What was accumulated is lost. *)
Theorem accumulate_raises_iff (acc : string) (s : Stream) (e : exn) :
  accumulate acc s = Raise e <-> failure s = Some e.
Proof.
  rewrite accumulate_spec; destruct (failure s) as [e'|]; split; congruence.
Qed.

(** Reading one response after another is reading the first, then
    the second from what the first gave: chunks are taken in arrival
    order, and a failure of the first part hides the second. *)
Theorem accumulate_then (acc : string) (s1 s2 : Stream) :
  accumulate acc (then_stream s1 s2)
  = result_bind (accumulate acc s1) (fun a => accumulate a s2).
Proof.
  revert acc; induction s1 as [|[t|e] rest IH|e]; intros acc; simpl; auto.
Qed.

(** The text returned is as long as the start value and the texts of
    the chunks together, and the loop reads every chunk once. *)
Theorem accumulate_length (acc : string) (s : Stream) (r : string) :
  accumulate acc s = Ok r ->
  String.length r = String.length acc + list_sum (map String.length (texts s))
  /\ chunks_read s = length (texts s).
Proof.
  rewrite accumulate_spec; destruct (failure s) eqn:Hf; [discriminate |].
  intros [= <-]; rewrite length_append, length_joined, length_texts by assumption.
  auto.
Qed.

Lemma accumulate_length_witness :
  String.length "def add(a,b): return a+b"
  = String.length "" + list_sum (map String.length
      (texts (of_texts ["def add(a,b):"; " return a+b"])))
  /\ chunks_read (of_texts ["def add(a,b):"; " return a+b"])
     = length (texts (of_texts ["def add(a,b):"; " return a+b"])).
Proof.
  apply (accumulate_length "" (of_texts ["def add(a,b):"; " return a+b"])).
  reflexivity.
Defined.

(** ** The loop ends when the response does *)

(** On a response the loop, one call at a time, is [accumulate]: it ends
    with the call numbered [calls s]. *)
Lemma for_loop_accumulate (fuel : nat) (acc : string) (s : Stream) :
  for_loop next fuel acc s
  = if Nat.leb (calls s) fuel then Some (accumulate acc s) else None.
Proof.
  revert acc s; induction fuel as [|fuel IH]; intros acc [|[t|e] rest|e];
    try reflexivity.
  cbn [for_loop next text calls accumulate Nat.leb]; apply IH.
Qed.

Lemma calls_chunks (s : Stream) : calls s <= S (chunks s).
Proof. induction s as [|[t|e] rest IH|e]; simpl; lia. Qed.

Lemma next_ends : ends next chunks.
Proof. intros [|c' s|e] c rest [=]; subst; simpl; lia. Qed.

Lemma response_of_next (n : nat) (s : Stream) : chunks s <= n -> response_of next n s = s.
Proof.
  revert n; induction s as [|c rest IH|e]; intros [|n] H; simpl in *;
    try reflexivity; [lia | rewrite IH by lia; reflexivity].
Qed.

Section Iterator.
Context {I : Type} (advance : I -> Next I).

(** The loop over an iterator is the loop over the response the iterator
    gives, when the response is taken with all the chunks the loop can
    reach. *)
Lemma for_loop_response (fuel n : nat) (acc : string) (it : I) :
  fuel <= n -> for_loop advance fuel acc it = for_loop next fuel acc (response_of advance n it).
Proof.
  revert n acc it; induction fuel as [|fuel IH]; intros n acc it Hn; [reflexivity |].
  destruct n as [|n]; [lia |]; simpl.
  destruct (advance it) as [c rest| |e]; simpl; try reflexivity.
  destruct (text c) as [t|e]; [apply IH; lia | reflexivity].
Qed.

(** With the chunks of a response bounded, taking more of them changes
    nothing. *)
Lemma response_of_ends (size : I -> nat) (n : nat) (it : I) :
  ends advance size -> size it <= n ->
  response_of advance n it = response_of advance (size it) it
  /\ chunks (response_of advance n it) <= size it.
Proof.
  intros Hends; revert n; induction it as [it IH] using (induction_ltof1 _ size).
  intros n Hn; unfold ltof in IH.
  destruct (advance it) as [c rest| |e] eqn:Hit;
    [| destruct n, (size it); simpl; rewrite Hit; split; (reflexivity || simpl; lia) ..].
  pose proof (Hends it c rest Hit) as Hlt.
  destruct n as [|n]; [lia |]; destruct (size it) as [|k] eqn:Hk; [lia |].
  simpl; rewrite Hit.
  destruct (IH rest ltac:(lia) n ltac:(lia)) as [-> Hc].
  destruct (IH rest ltac:(lia) k ltac:(lia)) as [-> _].
  split; [reflexivity | simpl; lia].
Qed.

End Iterator.

(** C17: The loop over a response that ends, ends.  For an iterator with
    a size that every chunk makes smaller, the response it gives from a
    position has no more chunks than the size there; the loop ends with
    the call of [next] numbered [calls s], one per chunk read and one
    more, and returns the start value followed by the texts of the chunks
    in arrival order, or raises the first exception of the response; with
    fewer calls allowed it has not ended, and more calls change nothing. *)
Theorem for_loop_terminates {I : Type} (advance : I -> Next I) (size : I -> nat)
    (fuel : nat) (acc : string) (it : I) :
  ends advance size ->
  let s := response_of advance (size it) it in
  calls s <= S (size it)
  /\ for_loop advance fuel acc it
     = (if Nat.leb (calls s) fuel
        then Some match failure s with
                  | None => Ok (acc ++ joined (texts s))
                  | Some e => Raise e
                  end
        else None).
Proof.
  intros Hends s.
  destruct (response_of_ends advance size (Nat.max fuel (size it)) it Hends) as [Hs Hc];
    [lia |].
  fold s in Hs; rewrite Hs in Hc.
  pose proof (calls_chunks s); split; [lia |].
  rewrite (for_loop_response advance fuel (Nat.max fuel (size it))) by lia.
  now rewrite Hs, for_loop_accumulate, accumulate_spec.
Qed.

Lemma for_loop_terminates_witness :
  let s := response_of next 2 (of_texts ["def add(a,b):"; " return a+b"]) in
  calls s <= 3
  /\ for_loop next 3 "" (of_texts ["def add(a,b):"; " return a+b"])
     = (if Nat.leb (calls s) 3
        then Some match failure s with
                  | None => Ok ("" ++ joined (texts s))
                  | Some e => Raise e
                  end
        else None).
Proof.
  apply (for_loop_terminates next chunks 3 "" (of_texts ["def add(a,b):"; " return a+b"])
           next_ends).
Defined.

(** The premise is needed: on the iterator that gives a chunk of text for
    ever the loop does not end, whatever the calls allowed. *)
Lemma for_loop_endless (fuel : nat) (acc t : string) :
  for_loop (endless (TextChunk t)) fuel acc tt = None.
Proof. revert acc; induction fuel as [|fuel IH]; intros acc; simpl; auto. Qed.
