(* ===== verification/Chat.v ===== *)
(** * Model session

    The client of the remote text-generation service: the configuration
    made at the top of the script (app.py 11-17), the chat opened with an
    empty history (app.py 18) and [send_message], the one call the script
    makes to the service (app.py 35 and 57).

    The service itself is outside the program.  It is an interface,
    [Service]: given the configured client, the history of the chat and the
    prompt, it raises or answers with a stream of chunks.  Theorems about
    the script hold for every service; the services defined here are the
    ones the examples run against. *)

From Stdlib Require Import String Ascii List Lia Bool Arith.
From S2P Require Import Prelude PyStr Stream.
Import ListNotations.

#[local] Open Scope string_scope.

(** Who wrote an entry of the history of a chat. *)
Inductive Role : Type := User | Model.

(** An entry of the history of a chat. *)
Record Content : Type := mkContent { role : Role; body : string }.

(** What [genai.configure] and [genai.GenerativeModel] fix: the credential
    read from the environment, which may be absent, and the model name. *)
Record Client : Type := mkClient { api_key : option string; model_name : string }.

(** The chat: the client it was opened on and the exchanges so far. *)
Record ChatSession : Type := mkChat { client : Client; history : list Content }.

(** The remote service. *)
Class Service : Type :=
  respond : Client -> list Content -> string -> result exn Stream.

(** [genai.GenerativeModel("gemini-pro")] for the configured credential. *)
Definition GenerativeModel (key : option string) (name : string) : Client :=
  {| api_key := key; model_name := name |}.

(** [model.start_chat(history=...)]. *)
Definition start_chat (c : Client) (h : list Content) : ChatSession :=
  {| client := c; history := h |}.

(** [chat.send_message(prompt, stream=True)]: the prompt goes to the
    service with the history of the chat; the call raises or returns the
    stream. *)
Definition send_message `{Service} (chat : ChatSession) (prompt : string) :
    result exn Stream :=
  respond (client chat) (history chat) prompt.

(** Once the stream has been read to its end the chat holds the prompt and
    the complete answer, which are the context of the next request. *)
Definition record_exchange (chat : ChatSession) (prompt answer : string) : ChatSession :=
  {| client := client chat;
     history := history chat ++ [mkContent User prompt; mkContent Model answer] |}.

(** ** Services used in examples *)

(** A service that answers every prompt with the same chunks. *)
Definition fixed_service (ts : list string) : Service :=
  fun _ _ _ => Ok (of_texts ts).

(** A service that cannot be reached. *)
Definition unreachable_service : Service :=
  fun _ _ _ => Raise (UpstreamError "unreachable").

(** A service whose stream breaks after the given chunks. *)
Definition breaking_service (ts : list string) : Service :=
  fun _ _ _ => Ok (then_stream (of_texts ts) (Broken (UpstreamError "interrupted"))).

(** A service that refuses a client with no credential and otherwise
    answers with the number of entries of the history as a row of dots
    followed by the prompt: its answer shows the context it was given. *)
Definition echo_service : Service :=
  fun c h prompt =>
    match api_key c with
    | None => Raise (UpstreamError "no credential")
    | Some _ => Ok (of_texts [joined (map (fun _ => ".") h); prompt])
    end.

(** A service is reliable when it answers every request with a stream that
    ends normally. *)
Definition reliable (svc : Service) : Prop :=
  forall c h p, exists s, svc c h p = Ok s /\ failure s = None.

(** ** Facts *)

Lemma length_record_exchange (chat : ChatSession) (p a : string) :
  length (history (record_exchange chat p a)) = length (history chat) + 2.
Proof. simpl; now rewrite length_app. Qed.

Lemma fixed_service_reliable (ts : list string) : reliable (fixed_service ts).
Proof. intros c h p; exists (of_texts ts); split; [reflexivity | apply failure_of_texts]. Qed.

Lemma unreachable_not_reliable : ~ reliable unreachable_service.
Proof.
  intros H; destruct (H (mkClient None "") [] "") as (s & Hs & _); discriminate.
Qed.
