(* ===== verification/Transcript.v ===== *)
(** * Transcript store

    [st.session_state] is the dictionary that Streamlit keeps from one
    execution of the script to the next.  The script uses one key of it,
    ["chat_history"], which holds the transcript: a list of (role, text)
    pairs.  This file has the dictionary, the three statements that touch
    it (creation when missing, app.py 125-126; [append], app.py 144, 149,
    161, 166; the read of the loop that displays it, app.py 171), the
    transcript a dictionary stands for, and the well-formedness of
    transcripts. *)

From Stdlib Require Import Btauto.
From stdpp Require Import gmap strings list.
From S2P Require Import Prelude PyStr.

(** The values the dictionary can hold: it is untyped in Python, and
    Streamlit also stores the text of keyed widgets in it. *)
Inductive pyval : Type :=
| PyStr (s : string)
| PyList (l : list (string * string)).

#[export] Instance pyval_eq_dec : EqDecision pyval.
Proof. solve_decision. Defined.

Abbreviation session := (gmap string pyval).

(** [if "chat_history" not in st.session_state:
        st.session_state["chat_history"] = []]. *)
Definition init_history (ss : session) : session :=
  match ss !! "chat_history" with
  | None => <["chat_history" := PyList []]> ss
  | Some _ => ss
  end.

(** [st.session_state["chat_history"].append(entry)]: the subscript raises
    [KeyError] on a missing key, and a [str] has no [append]. *)
Definition append_history (entry : string * string) (ss : session) : result exn session :=
  match ss !! "chat_history" with
  | None => Raise (KeyError "chat_history")
  | Some (PyList l) => Ok (<["chat_history" := PyList (l ++ [entry])]> ss)
  | Some (PyStr _) => Raise (AttributeError "append")
  end.

(** [for role, text in st.session_state["chat_history"]]: the pairs the
    loop goes through.  Over a [str] the loop takes characters, and the
    first one cannot be unpacked into two names. *)
Definition read_history (ss : session) : result exn (list (string * string)) :=
  match ss !! "chat_history" with
  | None => Raise (KeyError "chat_history")
  | Some (PyList l) => Ok l
  | Some (PyStr s) =>
      if truthy s then Raise (ValueError "not enough values to unpack") else Ok []
  end.

(** ** The transcript of a dictionary *)

(** The entries the dictionary holds, none when the key is missing. *)
Definition transcript (ss : session) : list (string * string) :=
  match ss !! "chat_history" with
  | Some (PyList l) => l
  | _ => []
  end.

(** The key is missing or holds a list: what every dictionary the script
    has written satisfies. *)
Definition typed (ss : session) : bool :=
  match ss !! "chat_history" with
  | Some (PyStr _) => false
  | _ => true
  end.

(** The exchanges of a transcript: it is well formed when it is a sequence
    of a question of the user, which is not empty, followed by the answer
    of the model. *)
Fixpoint exchanges (l : list (string * string)) : option (list (string * string)) :=
  match l with
  | [] => Some []
  | (r1, q) :: l1 =>
      match l1 with
      | (r2, a) :: l2 =>
          if bool_decide (r1 = "You") && bool_decide (r2 = "Bot") && truthy q
          then cons (q, a) <$> exchanges l2
          else None
      | [] => None
      end
  end.

Definition well_formed (l : list (string * string)) : bool :=
  bool_decide (is_Some (exchanges l)).

(** The weaker form a transcript keeps when executions can be stopped:
    every entry is a question of the user, which is not empty, or an
    answer that follows a question directly.  [after_you] says that the
    entry before is a question. *)
Fixpoint dialogue (after_you : bool) (l : list (string * string)) : bool :=
  match l with
  | [] => true
  | (r, x) :: l' =>
      if bool_decide (r = "You") then truthy x && dialogue true l'
      else bool_decide (r = "Bot") && after_you && dialogue false l'
  end.

Definition conversation (l : list (string * string)) : bool := dialogue false l.

(** The two entries of one exchange. *)
Definition exchange (q a : string) : list (string * string) := [("You", q); ("Bot", a)].

(** ** Facts about the statements *)

Section Statements.
Implicit Types (ss : session) (entry : string * string).

Lemma init_history_lookup ss : is_Some (init_history ss !! "chat_history").
Proof.
  unfold init_history; destruct (ss !! "chat_history") eqn:H;
    [by rewrite H | by rewrite lookup_insert_eq].
Qed.

Lemma init_history_other ss (k : string) :
  k ≠ "chat_history" -> init_history ss !! k = ss !! k.
Proof.
  intros Hk; unfold init_history; destruct (ss !! "chat_history");
    [done | by rewrite lookup_insert_ne].
Qed.

Lemma init_history_transcript ss : transcript (init_history ss) = transcript ss.
Proof.
  unfold transcript, init_history; destruct (ss !! "chat_history") eqn:H;
    [by rewrite H | by rewrite lookup_insert_eq].
Qed.

Lemma init_history_typed ss : typed (init_history ss) = typed ss.
Proof.
  unfold typed, init_history; destruct (ss !! "chat_history") eqn:H;
    [by rewrite H | by rewrite lookup_insert_eq].
Qed.

Lemma init_history_idem ss : init_history (init_history ss) = init_history ss.
Proof.
  unfold init_history at 1; by destruct (init_history_lookup ss) as [v ->].
Qed.

(** A dictionary that has the key and is typed holds its transcript. *)
Lemma typed_lookup ss :
  typed ss = true -> is_Some (ss !! "chat_history") ->
  ss !! "chat_history" = Some (PyList (transcript ss)).
Proof.
  unfold typed, transcript; intros Ht [v Hv]; rewrite Hv in *.
  by destruct v.
Qed.

Lemma append_history_ok ss entry :
  typed ss = true -> is_Some (ss !! "chat_history") ->
  append_history entry ss
  = Ok (<["chat_history" := PyList (transcript ss ++ [entry])]> ss).
Proof. intros Ht Hs; unfold append_history; by rewrite typed_lookup. Qed.

Lemma append_history_inv ss ss' entry :
  append_history entry ss = Ok ss' ->
  transcript ss' = transcript ss ++ [entry] /\ typed ss' = true
  /\ typed ss = true /\ is_Some (ss !! "chat_history")
  /\ forall k : string, k ≠ "chat_history" -> ss' !! k = ss !! k.
Proof.
  unfold append_history, transcript, typed.
  destruct (ss !! "chat_history") as [[s|l]|] eqn:H; try done.
  intros [= <-]; rewrite lookup_insert_eq; repeat split; eauto.
  intros k Hk; by rewrite lookup_insert_ne.
Qed.

Lemma append_history_insert ss l entry :
  append_history entry (<["chat_history" := PyList l]> ss)
  = Ok (<["chat_history" := PyList (l ++ [entry])]> ss).
Proof. unfold append_history; by rewrite lookup_insert_eq, insert_insert_eq. Qed.

Lemma transcript_insert ss l : transcript (<["chat_history" := PyList l]> ss) = l.
Proof. unfold transcript; by rewrite lookup_insert_eq. Qed.

Lemma typed_insert ss l : typed (<["chat_history" := PyList l]> ss) = true.
Proof. unfold typed; by rewrite lookup_insert_eq. Qed.

Lemma read_history_insert ss l : read_history (<["chat_history" := PyList l]> ss) = Ok l.
Proof. unfold read_history; by rewrite lookup_insert_eq. Qed.

Lemma read_history_ok ss :
  typed ss = true -> is_Some (ss !! "chat_history") ->
  read_history ss = Ok (transcript ss).
Proof. intros Ht Hs; unfold read_history; by rewrite typed_lookup. Qed.

(** An entry under another key changes nothing of the transcript. *)
Lemma lookup_history_insert_ne ss (k : string) (v : pyval) :
  k ≠ "chat_history" -> <[k := v]> ss !! "chat_history" = ss !! "chat_history".
Proof. intros Hk; by rewrite lookup_insert_ne. Qed.

Lemma transcript_insert_ne ss (k : string) (v : pyval) :
  k ≠ "chat_history" -> transcript (<[k := v]> ss) = transcript ss.
Proof. intros Hk; unfold transcript; by rewrite lookup_history_insert_ne. Qed.

Lemma typed_insert_ne ss (k : string) (v : pyval) :
  k ≠ "chat_history" -> typed (<[k := v]> ss) = typed ss.
Proof. intros Hk; unfold typed; by rewrite lookup_history_insert_ne. Qed.

Lemma init_history_typed_true ss : typed ss = true -> typed (init_history ss) = true.
Proof. by rewrite init_history_typed. Qed.

Lemma insert_history_lookup ss l : is_Some (<["chat_history" := PyList l]> ss !! "chat_history").
Proof. by rewrite lookup_insert_eq. Qed.

End Statements.

Create HintDb session discriminated.
#[export] Hint Resolve init_history_lookup init_history_typed_true typed_insert
  insert_history_lookup : session.

(** ** Facts about well-formed transcripts *)

Lemma exchanges_exchange (q a : string) (l : list (string * string)) :
  exchanges (exchange q a ++ l)
  = if truthy q then cons (q, a) <$> exchanges l else None.
Proof. by cbn. Qed.

Lemma exchanges_app (l1 l2 : list (string * string)) xs :
  exchanges l1 = Some xs ->
  exchanges (l1 ++ l2) = (xs ++.) <$> exchanges l2.
Proof.
  revert xs; induction l1 as [| [r q] | [r1 q] [r2 a] l1 IH] using pairs_ind;
    intros xs; cbn.
  - intros [= <-]; by destruct (exchanges l2).
  - done.
  - case_match; [|done].
    destruct (exchanges l1) as [ys|]; [|done]; intros [= <-].
    rewrite (IH ys eq_refl); by destruct (exchanges l2).
Qed.

Lemma well_formed_nil : well_formed [] = true.
Proof. done. Qed.

(** Appending one exchange with a question that is not empty keeps a
    transcript well formed. *)
Lemma well_formed_snoc (l : list (string * string)) (q a : string) :
  well_formed l = true -> truthy q = true ->
  well_formed (l ++ exchange q a) = true.
Proof.
  unfold well_formed; rewrite !bool_decide_eq_true; intros [xs Hxs] Hq.
  rewrite (exchanges_app _ _ xs Hxs).
  rewrite <- (app_nil_r (exchange q a)), exchanges_exchange, Hq; by cbn.
Qed.

(** One more entry after a well-formed transcript is a question without
    answer, or worse. *)
Lemma well_formed_dangling (l : list (string * string)) (entry : string * string) :
  well_formed l = true -> well_formed (l ++ [entry]) = false.
Proof.
  unfold well_formed; rewrite bool_decide_eq_true, bool_decide_eq_false.
  intros [xs Hxs]; rewrite (exchanges_app _ _ xs Hxs).
  destruct entry; cbn; by intros [? ?].
Qed.

(** A question, and an exchange, after a conversation. *)
Lemma dialogue_snoc_question (b : bool) (l : list (string * string)) (q : string) :
  dialogue b (l ++ [("You", q)]) = dialogue b l && truthy q.
Proof.
  revert b; induction l as [|[r x] l IH]; intros b; cbn.
  - by rewrite andb_true_r.
  - repeat case_match; rewrite ?IH; btauto.
Qed.

Lemma dialogue_snoc_exchange (b : bool) (l : list (string * string)) (q a : string) :
  dialogue b (l ++ exchange q a) = dialogue b l && truthy q.
Proof.
  revert b; induction l as [|[r x] l IH]; intros b; cbn.
  - by rewrite !andb_true_r.
  - repeat case_match; rewrite ?IH; btauto.
Qed.

(** A sequence of exchanges is a conversation. *)
Lemma well_formed_conversation (l : list (string * string)) :
  well_formed l = true -> conversation l = true.
Proof.
  unfold well_formed, conversation; rewrite bool_decide_eq_true.
  induction l as [| [r q] | [r1 q] [r2 a] l IH] using pairs_ind; cbn;
    [done | by intros [? ?] |].
  destruct (bool_decide (r1 = "You")) eqn:H1, (bool_decide (r2 = "Bot")) eqn:H2,
    (truthy q); cbn; try (by intros [? ?]).
  apply bool_decide_eq_true in H2 as ->; cbn.
  intros [xs Hxs]; apply IH; destruct (exchanges l); [done | by cbn in Hxs].
Qed.

(** A well-formed transcript has two entries for each exchange. *)
Lemma exchanges_length (l : list (string * string)) xs :
  exchanges l = Some xs -> length l = 2 * length xs.
Proof.
  revert xs; induction l as [| [r q] | [r1 q] [r2 a] l IH] using pairs_ind;
    intros xs; cbn.
  - by intros [= <-].
  - done.
  - case_match; [|done].
    destruct (exchanges l) as [ys|]; [|done]; intros [= <-].
    rewrite (IH ys eq_refl); cbn; lia.
Qed.

(** The exchanges of a transcript give it back. *)
Lemma exchanges_flat (l : list (string * string)) xs :
  exchanges l = Some xs ->
  l = flat_map (fun x => exchange x.1 x.2) xs /\ Forall (fun x => x.1 ≠ "") xs.
Proof.
  revert xs; induction l as [| [r q] | [r1 q] [r2 a] l IH] using pairs_ind;
    intros xs; cbn.
  - by intros [= <-].
  - done.
  - case_match eqn:Hc; [|done].
    destruct (exchanges l) as [ys|]; [|done]; intros [= <-].
    destruct (IH ys eq_refl) as [-> Hys].
    apply andb_prop in Hc as [[->%bool_decide_eq_true ->%bool_decide_eq_true]%andb_prop Hq].
    split; [done | constructor; [by apply truthy_true_iff | done]].
Qed.

Lemma exchanges_of_flat xs :
  Forall (fun x : string * string => x.1 ≠ "") xs ->
  exchanges (flat_map (fun x => exchange x.1 x.2) xs) = Some xs.
Proof.
  induction 1 as [|[q a] xs Hq _ IH]; [done |].
  cbn [flat_map fst snd] in *; rewrite exchanges_exchange, IH.
  by apply truthy_true_iff in Hq as ->.
Qed.

(** ** Properties of the store *)

(** Creating the transcript when it is missing keeps a transcript
    that is there: the dictionary is unchanged when it has the key, gets
    the empty list when it does not, and a second creation changes
    nothing.  This is what carries the transcript from one execution of the
    script to the next. *)
Theorem init_history_keeps (ss : session) :
  transcript (init_history ss) = transcript ss
  /\ init_history (init_history ss) = init_history ss
  /\ (is_Some (ss !! "chat_history") -> init_history ss = ss)
  /\ (ss !! "chat_history" = None ->
      init_history ss !! "chat_history" = Some (PyList [])).
Proof.
  split; [apply init_history_transcript |]; split; [apply init_history_idem |].
  unfold init_history; split.
  - by intros [v ->].
  - intros ->; by rewrite lookup_insert_eq.
Qed.

(** After the creation of the transcript an [append] on a typed
    dictionary never raises: it adds the entry at the end of the transcript
    and touches no other key.  Without the creation the first [append] of a
    session raises [KeyError]. *)
Theorem append_after_init (entry : string * string) (ss : session) :
  typed ss = true ->
  (exists ss', append_history entry (init_history ss) = Ok ss'
     /\ transcript ss' = transcript ss ++ [entry]
     /\ typed ss' = true
     /\ forall k : string, k ≠ "chat_history" -> ss' !! k = ss !! k)
  /\ append_history entry ∅ = Raise (KeyError "chat_history").
Proof.
  intros Ht; split; [|done].
  rewrite append_history_ok by auto with session.
  eexists; split; [done |].
  rewrite transcript_insert, typed_insert, init_history_transcript; repeat split.
  intros k Hk; by rewrite lookup_insert_ne, init_history_other.
Qed.

Lemma append_after_init_witness :
  (exists ss', append_history ("You", "hello") (init_history ∅) = Ok ss'
     /\ transcript ss' = transcript ∅ ++ [("You", "hello")]
     /\ typed ss' = true
     /\ forall k : string, k ≠ "chat_history" -> ss' !! k = (∅ : session) !! k)
  /\ append_history ("You", "hello") ∅ = Raise (KeyError "chat_history").
Proof. apply (append_after_init ("You", "hello") ∅); done. Defined.

(** The check [well_formed] decides the intended form of a
    transcript: it holds exactly for the lists made of the two entries
    ("You", question) and ("Bot", answer) of a sequence of exchanges whose
    questions are not empty; such a transcript has an even length. *)
Theorem well_formed_iff (l : list (string * string)) :
  well_formed l = true
  <-> exists xs, l = flat_map (fun x => exchange x.1 x.2) xs
        /\ Forall (fun x => x.1 ≠ "") xs /\ length l = 2 * length xs.
Proof.
  unfold well_formed; rewrite bool_decide_eq_true; split.
  - intros [xs Hxs]; exists xs.
    destruct (exchanges_flat l xs Hxs); eauto using exchanges_length.
  - intros (xs & -> & Hxs & _); by rewrite exchanges_of_flat.
Qed.
