(* ===== verification/Render.v ===== *)
(** * Rendering surface

    What the script sends to the page and what it reads from it.  Each
    Streamlit call of the script is a [Command] the page receives, in the
    order of the calls; the widgets ([selectbox], [radio], [text_area],
    [button]) also return what the user has entered, which is the
    [Frontend] of the execution.  The file has the constants of the page:
    its title, the style sheet (app.py 68-119), the labels and the options
    of the widgets. *)

From Stdlib Require Import String Ascii List Lia Bool Arith.
From S2P Require Import Prelude PyStr.
Import ListNotations.

#[local] Open Scope string_scope.

(** ** Commands *)

Inductive Command : Type :=
| SetPageConfig (page_title : string)
| Markdown (body : string) (unsafe_allow_html : bool)
| Header (body : string)
| Subheader (body : string)
| Selectbox (label : string) (options : list string)
| Radio (label : string) (options : list string)
| TextArea (label key : string)
| Button (label : string)
| Code (body language : string)
| Write (body : string).

(** ** What the user has entered

    Streamlit identifies a widget by its key when it has one and by its
    label otherwise.  A choice is the index of the selected option; a
    button is clicked in the one execution its click starts. *)
Record Frontend : Type := mkFrontend {
  choice : string -> nat;
  entered : string -> string;
  clicked : string -> bool
}.

(** The option a choice widget returns: the selected one, the first one
    for an index outside the options (the page sends none; it is the
    default of Streamlit). *)
Definition pick (options : list string) (i : nat) : string :=
  nth i options (hd "" options).

(** The code blocks among commands: body and language tag. *)
Definition code_blocks (cs : list Command) : list (string * string) :=
  flat_map (fun c => match c with Code b t => [(b, t)] | _ => [] end) cs.

(** ** Constants of the page *)

Definition page_title : string := "Automated Code Generator & Enhancer".

Definition quote : string := String (ascii_of_nat 34) "".

(** The style sheet of app.py 69-117. *)
Definition style_sheet : string :=
  "
    <style>
    
    /* Background image for the entire app */
    .stApp {
        background-image: url(" ++ quote ++ "https://encrypted-tbn0.gstatic.com/images?q=tbn:ANd9GcTfJr4dULiD0zFQui8VbCUvl_uUAyU5YflC5mm41TyVnfidPn_9vTngRxkbB3mcVjp-KM8&usqp=CAU" ++ quote ++ ");
background-size: cover;
        background-position: center;
    }
    
    /* Styling for text inputs and text areas */
    textarea, input {
        background-color: black !important;
        color: white !important;
        border: 2px solid #3498db !important;
        border-radius: 10px !important;
        font-size: 16px !important;
    }
    
    /* Styling for buttons */
    button {
        background-color: transperent !important;
        color: white !important;
        border: none !important;
        border-radius: 10px !important;
        padding: 10px 20px !important;
        font-size: 16px !important;
        cursor: pointer;
    }
    
    button:hover {
        background-color: #2980b9 !important;
    }
    
    /* Styling for headers and text */
    h1, h2, h3, h4 {
        color: white !important;
        text-shadow: 1px 1px 5px black;
    }
    
    /* Styling for code display */
    pre {
        background-color: black !important;
        color: white !important;
        border-radius: 10px !important;
        padding: 10px !important;
    }
    </style>
    ".

Definition page_header : string := "Automated Code Generator and Enhancer".

Definition language_label : string := "Select programming language:".

(** The options of the language selector (app.py 129). *)
Definition languages : list string := ["Python"; "Java"; "C++"; "JavaScript"; "Go"].

Definition action_label : string := "Choose an action:".

(** The options of the action selector (app.py 132). *)
Definition actions : list string := ["Software Required Code"; "Code Enhancing"].

Definition requirements_label : string := "Enter your software requirements:".

Definition snippet_label (language : string) : string :=
  fstring [Lit "Paste your "; Field language; Lit " code to enhance:"].

Definition generated_title (language : string) : string :=
  fstring [Lit "Generated "; Field language; Lit " Code:"].

Definition enhanced_title (language : string) : string :=
  fstring [Lit "Enhanced "; Field language; Lit " Code:"].

(** [f"{role}: {text}"], a line of the displayed history (app.py 172). *)
Definition history_line (entry : string * string) : string :=
  fstring [Field (fst entry); Lit ": "; Field (snd entry)].

(** ** Facts *)

Lemma code_blocks_app (cs1 cs2 : list Command) :
  code_blocks (cs1 ++ cs2) = (code_blocks cs1 ++ code_blocks cs2)%list.
Proof. apply flat_map_app. Qed.

Lemma pick_in (options : list string) (i : nat) :
  options <> [] -> In (pick options i) options.
Proof.
  intros Hne; unfold pick; destruct (Nat.lt_ge_cases i (length options)) as [H|H].
  - now apply nth_In.
  - rewrite nth_overflow by assumption; destruct options; [easy | now left].
Qed.

(** The language tag of a code block: the selected language in lower
    case, one of five. *)
Lemma lower_languages : map lower languages = ["python"; "java"; "c++"; "javascript"; "go"].
Proof. reflexivity. Qed.

Lemma languages_single_line : forallb single_line languages = true.
Proof. reflexivity. Qed.

(** ** Properties of the page *)

(** The rule of the style sheet for buttons gives their background the
    value "transperent" (app.py 90); the keyword "transparent" occurs
    nowhere in the sheet. *)
Example style_sheet_button_background :
  occurs_in "<style>" style_sheet /\ occurs_in "</style>" style_sheet
  /\ occurs_in "background-color: transperent !important;" style_sheet
  /\ ~ occurs_in "transparent" style_sheet.
Proof.
  repeat split; try (apply occursb_true_iff; vm_compute; reflexivity).
  intros H%occursb_true_iff; vm_compute in H; discriminate H.
Qed.
