(* ===== verification/World.v ===== *)
(** * The world of one execution of the script

    What the statements of the script read and write: the session
    dictionary, the names bound at the top of the script ([model],
    [chat]), the credential given to the client library, the process
    environment, and the trace of what the
    execution has sent out, to the page and to the remote service, in order.
    What an execution is given from outside is its [Host]: the environment
    of the process and the [.env] file, the remote service, and what the
    user has entered on the page.

    Only the session dictionary survives an execution: [boot] builds the
    world an execution starts in from the dictionary the previous one left.

    The runtime can ask a running execution to stop; the execution finds
    out at its next Streamlit call.  [pending] is [None] when there is no
    such request, and [Some n] when the execution will find one after [n]
    more calls. *)

From stdpp Require Import gmap strings list.
From S2P Require Import Prelude PyStr Stream Chat Transcript Render.

#[local] Open Scope py_scope.

(** What an execution sends out. *)
Inductive Event : Type :=
| Show (c : Command)
| Request (c : Client) (h : list Content) (prompt : string).

Record Host : Type := mkHost {
  environ : gmap string string;
  dotenv : gmap string string;
  service : Service;
  frontend : Frontend
}.

Record World : Type := mkWorld {
  session_state : session;
  env : gmap string string;
  configured : option string;
  model : option Client;
  chat : option ChatSession;
  trace : list Event;
  pending : option nat
}.

(** The world at the first line of the script. *)
Definition boot (h : Host) (ss : session) : World :=
  {| session_state := ss; env := environ h; configured := None;
     model := None; chat := None; trace := []; pending := None |}.

Abbreviation script := (exec World exn).

(** ** Updates of the world *)

Definition emit (e : Event) (w : World) : World :=
  {| session_state := session_state w; env := env w; configured := configured w;
     model := model w; chat := chat w; trace := trace w ++ [e];
     pending := pending w |}.

Definition set_session (ss : session) (w : World) : World :=
  {| session_state := ss; env := env w; configured := configured w;
     model := model w; chat := chat w; trace := trace w;
     pending := pending w |}.

Definition set_env (e : gmap string string) (w : World) : World :=
  {| session_state := session_state w; env := e; configured := configured w;
     model := model w; chat := chat w; trace := trace w;
     pending := pending w |}.

Definition set_configured (k : option string) (w : World) : World :=
  {| session_state := session_state w; env := env w; configured := k;
     model := model w; chat := chat w; trace := trace w;
     pending := pending w |}.

Definition set_model (c : Client) (w : World) : World :=
  {| session_state := session_state w; env := env w; configured := configured w;
     model := Some c; chat := chat w; trace := trace w;
     pending := pending w |}.

Definition set_chat (c : ChatSession) (w : World) : World :=
  {| session_state := session_state w; env := env w; configured := configured w;
     model := model w; chat := Some c; trace := trace w;
     pending := pending w |}.

(** The runtime has asked the execution to stop: the user has interacted
    with the page while the script was running.  [n] is the number of
    Streamlit calls the execution still makes before it notices. *)
Definition set_pending (n : option nat) (w : World) : World :=
  {| session_state := session_state w; env := env w; configured := configured w;
     model := model w; chat := chat w; trace := trace w; pending := n |}.

(** ** Statements *)

(** A Streamlit call that displays.  Every such call first looks for a
    request of the runtime to stop, and raises [ScriptControlException] on one
    without displaying anything. *)
Definition show (c : Command) : script unit := fun w =>
  match pending w with
  | None => modify (emit (Show c)) w
  | Some 0 => raise ScriptControlException w
  | Some (S n) => modify (fun w => emit (Show c) (set_pending (Some n) w)) w
  end.

(** Reading a global name of the script. *)
Definition global {A} (name : string) (field : World -> option A) : script A :=
  let* w := get in
  match field w with
  | Some a => ret a
  | None => raise (NameError name)
  end.

(** A statement on the session dictionary that may raise. *)
Definition on_session (f : session -> result exn session) : script unit :=
  let* w := get in
  let* ss := lift (f (session_state w)) in
  modify (set_session ss).

(** A widget with a key: the runtime keeps its value in the session
    dictionary under the key. *)
Definition store_widget (key value : string) : script unit :=
  modify (fun w => set_session (<[key := PyStr value]> (session_state w)) w).

(** The commands of a trace, and its requests. *)
Definition shown (t : list Event) : list Command :=
  omap (fun e => match e with Show c => Some c | Request _ _ _ => None end) t.

Definition requests (t : list Event) : list (Client * list Content * string) :=
  omap (fun e => match e with Show _ => None | Request c h p => Some (c, h, p) end) t.

(** The world [w] after the session dictionary and the chat have been
    replaced and the events [evs] sent: the form every statement that
    follows the configuration of the client leaves the world in. *)
Definition update (w : World) (ss : session) (c : option ChatSession)
    (evs : list Event) : World :=
  {| session_state := ss; env := env w; configured := configured w;
     model := model w; chat := c; trace := trace w ++ evs; pending := pending w |}.

(** [script_simpl] runs the constructs of the monad and the updates of the
    world, leaving what depends on the host and on the dictionary. *)
Ltac script_simpl :=
  cbv beta iota zeta delta
    [bind ret raise lift get modify when show global on_session store_widget
     emit set_session set_env set_configured set_model set_chat set_pending
     session_state env configured model chat trace pending fst snd].

Tactic Notation "script_simpl" "in" hyp(H) :=
  cbv beta iota zeta delta
    [bind ret raise lift get modify when show global on_session store_widget
     emit set_session set_env set_configured set_model set_chat set_pending
     session_state env configured model chat trace pending fst snd] in H.

(** ** Facts *)

Lemma update_update w ss1 c1 evs1 ss2 c2 evs2 :
  update (update w ss1 c1 evs1) ss2 c2 evs2 = update w ss2 c2 (evs1 ++ evs2).
Proof. unfold update; cbn; by rewrite app_assoc. Qed.

Lemma update_id w : update w (session_state w) (chat w) [] = w.
Proof. destruct w; unfold update; cbn; by rewrite app_nil_r. Qed.

(** A Streamlit call in an execution that has not been asked to stop. *)
Lemma show_run (c : Command) w :
  pending w = None ->
  show c w = (update w (session_state w) (chat w) [Show c], Ok ()).
Proof. destruct w; cbn; by intros ->. Qed.

(** [world_eq] proves that two worlds made from the same world by updates
    are equal: the fields are compared, the traces up to associativity. *)
Ltac world_eq :=
  repeat match goal with w : World |- _ => destruct w end;
  cbn in *; simplify_eq; unfold update, set_pending; cbn;
  rewrite ?app_nil_r, <- ?app_assoc; try done.

Lemma show_bind {A} (c : Command) (k : unit -> script A) w :
  pending w = None ->
  (let* x := show c in k x) w = k tt (update w (session_state w) (chat w) [Show c]).
Proof. intros Hw; by rewrite (bind_ok _ _ _ _ _ (show_run c w Hw)). Qed.

(** A Streamlit call in an execution that has been asked to stop and has
    not noticed yet, and the call at which it notices. *)
Lemma show_bind_pending {A} (c : Command) (k : unit -> script A) w (n : nat) :
  pending w = Some (S n) ->
  (let* x := show c in k x) w
  = k tt (set_pending (Some n) (update w (session_state w) (chat w) [Show c])).
Proof. destruct w; cbn; intros ->; reflexivity. Qed.

Lemma show_bind_stop {A} (c : Command) (k : unit -> script A) w :
  pending w = Some 0 -> (let* x := show c in k x) w = (w, Raise ScriptControlException).
Proof. destruct w; cbn; intros ->; reflexivity. Qed.

Lemma store_widget_run (key value : string) w :
  store_widget key value w
  = (update w (<[key := PyStr value]> (session_state w)) (chat w) [], Ok ()).
Proof. destruct w; unfold update; cbn; by rewrite app_nil_r. Qed.

Lemma for_each_show {A} (f : A -> Command) (l : list A) w :
  pending w = None ->
  for_each l (fun x => show (f x)) w
  = (update w (session_state w) (chat w) (map (fun x => Show (f x)) l), Ok ()).
Proof.
  revert w; induction l as [|x l IH]; intros w Hw; cbn [for_each map].
  - by rewrite update_id.
  - rewrite (bind_ok _ _ _ _ _ (show_run (f x) w Hw)), IH, update_update by done.
    by destruct w.
Qed.

Lemma shown_app (t1 t2 : list Event) : shown (t1 ++ t2) = shown t1 ++ shown t2.
Proof. apply omap_app. Qed.

Lemma requests_app (t1 t2 : list Event) : requests (t1 ++ t2) = requests t1 ++ requests t2.
Proof. apply omap_app. Qed.

Lemma requests_shows (cs : list Command) : requests (map Show cs) = [].
Proof. induction cs; cbn; auto. Qed.

Lemma shown_shows (cs : list Command) : shown (map Show cs) = cs.
Proof. unfold shown; induction cs as [|c cs IH]; cbn; [done | by f_equal]. Qed.

Lemma take_shows (cs : list Command) (n : nat) :
  take n (map Show cs) = map Show (take n cs).
Proof. symmetry; apply (fmap_take Show). Qed.

(** ** Relations every statement keeps

    The transcript only grows at its end, and so does the trace; the
    environment is kept by every statement but [load_dotenv()]. *)

Definition transcript_grows (w w' : World) : Prop :=
  transcript (session_state w) `prefix_of` transcript (session_state w').

Definition trace_grows (w w' : World) : Prop := trace w `prefix_of` trace w'.

Definition env_kept (w w' : World) : Prop := env w' = env w.

#[export] Instance transcript_grows_preorder : PreOrder transcript_grows.
Proof.
  split; [intros w; by unfold transcript_grows |].
  intros w1 w2 w3; unfold transcript_grows; by etrans.
Qed.

#[export] Instance trace_grows_preorder : PreOrder trace_grows.
Proof.
  split; [intros w; by unfold trace_grows |].
  intros w1 w2 w3; unfold trace_grows; by etrans.
Qed.

#[export] Instance env_kept_preorder : PreOrder env_kept.
Proof.
  split; [by intros w |]; intros w1 w2 w3; unfold env_kept; congruence.
Qed.

Section WorldSteps.
Context (R : World -> World -> Prop) `{!PreOrder R}.

Lemma steps_global {A} (name : string) (field : World -> option A) :
  steps R (global name field).
Proof. intros w; unfold global, bind, get; destruct (field w); cbn; reflexivity. Qed.

Lemma steps_on_session (f : session -> result exn session) :
  (forall w ss', f (session_state w) = Ok ss' -> R w (set_session ss' w)) ->
  steps R (on_session f).
Proof.
  intros H w; unfold on_session, bind, get, lift.
  destruct (f (session_state w)) as [ss'|e] eqn:Hf; cbn; [by apply H | reflexivity].
Qed.

(** A Streamlit call displays, after it has looked for a request to stop,
    or raises. *)
Lemma steps_show (c : Command) :
  (forall w n, R w (emit (Show c) (set_pending n w))) -> steps R (show c).
Proof.
  intros H w; unfold show; pose proof (H w (pending w)) as Hw.
  replace (set_pending (pending w) w) with w in Hw by (by destruct w).
  repeat case_match; first [reflexivity | apply H | exact Hw].
Qed.
End WorldSteps.

(** [script_steps] reduces [steps R m], for a script [m] whose definitions
    have been unfolded, to the goals about the statements that write to the
    world. *)
Ltac script_steps :=
  repeat first
    [ apply steps_global; try exact _
    | apply steps_on_session; try exact _; intros ? ? ?
    | apply steps_show; try exact _; intros ? ?
    | progress unfold store_widget
    | steps_step ].

Lemma emit_transcript_grows (e : Event) w : transcript_grows w (emit e w).
Proof. destruct w; unfold transcript_grows; cbn; reflexivity. Qed.

Lemma emit_trace_grows (e : Event) w : trace_grows w (emit e w).
Proof. destruct w; unfold trace_grows; cbn; by apply prefix_app_r. Qed.

Lemma show_transcript_grows (e : Event) (n : option nat) w :
  transcript_grows w (emit e (set_pending n w)).
Proof. destruct w; unfold transcript_grows; cbn; reflexivity. Qed.

Lemma show_trace_grows (e : Event) (n : option nat) w :
  trace_grows w (emit e (set_pending n w)).
Proof. destruct w; unfold trace_grows; cbn; by apply prefix_app_r. Qed.

Lemma append_transcript_grows (entry : string * string) w ss' :
  append_history entry (session_state w) = Ok ss' ->
  transcript_grows w (set_session ss' w).
Proof.
  intros (Ht & _)%append_history_inv; unfold transcript_grows; cbn.
  rewrite Ht; by apply prefix_app_r.
Qed.

Lemma init_transcript_grows w :
  transcript_grows w (set_session (init_history (session_state w)) w).
Proof. unfold transcript_grows; cbn; by rewrite init_history_transcript. Qed.

Lemma widget_transcript_grows (key value : string) w :
  key ≠ "chat_history" ->
  transcript_grows w (set_session (<[key := PyStr value]> (session_state w)) w).
Proof. intros Hk; unfold transcript_grows; cbn; by rewrite transcript_insert_ne. Qed.

#[export] Hint Resolve emit_transcript_grows emit_trace_grows
  show_transcript_grows show_trace_grows
  append_transcript_grows init_transcript_grows widget_transcript_grows : session.

(** A statement that leaves the dictionary, or the trace, as it is. *)
Ltac same_world :=
  match goal with
  | |- transcript_grows ?w _ => destruct w; unfold transcript_grows; cbn; reflexivity
  | |- trace_grows ?w _ => destruct w; unfold trace_grows; cbn; reflexivity
  | |- env_kept ?w _ => unfold env_kept; reflexivity
  end.
