(* ===== verification/App.v ===== *)
(** * The script

    One execution of app.py, statement by statement, in the script monad:
    the configuration of the client (app.py 7-18), the two functions that
    talk to the service ([generate_required_code], app.py 21-39, and
    [enhance_code], app.py 42-61), the top of the page (app.py 68-132), the
    two action sections (app.py 135-166) and the display of the transcript
    (app.py 169-172). *)

From stdpp Require Import gmap strings list.
From S2P Require Import Prelude PyStr Prompt Stream Chat Transcript Render World.

#[local] Open Scope py_scope.

Section Script.
Context (host : Host).

(** ** Calls to the page *)

Definition st_selectbox (label : string) (options : list string) : script string :=
  let* _ := show (Selectbox label options) in
  ret (pick options (choice (frontend host) label)).

Definition st_radio (label : string) (options : list string) : script string :=
  let* _ := show (Radio label options) in
  ret (pick options (choice (frontend host) label)).

(** [st.text_area(label, key=key)]: the text is what the user has entered,
    and the runtime keeps it in the session dictionary under the key.  The
    value is written once the area is displayed; on the pages of the
    runtime it is under the key before the run, from the interaction that
    entered it. *)
Definition st_text_area (label key : string) : script string :=
  let* _ := show (TextArea label key) in
  let* _ := store_widget key (entered (frontend host) key) in
  ret (entered (frontend host) key).

Definition st_button (label : string) : script bool :=
  let* _ := show (Button label) in
  ret (clicked (frontend host) label).

(** ** Calls to the environment and to the client library *)

(** [load_dotenv()]: the variables of the [.env] file that the process
    does not have yet are added to its environment. *)
Definition load_dotenv : script unit :=
  modify (fun w => set_env (env w ∪ dotenv host) w).

(** [os.getenv(name)]. *)
Definition getenv (name : string) : script (option string) :=
  let* w := get in
  ret (env w !! name).

(** [genai.configure(api_key=key)]. *)
Definition configure (key : option string) : script unit :=
  modify (set_configured key).

(** [chat.send_message(prompt, stream=True)]: the request leaves with the
    client and the history of the chat. *)
Definition chat_send_message (prompt : string) : script Stream :=
  let* c := global "chat" chat in
  let* _ := modify (emit (Request (client c) (history c) prompt)) in
  lift (send_message (H := service host) c prompt).

(** [for chunk in response: code += chunk.text], from the empty string;
    when the stream has ended the chat has recorded the exchange. *)
Definition read_response (prompt : string) (response : Stream) : script string :=
  let* answer := lift (accumulate "" response) in
  let* c := global "chat" chat in
  let* _ := modify (set_chat (record_exchange c prompt answer)) in
  ret answer.

(** ** The functions of the script *)

Definition generate_required_code (requirements language : string) : script string :=
  let prompt := generate_prompt requirements language in
  let* response := chat_send_message prompt in
  let* generated_code := read_response prompt response in
  ret generated_code.

Definition enhance_code (snippet language : string) : script string :=
  let prompt := enhance_prompt snippet language in
  let* response := chat_send_message prompt in
  let* enhanced_code := read_response prompt response in
  ret enhanced_code.

(** ** The sections of the script *)

(** app.py 7-18. *)
Definition configure_client : script unit :=
  let* _ := show (SetPageConfig page_title) in
  let* _ := load_dotenv in
  let* api_key := getenv "GOOGLE_API_KEY" in
  let* _ := configure api_key in
  let* w := get in
  let* _ := modify (set_model (GenerativeModel (configured w) "gemini-pro")) in
  let* model := global "model" model in
  modify (set_chat (start_chat model [])).

(** app.py 68-126: the style sheet, the header, the creation of the
    transcript. *)
Definition page_top : script unit :=
  let* _ := show (Markdown style_sheet true) in
  let* _ := show (Header page_header) in
  modify (fun w => set_session (init_history (session_state w)) w).

(** app.py 137-149, the body of [if action == "Software Required Code"]. *)
Definition generate_section (language : string) : script unit :=
  let* requirements := st_text_area requirements_label "requirements" in
  let* pressed := st_button "Generate Code" in
  when pressed (when (truthy requirements) (
    let* generated_code := generate_required_code requirements language in
    let* _ := on_session (append_history ("You", requirements)) in
    let* _ := show (Subheader (generated_title language)) in
    let* _ := show (Code generated_code (lower language)) in
    on_session (append_history ("Bot", generated_code)))).

(** app.py 154-166, the body of [if action == "Code Enhancing"]. *)
Definition enhance_section (language : string) : script unit :=
  let* code_snippet := st_text_area (snippet_label language) "snippet" in
  let* pressed := st_button "Enhance Code" in
  when pressed (when (truthy code_snippet) (
    let* enhanced_code := enhance_code code_snippet language in
    let* _ := on_session (append_history ("You", code_snippet)) in
    let* _ := show (Subheader (enhanced_title language)) in
    let* _ := show (Code enhanced_code (lower language)) in
    on_session (append_history ("Bot", enhanced_code)))).

(** app.py 169-172. *)
Definition history_section : script unit :=
  let* pressed := st_button "Show Chat History" in
  when pressed (
    let* _ := show (Subheader "Chat History") in
    let* w := get in
    let* entries := lift (read_history (session_state w)) in
    for_each entries (fun entry => show (Write (history_line entry)))).

(** ** The script, from its first line to its last *)

Definition run_script : script unit :=
  let* _ := configure_client in
  let* _ := page_top in
  let* language := st_selectbox language_label languages in
  let* action := st_radio action_label actions in
  let* _ := when (String.eqb action "Software Required Code")
              (generate_section language) in
  let* _ := when (String.eqb action "Code Enhancing")
              (enhance_section language) in
  history_section.

(** One execution, started on the dictionary [ss]: the world it ends in
    and whether it raised. *)
Definition execute (ss : session) : World * result exn unit :=
  run_script (boot host ss).

End Script.
