(* ===== verification/Execution.v ===== *)
(** * Executions of the script

    What one execution of the script does, from the world it starts in:
    one lemma per section of app.py, then the whole execution
    ([execute_run]) as a function of what the user entered and what the
    service answered, then the properties of an execution that follow.
    The executions of this file are not asked to stop ([pending] is
    [None]); those that are, are in [Stopped]. *)

From stdpp Require Import gmap strings list.
From S2P Require Import Prelude PyStr Prompt Stream Chat Transcript Render World App.

#[local] Open Scope py_scope.

(** ** What the sections do

    One lemma per statement or section: the world it ends in and what it
    returns, from any world without a request to stop. *)

Section Sections.
Context (host : Host).
Implicit Types (w : World) (ss : session).

(** What the user has chosen on the page. *)
Definition language_of : string := pick languages (choice (frontend host) language_label).
Definition action_of : string := pick actions (choice (frontend host) action_label).

(** The credential the client gets: that of the process environment, and
    that of the [.env] file when the process has none. *)
Definition credential : option string :=
  (environ host ∪ dotenv host) !! "GOOGLE_API_KEY".

Definition the_client : Client := GenerativeModel credential "gemini-pro".

Lemma configure_client_run w :
  pending w = None ->
  configure_client host w
  = ({| session_state := session_state w;
        env := env w ∪ dotenv host;
        configured := (env w ∪ dotenv host) !! "GOOGLE_API_KEY";
        model := Some (GenerativeModel ((env w ∪ dotenv host) !! "GOOGLE_API_KEY")
                         "gemini-pro");
        chat := Some (start_chat
                        (GenerativeModel ((env w ∪ dotenv host) !! "GOOGLE_API_KEY")
                           "gemini-pro") []);
        trace := trace w ++ [Show (SetPageConfig page_title)];
        pending := None |}, Ok ()).
Proof. destruct w; cbn; by intros ->. Qed.

Lemma page_top_run w :
  pending w = None ->
  page_top w
  = ({| session_state := init_history (session_state w);
        env := env w; configured := configured w; model := model w; chat := chat w;
        trace := trace w ++ [Show (Markdown style_sheet true); Show (Header page_header)];
        pending := None |},
     Ok ()).
Proof.
  destruct w; cbn; intros ->; unfold page_top; script_simpl; by rewrite <- app_assoc.
Qed.

(** The answer of the service to a prompt sent on the chat [c], read to
    its end. *)
Definition answer (c : ChatSession) (prompt : string) : result exn string :=
  result_bind (service host (client c) (history c) prompt) (accumulate "").

(** Sending a prompt and reading the response, as both functions of the
    script do. *)
Definition ask (prompt : string) : script string :=
  let* response := chat_send_message host prompt in
  let* code := read_response prompt response in
  ret code.

Lemma ask_run (prompt : string) w c :
  chat w = Some c ->
  ask prompt w
  = match answer c prompt with
    | Ok a => (update w (session_state w) (Some (record_exchange c prompt a))
                 [Request (client c) (history c) prompt], Ok a)
    | Raise e => (update w (session_state w) (Some c)
                    [Request (client c) (history c) prompt], Raise e)
    end.
Proof.
  destruct w; cbn; intros ->.
  unfold ask, chat_send_message, read_response, answer, send_message, respond, update.
  script_simpl.
  destruct (service host (client c) (history c) prompt) as [s|e]; cbn; [|done].
  by destruct (accumulate "" s) as [a|e].
Qed.

(** The two tasks, and what differs between their sections. *)
Inductive Task : Type := Generate | Enhance.

Definition prompt_of (t : Task) (text language : string) : string :=
  match t with
  | Generate => generate_prompt text language
  | Enhance => enhance_prompt text language
  end.

Definition title_of (t : Task) (language : string) : string :=
  match t with
  | Generate => generated_title language
  | Enhance => enhanced_title language
  end.

Definition function_of (t : Task) : string -> string -> script string :=
  match t with
  | Generate => generate_required_code host
  | Enhance => enhance_code host
  end.

(** What both sections do once the button is clicked on a text that is
    not empty. *)
Definition respond_block (t : Task) (text language : string) : script unit :=
  let* code := function_of t text language in
  let* _ := on_session (append_history ("You", text)) in
  let* _ := show (Subheader (title_of t language)) in
  let* _ := show (Code code (lower language)) in
  on_session (append_history ("Bot", code)).

Lemma function_of_ask (t : Task) (text language : string) :
  function_of t text language = ask (prompt_of t text language).
Proof. by destruct t. Qed.

(** The session dictionary with the transcript extended by one exchange. *)
Definition extended ss (q a : string) : session :=
  <["chat_history" := PyList (transcript ss ++ exchange q a)]> ss.

Lemma respond_block_run (t : Task) (text language : string) w c :
  pending w = None -> chat w = Some c ->
  typed (session_state w) = true -> is_Some (session_state w !! "chat_history") ->
  respond_block t text language w
  = let request := Request (client c) (history c) (prompt_of t text language) in
    match answer c (prompt_of t text language) with
    | Ok a =>
        (update w (extended (session_state w) text a)
           (Some (record_exchange c (prompt_of t text language) a))
           [request; Show (Subheader (title_of t language));
            Show (Code a (lower language))], Ok ())
    | Raise e => (update w (session_state w) (Some c) [request], Raise e)
    end.
Proof.
  intros Hp Hc Ht Hk; unfold respond_block; rewrite function_of_ask.
  pose proof (ask_run (prompt_of t text language) w c Hc) as Hask.
  destruct (answer c (prompt_of t text language)) as [a|e]; cbv zeta;
    [|by rewrite (bind_fails _ _ _ _ _ Hask)].
  rewrite (bind_ok _ _ _ _ _ Hask); clear Hask.
  destruct w as [ss e k m ch tr p]; cbn in *; subst p; unfold update, extended, exchange.
  script_simpl; rewrite (append_history_ok ss) by done.
  script_simpl; rewrite append_history_insert.
  by rewrite <- !app_assoc.
Qed.

(** What differs between the two sections besides the function called. *)
Definition text_key (t : Task) : string :=
  match t with Generate => "requirements" | Enhance => "snippet" end.

Definition text_label (t : Task) (language : string) : string :=
  match t with Generate => requirements_label | Enhance => snippet_label language end.

Definition button_label (t : Task) : string :=
  match t with Generate => "Generate Code" | Enhance => "Enhance Code" end.

Definition section_of (t : Task) (language : string) : script unit :=
  match t with
  | Generate => generate_section host language
  | Enhance => enhance_section host language
  end.

(** The text the user has entered for a task, and whether this execution
    was started by the button of the task on a text that is not empty. *)
Definition text_of (t : Task) : string := entered (frontend host) (text_key t).

Definition submitted (t : Task) : bool :=
  clicked (frontend host) (button_label t) && truthy (text_of t).

(** The dictionary once the text area of a task has been drawn: the text
    is kept under the key of the widget, which is not that of the
    transcript. *)
Definition keyed (t : Task) ss : session := <[text_key t := PyStr (text_of t)]> ss.

#[export] Instance task_eq_dec : EqDecision Task.
Proof. solve_decision. Defined.

#[export] Instance text_key_inj : Inj (=) (=) text_key.
Proof. by intros [] []. Qed.

Lemma text_key_apart (t : Task) : text_key t ≠ "chat_history".
Proof. by destruct t. Qed.

Lemma keyed_history (t : Task) ss : keyed t ss !! "chat_history" = ss !! "chat_history".
Proof. apply lookup_history_insert_ne, text_key_apart. Qed.

Lemma transcript_keyed (t : Task) ss : transcript (keyed t ss) = transcript ss.
Proof. apply transcript_insert_ne, text_key_apart. Qed.

Lemma typed_keyed (t : Task) ss : typed (keyed t ss) = typed ss.
Proof. apply typed_insert_ne, text_key_apart. Qed.

Lemma keyed_typed_true (t : Task) ss : typed ss = true -> typed (keyed t ss) = true.
Proof. by rewrite typed_keyed. Qed.

Lemma keyed_has_history (t : Task) ss :
  is_Some (ss !! "chat_history") -> is_Some (keyed t ss !! "chat_history").
Proof. by rewrite keyed_history. Qed.

Definition section_widgets (t : Task) (language : string) : list Event :=
  [Show (TextArea (text_label t language) (text_key t)); Show (Button (button_label t))].

Lemma section_of_block (t : Task) (language : string) :
  section_of t language
  = (let* text := st_text_area host (text_label t language) (text_key t) in
     let* pressed := st_button host (button_label t) in
     when pressed (when (truthy text) (respond_block t text language))).
Proof. by destruct t. Qed.

(** The two widgets of a section. *)
Lemma section_widgets_run {A} (t : Task) (language : string)
    (k : string -> bool -> script A) w :
  pending w = None ->
  (let* text := st_text_area host (text_label t language) (text_key t) in
   let* pressed := st_button host (button_label t) in
   k text pressed) w
  = k (text_of t) (clicked (frontend host) (button_label t))
      (update w (keyed t (session_state w)) (chat w) (section_widgets t language)).
Proof.
  intros Hp; unfold st_text_area, st_button.
  rewrite !bind_assoc, show_bind by done.
  rewrite !bind_assoc, (bind_ok _ _ _ _ _ (store_widget_run _ _ _)), bind_ret_l.
  rewrite !bind_assoc, show_bind by done; rewrite bind_ret_l.
  by rewrite !update_update.
Qed.

Lemma section_run (t : Task) (language : string) w c :
  pending w = None -> chat w = Some c ->
  typed (session_state w) = true -> is_Some (session_state w !! "chat_history") ->
  section_of t language w
  = let prompt := prompt_of t (text_of t) language in
    let request := Request (client c) (history c) prompt in
    let ss := keyed t (session_state w) in
    if submitted t then
      match answer c prompt with
      | Ok a =>
          (update w (extended ss (text_of t) a)
             (Some (record_exchange c prompt a))
             (section_widgets t language
              ++ [request; Show (Subheader (title_of t language));
                  Show (Code a (lower language))]), Ok ())
      | Raise e => (update w ss (Some c) (section_widgets t language ++ [request]), Raise e)
      end
    else (update w ss (Some c) (section_widgets t language), Ok ()).
Proof.
  intros Hp Hc Ht Hk; rewrite section_of_block, section_widgets_run, Hc by done.
  unfold submitted.
  destruct (clicked _ _); cbn [when andb]; [|done].
  destruct (truthy (text_of t)); cbn [when]; [|done].
  rewrite (respond_block_run _ _ _ _ c)
    by (cbn; rewrite ?typed_keyed, ?keyed_history; done); cbv zeta.
  destruct (answer c _); by rewrite update_update.
Qed.

(** What the last section sends to the page. *)
Definition history_commands ss : list Command :=
  Button "Show Chat History"
  :: (if clicked (frontend host) "Show Chat History"
      then Subheader "Chat History"
           :: map (fun entry => Write (history_line entry)) (transcript ss)
      else []).

Definition history_events ss : list Event := map Show (history_commands ss).

Lemma history_section_run w :
  pending w = None ->
  typed (session_state w) = true -> is_Some (session_state w !! "chat_history") ->
  history_section host w
  = (update w (session_state w) (chat w) (history_events (session_state w)), Ok ()).
Proof.
  intros Hp Ht Hk; unfold history_section, st_button, history_events, history_commands.
  rewrite !bind_assoc, show_bind by done; rewrite bind_ret_l.
  destruct (clicked _ _); cbn [when]; [|done].
  rewrite show_bind by done; rewrite update_update.
  unfold bind at 1, get; cbn [session_state update].
  rewrite read_history_ok by done; unfold bind at 1, lift.
  rewrite (for_each_show (fun e => Write (history_line e))), update_update by done.
  cbn [map app]; by rewrite map_map.
Qed.

End Sections.

#[export] Hint Resolve keyed_typed_true keyed_has_history : session.

(** The three ways an execution goes: its button was clicked on a text
    and the service answered, the same and the service failed, or there
    was nothing to send. *)
Ltac execution_cases :=
  match goal with
  | |- context [submitted ?h ?t] =>
      destruct (submitted h t);
      [match goal with
       | |- context [answer ?h' ?c ?p] => destruct (answer h' c p)
       end |]
  end.

(** ** What an execution does *)

Section Execution.
Context (host : Host).
Implicit Types (w : World) (ss : session).

(** The task of the selected action. *)
Definition task_of : Task :=
  if String.eqb (action_of host) "Code Enhancing" then Enhance else Generate.

(** The chat every execution opens. *)
Definition fresh_chat : ChatSession := start_chat (the_client host) [].

(** What every execution sends to the page before the section of the
    selected action. *)
Definition top_events : list Event :=
  map Show [SetPageConfig page_title; Markdown style_sheet true; Header page_header;
            Selectbox language_label languages; Radio action_label actions].

(** The world at the end of an execution: the environment and the client
    are those of the host. *)
Definition final ss (c : ChatSession) (evs : list Event) : World :=
  {| session_state := ss; env := environ host ∪ dotenv host;
     configured := credential host; model := Some (the_client host);
     chat := Some c; trace := evs; pending := None |}.

Lemma action_of_cases :
  action_of host = "Software Required Code" ∧ task_of = Generate
  ∨ action_of host = "Code Enhancing" ∧ task_of = Enhance.
Proof.
  unfold task_of, action_of, pick.
  destruct (choice (frontend host) action_label) as [|[|n]]; cbn; auto.
  destruct n; cbn; auto.
Qed.

(** The first part of the script, up to the two selectors. *)
Lemma preamble_run ss :
  (let* _ := configure_client host in
   let* _ := page_top in
   let* language := st_selectbox host language_label languages in
   let* action := st_radio host action_label actions in
   ret (language, action)) (boot host ss)
  = (final (init_history ss) fresh_chat top_events,
     Ok (language_of host, action_of host)).
Proof. reflexivity. Qed.

Lemma final_update ss c evs ss' c' evs' :
  update (final ss c evs) ss' (Some c') evs' = final ss' c' (evs ++ evs').
Proof. reflexivity. Qed.

(** The section of the selected action followed by the display of the
    transcript, from the world the top of the script leaves. *)
Lemma after_section (t : Task) ss0 :
  typed ss0 = true -> is_Some (ss0 !! "chat_history") ->
  (let (w', r) := section_of host t (language_of host) (final ss0 fresh_chat top_events) in
   match r with
   | Ok _ => history_section host w'
   | Raise e => (w', Raise e)
   end)
  = let l := language_of host in
    let prompt := prompt_of t (text_of host t) l in
    let widgets := top_events ++ section_widgets t l in
    let ss1 := keyed host t ss0 in
    if submitted host t then
      match answer host fresh_chat prompt with
      | Ok a =>
          let ss' := extended ss1 (text_of host t) a in
          (final ss' (record_exchange fresh_chat prompt a)
             (widgets
              ++ [Request (the_client host) [] prompt;
                  Show (Subheader (title_of t l)); Show (Code a (lower l))]
              ++ history_events host ss'), Ok ())
      | Raise e =>
          (final ss1 fresh_chat (widgets ++ [Request (the_client host) [] prompt]),
           Raise e)
      end
    else (final ss1 fresh_chat (widgets ++ history_events host ss1), Ok ()).
Proof.
  intros Ht Hk; rewrite (section_run host t _ _ fresh_chat) by done; cbv zeta.
  execution_cases;
    rewrite final_update; try done;
    (rewrite history_section_run by (cbn; unfold extended; auto with session));
    cbn [session_state chat final]; by rewrite final_update, <- ?app_assoc.
Qed.

(** The dictionary when the section of the selected action has drawn its
    widgets: the transcript exists and the text entered is under its key. *)
Definition prepared ss : session := keyed host task_of (init_history ss).

(** An execution is the top of the script, then the section of the
    selected action, then, unless the section raised, the display of the
    transcript: on any dictionary. *)
Lemma execute_sections ss :
  execute host ss
  = (let (w', r) := section_of host task_of (language_of host)
                      (final (init_history ss) fresh_chat top_events) in
     match r with
     | Ok _ => history_section host w'
     | Raise e => (w', Raise e)
     end).
Proof.
  unfold execute, run_script.
  unfold configure_client, page_top, st_selectbox, st_radio, load_dotenv, getenv,
    configure, boot; script_simpl.
  change (mkWorld _ _ _ _ _ _ _) with (final (init_history ss) fresh_chat top_events).
  fold (action_of host) (language_of host).
  by destruct action_of_cases as [[-> ->]|[-> ->]].
Qed.

(** The whole execution, on a typed dictionary: what it leaves and
    returns, by what the user entered and what the service answered. *)
Lemma execute_run ss :
  typed ss = true ->
  execute host ss
  = let t := task_of in
    let l := language_of host in
    let prompt := prompt_of t (text_of host t) l in
    let widgets := top_events ++ section_widgets t l in
    if submitted host t then
      match answer host fresh_chat prompt with
      | Ok a =>
          let ss' := extended (prepared ss) (text_of host t) a in
          (final ss' (record_exchange fresh_chat prompt a)
             (widgets
              ++ [Request (the_client host) [] prompt;
                  Show (Subheader (title_of t l)); Show (Code a (lower l))]
              ++ history_events host ss'), Ok ())
      | Raise e =>
          (final (prepared ss) fresh_chat
             (widgets ++ [Request (the_client host) [] prompt]), Raise e)
      end
    else (final (prepared ss) fresh_chat
            (widgets ++ history_events host (prepared ss)), Ok ()).
Proof.
  intros Ht; rewrite execute_sections; apply after_section; auto with session.
Qed.

Lemma transcript_prepared ss : transcript (prepared ss) = transcript ss.
Proof. unfold prepared; by rewrite transcript_keyed, init_history_transcript. Qed.

Lemma prepared_typed ss : typed ss = true -> typed (prepared ss) = true.
Proof. intros Ht; unfold prepared; auto with session. Qed.

Lemma prepared_has_history ss : is_Some (prepared ss !! "chat_history").
Proof. unfold prepared; auto with session. Qed.

(** What an execution leaves and returns. *)
Definition next_session ss : session := session_state (fst (execute host ss)).
Definition outcome ss : result exn unit := snd (execute host ss).
Definition sent ss : list (Client * list Content * string) :=
  requests (trace (fst (execute host ss))).
Definition displayed ss : list Command := shown (trace (fst (execute host ss))).

(** The prompt an execution sends when the button of the selected action
    was clicked on a text that is not empty. *)
Definition the_prompt : string :=
  prompt_of task_of (text_of host task_of) (language_of host).

(** The exchange an execution adds to the transcript, if any: the text
    the user entered and the answer read from the service. *)
Definition exchange_made : option (string * string) :=
  if submitted host task_of then
    match answer host fresh_chat the_prompt with
    | Ok a => Some (text_of host task_of, a)
    | Raise _ => None
    end
  else None.

Lemma next_session_run ss :
  typed ss = true ->
  next_session ss
  = match exchange_made with
    | Some (q, a) => extended (prepared ss) q a
    | None => prepared ss
    end.
Proof.
  intros Ht; unfold next_session, exchange_made, the_prompt.
  rewrite (execute_run ss Ht); cbv zeta.
  destruct (submitted host task_of); [|done].
  by destruct (answer host fresh_chat _).
Qed.

Lemma outcome_run ss :
  typed ss = true ->
  outcome ss
  = if submitted host task_of then
      match answer host fresh_chat the_prompt with
      | Ok _ => Ok ()
      | Raise e => Raise e
      end
    else Ok ().
Proof.
  intros Ht; unfold outcome, the_prompt.
  rewrite (execute_run ss Ht); cbv zeta.
  destruct (submitted host task_of); [|done].
  by destruct (answer host fresh_chat _).
Qed.

Lemma requests_history_events ss : requests (history_events host ss) = [].
Proof. apply requests_shows. Qed.

Lemma sent_run ss :
  typed ss = true ->
  sent ss = if submitted host task_of then [(the_client host, [], the_prompt)] else [].
Proof.
  intros Ht; unfold sent, the_prompt.
  rewrite (execute_run ss Ht); cbv zeta.
  execution_cases;
    cbn [fst trace final]; rewrite !requests_app, ?requests_history_events; done.
Qed.

Lemma transcript_extended ss (q a : string) :
  transcript (extended ss q a) = transcript ss ++ exchange q a.
Proof. apply transcript_insert. Qed.

Lemma transcript_next ss :
  typed ss = true ->
  transcript (next_session ss)
  = transcript ss
    ++ match exchange_made with Some (q, a) => exchange q a | None => [] end.
Proof.
  intros Ht; rewrite next_session_run by done.
  destruct exchange_made as [[q a]|];
    by rewrite ?transcript_extended, transcript_prepared, ?app_nil_r.
Qed.

Lemma next_typed ss : typed ss = true -> typed (next_session ss) = true.
Proof.
  intros Ht; rewrite next_session_run by done.
  destruct exchange_made as [[q a]|]; unfold extended;
    auto using prepared_typed with session.
Qed.

(** The dictionary an execution leaves, key by key: the transcript, the
    text of the area the execution has drawn, and what was there. *)
Lemma next_session_lookup ss (k : string) :
  typed ss = true ->
  next_session ss !! k
  = if decide (k = "chat_history") then Some (PyList (transcript (next_session ss)))
    else if decide (k = text_key task_of) then Some (PyStr (text_of host task_of))
    else ss !! k.
Proof.
  intros Ht; pose proof (text_key_apart task_of) as Hkey.
  destruct (decide (k = "chat_history")) as [->|Hk].
  - apply typed_lookup; [by apply next_typed |].
    rewrite next_session_run by done.
    destruct exchange_made as [[q a]|]; unfold extended;
      auto using prepared_has_history with session.
  - rewrite next_session_run by done.
    assert (prepared ss !! k
            = if decide (k = text_key task_of)
              then Some (PyStr (text_of host task_of)) else ss !! k) as Hp.
    { unfold prepared, keyed; case_decide as Hk'; [subst; apply lookup_insert_eq |].
      rewrite lookup_insert_ne by done; by apply init_history_other. }
    destruct exchange_made as [[q a]|]; unfold extended;
      by rewrite ?lookup_insert_ne.
Qed.

Lemma task_of_action :
  (action_of host = "Software Required Code" -> task_of = Generate)
  /\ (action_of host = "Code Enhancing" -> task_of = Enhance).
Proof. unfold task_of; split; by intros ->. Qed.

(** A stream that ends normally is answered by the concatenation of its
    texts; a call or a stream that fails, by its exception. *)
Lemma answer_complete (c : ChatSession) (p : string) (s : Stream) :
  service host (client c) (history c) p = Ok s -> failure s = None ->
  answer host c p = Ok (joined (texts s)).
Proof. intros Hs Hf; unfold answer; rewrite Hs; cbn; by rewrite accumulate_spec, Hf. Qed.

Lemma answer_refused (c : ChatSession) (p : string) (e : exn) :
  service host (client c) (history c) p = Raise e -> answer host c p = Raise e.
Proof. intros Hs; unfold answer; by rewrite Hs. Qed.

Lemma answer_interrupted (c : ChatSession) (p : string) (s : Stream) (e : exn) :
  service host (client c) (history c) p = Ok s -> failure s = Some e ->
  answer host c p = Raise e.
Proof. intros Hs Hf; unfold answer; rewrite Hs; cbn; by rewrite accumulate_spec, Hf. Qed.

(** What an execution does when its button was clicked on a text that is
    not empty and the service answered with a stream that ended normally. *)
Lemma submitted_run ss (s : Stream) :
  typed ss = true -> submitted host task_of = true ->
  service host (the_client host) [] the_prompt = Ok s -> failure s = None ->
  outcome ss = Ok ()
  /\ transcript (next_session ss)
     = transcript ss ++ exchange (text_of host task_of) (joined (texts s))
  /\ sent ss = [(the_client host, [], the_prompt)].
Proof.
  intros Ht Hsub Hs Hf.
  pose proof (answer_complete fresh_chat the_prompt s Hs Hf) as Ha.
  rewrite outcome_run, transcript_next, sent_run by done.
  unfold exchange_made; by rewrite Hsub, Ha.
Qed.

(** What the top of the script and the section of a task display. *)
Definition top_commands : list Command :=
  [SetPageConfig page_title; Markdown style_sheet true; Header page_header;
   Selectbox language_label languages; Radio action_label actions].

Definition section_commands (t : Task) (language : string) : list Command :=
  [TextArea (text_label t language) (text_key t); Button (button_label t)].

Lemma displayed_run ss :
  typed ss = true ->
  displayed ss
  = top_commands ++ section_commands task_of (language_of host)
    ++ (if submitted host task_of then
          match answer host fresh_chat the_prompt with
          | Ok a =>
              [Subheader (title_of task_of (language_of host));
               Code a (lower (language_of host))]
              ++ history_commands host (next_session ss)
          | Raise _ => []
          end
        else history_commands host (next_session ss)).
Proof.
  intros Ht; rewrite next_session_run by done.
  unfold displayed, exchange_made, the_prompt.
  rewrite (execute_run ss Ht); cbv zeta.
  execution_cases;
    cbn [fst trace final]; rewrite <- ?app_assoc, !shown_app;
    unfold history_events; by rewrite ?shown_shows.
Qed.

Lemma code_blocks_history ss : code_blocks (history_commands host ss) = [].
Proof.
  unfold history_commands; destruct (clicked _ _); [|done].
  cbn; induction (transcript ss); cbn; auto.
Qed.

Lemma language_of_in : language_of host ∈ languages.
Proof. apply list_elem_of_In, pick_in; discriminate. Qed.

Lemma answer_raise_inv (c : ChatSession) (p : string) (e : exn) :
  answer host c p = Raise e ->
  service host (client c) (history c) p = Raise e
  \/ exists s, service host (client c) (history c) p = Ok s /\ failure s = Some e.
Proof.
  unfold answer; destruct (service host _ _ _) as [s|e']; cbn.
  - intros H%accumulate_raises; right; by exists s.
  - intros [= ->]; by left.
Qed.

Lemma run_script_transcript_grows : steps transcript_grows (run_script host).
Proof.
  unfold run_script, configure_client, page_top, generate_section, enhance_section,
    history_section, generate_required_code, enhance_code, chat_send_message,
    read_response, st_selectbox, st_radio, st_text_area, st_button, load_dotenv,
    getenv, configure.
  script_steps; eauto with session; same_world.
Qed.

(** ** Properties of an execution *)

(** C1: After the button "Generate Code" was clicked on requirements that
    are not empty and the service answered with a stream that ended
    normally, the execution returns, exactly one request was sent (the
    prompt of [generate_required_code] on a chat with no history), and the
    transcript has two more entries, in this order: the requirements of
    the user, then the concatenation of the chunks. *)
Theorem generate_appends_exchange ss (r : string) (s : Stream) :
  typed ss = true ->
  action_of host = "Software Required Code" ->
  clicked (frontend host) "Generate Code" = true ->
  entered (frontend host) "requirements" = r -> r ≠ "" ->
  service host (the_client host) [] (generate_prompt r (language_of host)) = Ok s ->
  failure s = None ->
  outcome ss = Ok ()
  /\ transcript (next_session ss)
     = transcript ss ++ [("You", r); ("Bot", joined (texts s))]
  /\ sent ss = [(the_client host, [], generate_prompt r (language_of host))].
Proof.
  intros Ht Ha%task_of_action Hc Hr Hne%truthy_true_iff Hs Hf.
  destruct (submitted_run ss s) as (H1 & H2 & H3); try done;
    unfold submitted, the_prompt, text_of in *; rewrite Ha in *; cbn in *;
    rewrite ?Hc, ?Hr in *; done.
Qed.

(** C2: The same for "Enhance Code": after a click on a snippet that is
    not empty and a complete answer, one request with the prompt of
    [enhance_code] was sent and the transcript has the snippet and the
    answer as its two last entries. *)
Theorem enhance_appends_exchange ss (x : string) (s : Stream) :
  typed ss = true ->
  action_of host = "Code Enhancing" ->
  clicked (frontend host) "Enhance Code" = true ->
  entered (frontend host) "snippet" = x -> x ≠ "" ->
  service host (the_client host) [] (enhance_prompt x (language_of host)) = Ok s ->
  failure s = None ->
  outcome ss = Ok ()
  /\ transcript (next_session ss)
     = transcript ss ++ [("You", x); ("Bot", joined (texts s))]
  /\ sent ss = [(the_client host, [], enhance_prompt x (language_of host))].
Proof.
  intros Ht Ha%task_of_action Hc Hr Hne%truthy_true_iff Hs Hf.
  destruct (submitted_run ss s) as (H1 & H2 & H3); try done;
    unfold submitted, the_prompt, text_of in *; rewrite Ha in *; cbn in *;
    rewrite ?Hc, ?Hr in *; done.
Qed.

(** C5: An execution in which the button of the selected action was not
    clicked, or was clicked on an empty text, sends nothing to the service,
    leaves the transcript as it was and returns. *)
Theorem empty_input_no_effect ss :
  typed ss = true ->
  clicked (frontend host) (button_label task_of) = false \/ text_of host task_of = "" ->
  sent ss = [] /\ transcript (next_session ss) = transcript ss /\ outcome ss = Ok ().
Proof.
  intros Ht Hno.
  assert (submitted host task_of = false) as Hsub.
  { unfold submitted; destruct Hno as [-> | ->]; [done | apply andb_false_r]. }
  rewrite sent_run, transcript_next, outcome_run by done.
  unfold exchange_made; by rewrite Hsub, app_nil_r.
Qed.

(** C4: When the call to the service raises, or the stream fails before
    its end, the execution raises that exception after its one request; the
    dictionary is the one the top of the script left, so the transcript has
    no new entry, not even the question, and no code block was displayed. *)
Theorem upstream_error_keeps_transcript ss (e : exn) :
  typed ss = true -> submitted host task_of = true ->
  answer host fresh_chat the_prompt = Raise e ->
  outcome ss = Raise e
  /\ next_session ss = prepared ss
  /\ transcript (next_session ss) = transcript ss
  /\ sent ss = [(the_client host, [], the_prompt)]
  /\ last (trace (fst (execute host ss))) = Some (Request (the_client host) [] the_prompt).
Proof.
  intros Ht Hsub Ha.
  rewrite outcome_run, transcript_next, sent_run, next_session_run by done.
  unfold exchange_made; rewrite Hsub, Ha, app_nil_r; repeat split.
  rewrite (execute_run ss Ht); cbv zeta; fold the_prompt; rewrite Hsub, Ha.
  apply last_snoc.
Qed.

(** C7: Whatever the dictionary, the user and the service, the transcript
    an execution leaves starts with the transcript it found: entries are
    only added at the end, never removed, reordered or changed. *)
Theorem transcript_append_only ss :
  transcript ss `prefix_of` transcript (next_session ss).
Proof. apply (run_script_transcript_grows (boot host ss)). Qed.

(** C36: An execution started on a typed dictionary leaves a typed
    dictionary that has the key of the transcript; the text area of the
    selected action has left the text entered under its key, and the
    entries of all other keys are as they were. *)
Theorem next_session_typed ss :
  typed ss = true ->
  typed (next_session ss) = true
  /\ is_Some (next_session ss !! "chat_history")
  /\ next_session ss !! text_key task_of = Some (PyStr (text_of host task_of))
  /\ forall k : string, k ≠ "chat_history" -> k ≠ text_key task_of ->
       next_session ss !! k = ss !! k.
Proof.
  intros Ht; pose proof (text_key_apart task_of) as Hkey.
  split; [by apply next_typed |].
  split; [rewrite next_session_lookup, decide_True by done; eauto |].
  split; [by rewrite next_session_lookup, decide_False, decide_True |].
  intros k Hk Hk'; by rewrite next_session_lookup, !decide_False.
Qed.

(** C9: An execution that is not stopped keeps the transcript well
    formed: a sequence of exchanges, each a question of the user that is
    not empty followed by the answer of the model. *)
Theorem next_session_well_formed ss :
  typed ss = true -> well_formed (transcript ss) = true ->
  well_formed (transcript (next_session ss)) = true.
Proof.
  intros Ht Hwf; rewrite transcript_next by done; unfold exchange_made.
  destruct (submitted host task_of) eqn:Hsub; [|by rewrite app_nil_r].
  destruct (answer host fresh_chat the_prompt); [|by rewrite app_nil_r].
  apply well_formed_snoc; [done |].
  by apply andb_prop in Hsub as [_ ?].
Qed.

(** C16: The order of what an execution sends out, on a typed
    dictionary: the page configuration first, the style sheet, the header
    and the two selectors, then the text area and the button of the selected
    action; after them the request, when the button was clicked on a text
    that is not empty; after the request the title and the code block of
    the answer, when there is one, and nothing when the service failed;
    the button of the transcript and the lines of the transcript last. *)
Theorem execution_trace ss :
  typed ss = true ->
  trace (fst (execute host ss))
  = top_events ++ section_widgets task_of (language_of host)
    ++ (if submitted host task_of then
          match answer host fresh_chat the_prompt with
          | Ok a =>
              [Request (the_client host) [] the_prompt;
               Show (Subheader (title_of task_of (language_of host)));
               Show (Code a (lower (language_of host)))]
              ++ history_events host (next_session ss)
          | Raise _ => [Request (the_client host) [] the_prompt]
          end
        else history_events host (next_session ss)).
Proof.
  intros Ht; rewrite next_session_run by done.
  unfold exchange_made, the_prompt; rewrite (execute_run ss Ht); cbv zeta.
  execution_cases;
    cbn [fst trace final]; by rewrite <- ?app_assoc.
Qed.

Lemma run_script_first ss :
  exists rest : script unit,
    steps trace_grows rest
    /\ execute host ss
       = rest (update (boot host ss) ss None [Show (SetPageConfig page_title)]).
Proof.
  eexists; split; cycle 1.
  - unfold execute, run_script, configure_client.
    rewrite !bind_assoc, show_bind by done; reflexivity.
  - unfold page_top, generate_section, enhance_section,
      history_section, generate_required_code, enhance_code, chat_send_message,
      read_response, st_selectbox, st_radio, st_text_area, st_button, load_dotenv,
      getenv, configure.
    script_steps; eauto with session; same_world.
Qed.

(** C6: An execution sends at most one request to the service, and the
    request carries no history: the chat is opened anew at the top of every
    execution, so the service never sees an earlier exchange of the
    session.  The client of the request has the credential of the process
    environment, or that of the [.env] file when the process has none, and
    the model "gemini-pro". *)
Theorem one_request_fresh_context ss :
  typed ss = true ->
  length (sent ss) <= 1
  /\ forall c h p, (c, h, p) ∈ sent ss ->
       h = [] /\ p = the_prompt /\ model_name c = "gemini-pro"
       /\ api_key c = match environ host !! "GOOGLE_API_KEY" with
                      | Some k => Some k
                      | None => dotenv host !! "GOOGLE_API_KEY"
                      end.
Proof.
  intros Ht; rewrite sent_run by done.
  destruct (submitted host task_of); cbn; split; try lia.
  - intros c h p [= -> -> ->]%list_elem_of_singleton; repeat split.
    cbn; unfold credential; rewrite lookup_union.
    by destruct (environ host !! _), (dotenv host !! _).
  - by intros c h p ?%elem_of_nil.
Qed.

(** Whatever the dictionary, the user and the service, the first
    thing an execution sends out is the configuration of the page with the
    title of the application. *)
Theorem first_command_page_config ss :
  (exists rest, trace (fst (execute host ss)) = Show (SetPageConfig page_title) :: rest)
  /\ head (displayed ss) = Some (SetPageConfig page_title).
Proof.
  destruct (run_script_first ss) as (rest & Hsteps & Hrun).
  destruct (Hsteps (update (boot host ss) ss None [Show (SetPageConfig page_title)]))
    as [evs Hevs].
  unfold displayed; rewrite Hrun, Hevs; split; [by exists evs | done].
Qed.

(** C35: On a typed dictionary an execution raises only what the service
    raised, at the call or in the stream: no statement of the script itself
    fails (no missing key, no unbound name, no missing method). *)
Theorem only_upstream_errors ss (e : exn) :
  typed ss = true -> outcome ss = Raise e ->
  submitted host task_of = true
  /\ (service host (the_client host) [] the_prompt = Raise e
      \/ exists s, service host (the_client host) [] the_prompt = Ok s
                   /\ failure s = Some e).
Proof.
  intros Ht; rewrite outcome_run by done.
  destruct (submitted host task_of); [|done].
  destruct (answer host fresh_chat the_prompt) eqn:Ha; [done |].
  intros [= ->]; split; [done | by apply (answer_raise_inv fresh_chat)].
Qed.

(** When "Show Chat History" was clicked and the execution returns,
    the last things displayed are the title "Chat History" and one line
    "role: text" for each entry of the transcript the execution leaves, in
    the order of the transcript: an exchange made by the same execution is
    listed. *)
Theorem history_displayed ss :
  typed ss = true -> clicked (frontend host) "Show Chat History" = true ->
  outcome ss = Ok () ->
  exists before,
    displayed ss
    = before ++ Subheader "Chat History"
        :: map (fun entry => Write (history_line entry)) (transcript (next_session ss)).
Proof.
  intros Ht Hc; rewrite outcome_run, displayed_run by done.
  unfold history_commands; rewrite Hc.
  execution_cases;
    intros [=]; eexists; rewrite !app_assoc, ?cons_middle, !app_assoc; reflexivity.
Qed.

(** The code blocks an execution displays: none when it made no
    exchange, and otherwise one, whose body is the answer added to the
    transcript and whose language tag is the selected language in lower
    case, one of "python", "java", "c++", "javascript" and "go". *)
Theorem code_block_tag ss :
  typed ss = true ->
  code_blocks (displayed ss)
  = match exchange_made with
    | Some (_, a) => [(a, lower (language_of host))]
    | None => []
    end
  /\ lower (language_of host) ∈ ["python"; "java"; "c++"; "javascript"; "go"].
Proof.
  intros Ht; split;
    [| rewrite <- lower_languages; apply list_elem_of_fmap_2, language_of_in].
  rewrite displayed_run by done; unfold exchange_made.
  rewrite !code_blocks_app.
  execution_cases;
    rewrite ?code_blocks_app, ?code_blocks_history; done.
Qed.

End Execution.

#[export] Hint Resolve prepared_typed prepared_has_history : session.

(** ** Example executions *)

(** The request of the end-to-end example: on the first execution of a
    session, "Generate Code" clicked on "a function that adds two numbers"
    with the first language and the first action selected, against a
    service that answers in two chunks. *)
Definition adder_frontend : Frontend :=
  {| choice := fun _ => 0;
     entered := fun k =>
       if String.eqb k "requirements" then "a function that adds two numbers" else "";
     clicked := fun l => String.eqb l "Generate Code" |}.

Definition adder_host : Host :=
  {| environ := {["GOOGLE_API_KEY" := "secret"]}; dotenv := ∅;
     service := fixed_service ["def add(a,b):"; " return a+b"];
     frontend := adder_frontend |}.

(** The same page with the second action selected and a snippet entered. *)
Definition enhancer_frontend : Frontend :=
  {| choice := fun l => if String.eqb l action_label then 1 else 2;
     entered := fun k => if String.eqb k "snippet" then "int x;" else "";
     clicked := fun l => String.eqb l "Enhance Code" |}.

Definition enhancer_host : Host :=
  {| environ := ∅; dotenv := {["GOOGLE_API_KEY" := "secret"]};
     service := echo_service; frontend := enhancer_frontend |}.

(** A page on which nothing was entered or clicked, and one on which the
    service cannot be reached. *)
Definition idle_host : Host :=
  {| environ := ∅; dotenv := ∅; service := unreachable_service;
     frontend := {| choice := fun _ => 0; entered := fun _ => ""; clicked := fun _ => false |} |}.

Definition offline_host : Host :=
  {| environ := ∅; dotenv := ∅; service := unreachable_service;
     frontend := adder_frontend |}.

(** A dictionary with one exchange. *)
Definition one_exchange : session := {["chat_history" := PyList (exchange "q" "a")]}.

Lemma generate_appends_exchange_witness :
  outcome adder_host ∅ = Ok ()
  /\ transcript (next_session adder_host ∅)
     = transcript ∅ ++ [("You", "a function that adds two numbers");
                        ("Bot", joined (texts (of_texts ["def add(a,b):"; " return a+b"])))]
  /\ sent adder_host ∅
     = [(the_client adder_host, [],
         generate_prompt "a function that adds two numbers" (language_of adder_host))].
Proof.
  apply (generate_appends_exchange adder_host ∅ _
           (of_texts ["def add(a,b):"; " return a+b"])); done.
Defined.

Lemma enhance_appends_exchange_witness :
  outcome enhancer_host one_exchange = Ok ()
  /\ transcript (next_session enhancer_host one_exchange)
     = transcript one_exchange
       ++ [("You", "int x;");
           ("Bot", joined (texts (of_texts [""; enhance_prompt "int x;" "C++"])))]
  /\ sent enhancer_host one_exchange
     = [(the_client enhancer_host, [],
         enhance_prompt "int x;" (language_of enhancer_host))].
Proof.
  apply (enhance_appends_exchange enhancer_host one_exchange _
           (of_texts [""; enhance_prompt "int x;" "C++"])); done.
Defined.

Lemma empty_input_no_effect_witness :
  sent idle_host one_exchange = []
  /\ transcript (next_session idle_host one_exchange) = transcript one_exchange
  /\ outcome idle_host one_exchange = Ok ().
Proof. apply (empty_input_no_effect idle_host one_exchange); [done | by left]. Defined.

Lemma upstream_error_keeps_transcript_witness :
  outcome offline_host one_exchange = Raise (UpstreamError "unreachable")
  /\ next_session offline_host one_exchange = prepared offline_host one_exchange
  /\ transcript (next_session offline_host one_exchange) = transcript one_exchange
  /\ sent offline_host one_exchange = [(the_client offline_host, [], the_prompt offline_host)]
  /\ last (trace (fst (execute offline_host one_exchange)))
     = Some (Request (the_client offline_host) [] (the_prompt offline_host)).
Proof.
  apply (upstream_error_keeps_transcript offline_host one_exchange); done.
Defined.

Lemma next_session_typed_witness :
  typed (next_session adder_host ∅) = true
  /\ is_Some (next_session adder_host ∅ !! "chat_history")
  /\ next_session adder_host ∅ !! text_key (task_of adder_host)
     = Some (PyStr (text_of adder_host (task_of adder_host)))
  /\ forall k : string, k ≠ "chat_history" -> k ≠ text_key (task_of adder_host) ->
       next_session adder_host ∅ !! k = (∅ : session) !! k.
Proof. apply (next_session_typed adder_host ∅); done. Defined.

Lemma next_session_well_formed_witness :
  well_formed (transcript (next_session adder_host one_exchange)) = true.
Proof. apply (next_session_well_formed adder_host one_exchange); done. Defined.

Lemma one_request_fresh_context_witness :
  length (sent adder_host one_exchange) <= 1
  /\ forall c h p, (c, h, p) ∈ sent adder_host one_exchange ->
       h = [] /\ p = the_prompt adder_host /\ model_name c = "gemini-pro"
       /\ api_key c = match environ adder_host !! "GOOGLE_API_KEY" with
                      | Some k => Some k
                      | None => dotenv adder_host !! "GOOGLE_API_KEY"
                      end.
Proof. apply (one_request_fresh_context adder_host one_exchange); done. Defined.

Lemma only_upstream_errors_witness :
  submitted offline_host (task_of offline_host) = true
  /\ (service offline_host (the_client offline_host) [] (the_prompt offline_host)
      = Raise (UpstreamError "unreachable")
      \/ exists s, service offline_host (the_client offline_host) []
                     (the_prompt offline_host) = Ok s
                   /\ failure s = Some (UpstreamError "unreachable")).
Proof. apply (only_upstream_errors offline_host one_exchange); done. Defined.

(** The page of the first example with "Show Chat History" clicked in
    place of "Generate Code". *)
Definition reader_host : Host :=
  {| environ := ∅; dotenv := ∅; service := unreachable_service;
     frontend := {| choice := fun _ => 0; entered := fun _ => "";
                    clicked := fun l => String.eqb l "Show Chat History" |} |}.

Lemma history_displayed_witness :
  exists before,
    displayed reader_host one_exchange
    = before ++ Subheader "Chat History"
        :: map (fun entry => Write (history_line entry))
             (transcript (next_session reader_host one_exchange)).
Proof. apply (history_displayed reader_host one_exchange); done. Defined.

Lemma code_block_tag_witness :
  code_blocks (displayed adder_host ∅)
  = match exchange_made adder_host with
    | Some (_, a) => [(a, lower (language_of adder_host))]
    | None => []
    end
  /\ lower (language_of adder_host) ∈ ["python"; "java"; "c++"; "javascript"; "go"].
Proof. apply (code_block_tag adder_host ∅); done. Defined.

Lemma execution_trace_witness :
  trace (fst (execute adder_host one_exchange))
  = top_events ++ section_widgets (task_of adder_host) (language_of adder_host)
    ++ (if submitted adder_host (task_of adder_host) then
          match answer adder_host (fresh_chat adder_host) (the_prompt adder_host) with
          | Ok a =>
              [Request (the_client adder_host) [] (the_prompt adder_host);
               Show (Subheader (title_of (task_of adder_host) (language_of adder_host)));
               Show (Code a (lower (language_of adder_host)))]
              ++ history_events adder_host (next_session adder_host one_exchange)
          | Raise _ => [Request (the_client adder_host) [] (the_prompt adder_host)]
          end
        else history_events adder_host (next_session adder_host one_exchange)).
Proof. apply (execution_trace adder_host one_exchange); done. Defined.
