(* ===== verification/Untyped.v ===== *)
(** * Executions on a dictionary whose transcript is not a list

    The script creates the transcript only when the key is missing
    (app.py 125-126): a value that is already under ["chat_history"] is
    taken as it is.  The dictionary is shared with everything that writes
    to [st.session_state]; when the key holds a [str], the statements of
    the script that use it fail: [append] does not exist on a [str]
    (app.py 144, 161) and the characters of a [str] cannot be unpacked into
    a role and a text (app.py 171).  This file has what an execution does
    then: the request is sent and the answer read before the failure. *)

From stdpp Require Import gmap strings list.
From S2P Require Import Prelude PyStr Prompt Stream Chat Transcript Render World.
From S2P Require Import App Execution.

#[local] Open Scope py_scope.

Section Untyped.
Context (host : Host).
Implicit Types (w : World) (ss : session) (s : string).

(** The dictionary holds the [str] [s] under the key of the transcript. *)
Definition holds_str ss s : Prop := ss !! "chat_history" = Some (PyStr s).

(** What the display of the transcript raises over the [str] [s]: nothing
    when the button was not clicked or the [str] is empty. *)
Definition unpack_outcome s : result exn unit :=
  if clicked (frontend host) "Show Chat History" && truthy s
  then Raise (ValueError "not enough values to unpack")
  else Ok ().

(** What an execution raises on such a dictionary. *)
Definition str_outcome s : result exn unit :=
  if submitted host (task_of host) then
    match answer host (fresh_chat host) (the_prompt host) with
    | Ok _ => Raise (AttributeError "append")
    | Raise e => Raise e
    end
  else unpack_outcome s.

(** What the last section sends to the page before it fails or ends. *)
Definition str_history_events : list Event :=
  Show (Button "Show Chat History")
  :: (if clicked (frontend host) "Show Chat History"
      then [Show (Subheader "Chat History")] else []).

(** ** The statements on a [str] *)

Lemma holds_str_untyped ss s : holds_str ss s -> typed ss = false.
Proof. unfold holds_str, typed; by intros ->. Qed.

Lemma append_history_str (entry : string * string) ss s :
  holds_str ss s -> append_history entry ss = Raise (AttributeError "append").
Proof. unfold holds_str, append_history; by intros ->. Qed.

Lemma read_history_str ss s :
  holds_str ss s ->
  read_history ss
  = if truthy s then Raise (ValueError "not enough values to unpack") else Ok [].
Proof. unfold holds_str, read_history; by intros ->. Qed.

Lemma holds_str_init ss s : holds_str ss s -> init_history ss = ss.
Proof. unfold holds_str, init_history; by intros ->. Qed.

Lemma holds_str_prepared ss s : holds_str ss s -> holds_str (prepared host ss) s.
Proof.
  intros H; unfold holds_str, prepared.
  by rewrite keyed_history, (holds_str_init ss s).
Qed.

(** ** The sections on a [str] *)

Lemma respond_block_str (t : Task) (text language : string) w c s :
  pending w = None -> chat w = Some c -> holds_str (session_state w) s ->
  respond_block host t text language w
  = let prompt := prompt_of t text language in
    let request := Request (client c) (history c) prompt in
    match answer host c prompt with
    | Ok a =>
        (update w (session_state w) (Some (record_exchange c prompt a)) [request],
         Raise (AttributeError "append"))
    | Raise e => (update w (session_state w) (Some c) [request], Raise e)
    end.
Proof.
  intros Hp Hc Hs; unfold respond_block; rewrite function_of_ask.
  pose proof (ask_run host (prompt_of t text language) w c Hc) as Hask.
  destruct (answer host c (prompt_of t text language)) as [a|e]; cbv zeta;
    [|by rewrite (bind_fails _ _ _ _ _ Hask)].
  rewrite (bind_ok _ _ _ _ _ Hask); clear Hask.
  destruct w as [ss e k m ch tr p]; cbn in *; subst p; unfold update.
  script_simpl; by rewrite (append_history_str _ ss s).
Qed.

Lemma section_str (t : Task) (language : string) w c s :
  pending w = None -> chat w = Some c -> holds_str (session_state w) s ->
  section_of host t language w
  = let prompt := prompt_of t (text_of host t) language in
    let request := Request (client c) (history c) prompt in
    let ss := keyed host t (session_state w) in
    if submitted host t then
      match answer host c prompt with
      | Ok a =>
          (update w ss (Some (record_exchange c prompt a))
             (section_widgets t language ++ [request]), Raise (AttributeError "append"))
      | Raise e => (update w ss (Some c) (section_widgets t language ++ [request]), Raise e)
      end
    else (update w ss (Some c) (section_widgets t language), Ok ()).
Proof.
  intros Hp Hc Hs; rewrite section_of_block, section_widgets_run, Hc by done.
  unfold submitted.
  destruct (clicked _ _); cbn [when andb]; [|done].
  destruct (truthy (text_of host t)); cbn [when]; [|done].
  rewrite (respond_block_str _ _ _ _ c s)
    by (cbn; unfold holds_str; rewrite ?keyed_history; done); cbv zeta.
  destruct (answer host c _); by rewrite update_update.
Qed.

Lemma history_section_str w s :
  pending w = None -> holds_str (session_state w) s ->
  history_section host w
  = (update w (session_state w) (chat w) str_history_events, unpack_outcome s).
Proof.
  intros Hp Hs; unfold history_section, st_button, str_history_events, unpack_outcome.
  rewrite !bind_assoc, show_bind by done; rewrite bind_ret_l.
  destruct (clicked _ _); cbn [when andb]; [|done].
  rewrite show_bind by done; rewrite update_update.
  unfold bind at 1, get; cbn [session_state update].
  rewrite (read_history_str _ s) by done.
  destruct (truthy s); [done |].
  by unfold bind, lift.
Qed.

(** The whole execution on a dictionary that holds a [str]. *)
Lemma execute_str ss s :
  holds_str ss s ->
  execute host ss
  = let t := task_of host in
    let widgets := top_events ++ section_widgets t (language_of host) in
    let request := Request (the_client host) [] (the_prompt host) in
    if submitted host t then
      match answer host (fresh_chat host) (the_prompt host) with
      | Ok a =>
          (final host (prepared host ss)
             (record_exchange (fresh_chat host) (the_prompt host) a)
             (widgets ++ [request]), Raise (AttributeError "append"))
      | Raise e =>
          (final host (prepared host ss) (fresh_chat host) (widgets ++ [request]), Raise e)
      end
    else (final host (prepared host ss) (fresh_chat host) (widgets ++ str_history_events),
          unpack_outcome s).
Proof.
  intros Hs; rewrite execute_sections.
  rewrite (section_str _ _ _ (fresh_chat host) s)
    by (cbn; unfold holds_str; by rewrite ?(holds_str_init ss s)); cbv zeta.
  fold (the_prompt host); unfold prepared.
  execution_cases;
    rewrite final_update; try done.
  rewrite (history_section_str _ s)
    by (done || apply (holds_str_prepared ss s Hs)).
  cbn [session_state chat final]; by rewrite final_update, <- ?app_assoc.
Qed.

(** What an execution displays on a [str]: the widgets, and the button
    and the title of the transcript when no request was made. *)
Lemma displayed_str ss s :
  holds_str ss s ->
  displayed host ss
  = top_commands ++ section_commands (task_of host) (language_of host)
    ++ (if submitted host (task_of host) then [] else shown str_history_events).
Proof.
  intros Hs; unfold displayed; rewrite (execute_str ss s Hs); cbv zeta.
  execution_cases; cbn [fst trace final]; by rewrite !shown_app.
Qed.

(** A dictionary is typed or holds a [str] under the key. *)
Lemma session_cases ss : typed ss = true \/ exists s, holds_str ss s.
Proof.
  unfold typed, holds_str; destruct (ss !! "chat_history") as [[s|l]|]; eauto.
Qed.

(** ** What an execution does on a [str] *)

(** C18: On a dictionary whose ["chat_history"] is a [str], an execution
    raises [AttributeError] after a request that was answered, the
    exception of the service after one that was not, and [ValueError] when
    the transcript is to be displayed and the [str] is not empty; the
    request has been sent all the same before the failure, the answer is
    not displayed, and the [str] is still under the key afterwards. *)
Theorem str_history_raises ss s :
  holds_str ss s ->
  outcome host ss = str_outcome s
  /\ sent host ss
     = (if submitted host (task_of host)
        then [(the_client host, [], the_prompt host)] else [])
  /\ holds_str (next_session host ss) s
  /\ code_blocks (displayed host ss) = [].
Proof.
  intros Hs; pose proof (holds_str_prepared ss s Hs) as Hp.
  unfold outcome, sent, next_session, displayed, str_outcome, str_history_events.
  rewrite (execute_str ss s Hs); cbv zeta.
  execution_cases;
    cbn [fst snd trace final session_state];
    rewrite ?requests_app, ?shown_app, ?code_blocks_app; repeat split; try done;
    unfold str_history_events; by destruct (clicked _ _).
Qed.

End Untyped.

(** A dictionary in which another page has left a note under the key, and
    a user who asks for the transcript. *)
Definition noted : session := {["chat_history" := PyStr "remember the tests"]}.

Lemma str_history_raises_witness :
  outcome adder_host noted = str_outcome adder_host "remember the tests"
  /\ sent adder_host noted
     = (if submitted adder_host (task_of adder_host)
        then [(the_client adder_host, [], the_prompt adder_host)] else [])
  /\ holds_str (next_session adder_host noted) "remember the tests"
  /\ code_blocks (displayed adder_host noted) = [].
Proof. apply (str_history_raises adder_host noted "remember the tests"); done. Defined.
