(* ===== verification/StopLogic.v ===== *)
(** * A logic for the executions the runtime stops

    An execution that the runtime has asked to stop runs as the execution
    that was not asked, up to the Streamlit call at which it notices.
    This file states that as a relation between the two runs of one
    script, [cut_of], and shows that every construct of the script monad
    and every statement of the script keeps it ([stops_well]): a sequence
    of two scripts that stop well stops well, a Streamlit call does, and so
    does a statement that makes no call and does not look at the request.
    The script as a whole then stops well on every dictionary
    ([run_script_stops_well]), typed or not, with no analysis of its
    cases. *)

From stdpp Require Import gmap strings list.
From S2P Require Import Prelude PyStr Prompt Stream Chat Transcript Render World App.

#[local] Open Scope py_scope.

(** The number of Streamlit calls made so far. *)
Definition calls (w : World) : nat := length (shown (trace w)).

(** The run [cut] of a script, started on the world [w] with a request to
    stop after [n] calls, against the run [full] started on [w] with no
    request.  Either [full] makes no more than [n] calls, and [cut] is
    [full] with what is left of the [n]; or [full] makes more, and [cut]
    has raised [ScriptControlException] after [n] calls, having sent out
    the beginning of what [full] sends. *)
Definition cut_of {A} (n : nat) (w : World) (full cut : World * result exn A) : Prop :=
  pending full.1 = None
  /\ ((calls full.1 <= calls w + n
       /\ cut = (set_pending (Some (calls w + n - calls full.1)) full.1, full.2))
      \/ (calls w + n < calls full.1
          /\ cut.2 = Raise ScriptControlException
          /\ trace cut.1 `prefix_of` trace full.1
          /\ calls cut.1 = calls w + n)).

(** A script stops well when its trace only grows and its run under a
    request to stop is the cut of its run without. *)
Definition stops_well {A} (m : script A) : Prop :=
  steps trace_grows m
  /\ forall w n, cut_of n w (m (set_pending None w)) (m (set_pending (Some n) w)).

(** ** Calls *)

Lemma trace_grows_calls w w' : trace_grows w w' -> calls w <= calls w'.
Proof. intros [t Ht]; unfold calls; rewrite Ht, shown_app, length_app; lia. Qed.

Lemma calls_emit_show (c : Command) w : calls (emit (Show c) w) = calls w + 1.
Proof. unfold calls; cbn; by rewrite shown_app, length_app. Qed.

Lemma calls_emit_request c h p w : calls (emit (Request c h p) w) = calls w.
Proof. unfold calls; cbn; by rewrite shown_app, app_nil_r. Qed.

Lemma calls_set_pending (p : option nat) w : calls (set_pending p w) = calls w.
Proof. reflexivity. Qed.

Lemma quiet_id w : pending w = None -> set_pending None w = w.
Proof. destruct w; cbn; by intros ->. Qed.

(** ** Statements that make no call *)

(** A statement that does not look at the request and makes no call. *)
Lemma stops_pure {A} (m : script A) :
  steps trace_grows m ->
  (forall p w, m (set_pending p w) = (set_pending p (m w).1, (m w).2)) ->
  (forall w, calls (m w).1 = calls w) ->
  stops_well m.
Proof.
  intros Hg Hp Hc; split; [done |]; intros w n; rewrite !Hp.
  split; [done |]; left; cbn [fst snd].
  rewrite calls_set_pending, Hc.
  split; [lia |]; by replace (calls w + n - calls w) with n by lia.
Qed.

Lemma stops_ret {A} (a : A) : stops_well (ret a).
Proof. apply stops_pure; [apply steps_ret; exact _ | done ..]. Qed.

Lemma stops_raise {A} (e : exn) : stops_well (raise (A := A) e).
Proof. apply stops_pure; [apply steps_raise; exact _ | done ..]. Qed.

Lemma stops_lift {A} (r : result exn A) : stops_well (lift r).
Proof. apply stops_pure; [apply steps_lift; exact _ | done ..]. Qed.

Lemma stops_modify (f : World -> World) :
  (forall p w, f (set_pending p w) = set_pending p (f w)) ->
  (forall w, trace_grows w (f w)) ->
  (forall w, calls (f w) = calls w) ->
  stops_well (modify f).
Proof.
  intros Hp Hg Hc; apply stops_pure; [by apply steps_modify | | done].
  intros p w; unfold modify; cbn; by rewrite Hp.
Qed.

(** ** The constructs of the monad *)

Lemma stops_bind {A B} (m : script A) (k : A -> script B) :
  stops_well m -> (forall a, stops_well (k a)) -> stops_well (bind m k).
Proof.
  intros [Hgm Hm] Hk; split;
    [apply steps_bind; [exact _ | done | intros a; apply Hk] |].
  intros w n; specialize (Hm w n); unfold bind.
  destruct (m (set_pending None w)) as [w0 r0], (m (set_pending (Some n) w)) as [w1 r1].
  destruct Hm as [Hp [[Hle [= -> ->]] | (Hlt & Hr & Hpre & Hcalls)]]; cbn [fst snd] in *.
  - destruct r0 as [a|e]; [| by split; [| left]].
    destruct (Hk a) as [_ Ha]; specialize (Ha w0 (calls w + n - calls w0)).
    rewrite (quiet_id w0 Hp) in Ha.
    destruct Ha as [Hp' [[Hle' ->] | (Hlt' & Hr' & Hpre' & Hcalls')]];
      (split; [done |]); [left | right].
    + split; [lia |]; do 3 f_equal; lia.
    + repeat split; [lia | done | done | lia].
  - subst r1; destruct r0 as [a|e]; [| by split; [| right]].
    destruct (Hk a) as [Hga Ha]; specialize (Ha w0 0); rewrite (quiet_id w0 Hp) in Ha.
    pose proof (Hga w0) as Hgrow; pose proof (trace_grows_calls _ _ Hgrow).
    split; [apply Ha | right; repeat split; [lia | | done]].
    by etrans.
Qed.

Lemma stops_when (b : bool) (body : script unit) :
  stops_well body -> stops_well (when b body).
Proof. destruct b; [done | intros _; apply stops_ret]. Qed.

Lemma stops_for_each {A} (l : list A) (body : A -> script unit) :
  (forall x, stops_well (body x)) -> stops_well (for_each l body).
Proof.
  intros Hb; induction l as [|x l IH]; cbn [for_each];
    [apply stops_ret | by apply stops_bind].
Qed.

(** A statement that reads the world, and does not look at the
    request. *)
Lemma stops_get_bind {B} (k : World -> script B) :
  (forall p w w', k (set_pending p w) w' = k w w') ->
  (forall w, stops_well (k w)) ->
  stops_well (bind get k).
Proof.
  intros Hp Hk; split;
    [apply steps_bind; [exact _ | apply steps_get; exact _ | intros a; apply Hk] |].
  intros w n; unfold bind, get; rewrite !Hp; apply Hk.
Qed.

(** ** The statements of the script *)

(** A Streamlit call. *)
Lemma stops_show (c : Command) : stops_well (show c).
Proof.
  split; [apply steps_show; [exact _ | intros; apply show_trace_grows] |].
  intros w n; unfold show, modify, raise; cbn [pending set_pending].
  split; [done |]; destruct n as [|n]; [right | left]; cbn [fst snd].
  - rewrite calls_emit_show, !calls_set_pending.
    repeat split; [lia | by apply prefix_app_r | lia].
  - rewrite calls_emit_show, calls_set_pending.
    split; [lia |]; by replace (calls w + S n - (calls w + 1)) with n by lia.
Qed.

Lemma stops_global {A} (name : string) (field : World -> option A) :
  (forall p w, field (set_pending p w) = field w) -> stops_well (global name field).
Proof.
  intros Hf; apply stops_get_bind; [intros p w w'; by rewrite Hf |].
  intros w; destruct (field w); [apply stops_ret | apply stops_raise].
Qed.

Lemma stops_on_session (f : session -> result exn session) : stops_well (on_session f).
Proof.
  apply stops_get_bind; [done |]; intros w.
  apply stops_bind; [apply stops_lift |]; intros ss.
  by apply stops_modify; [| intros w'; destruct w'; unfold trace_grows |].
Qed.

(** [stop_steps] reduces [stops_well m], for a script [m] whose
    definitions have been unfolded, to nothing: the updates of the world
    the script makes neither look at the request nor make a call. *)
Ltac stop_update :=
  apply stops_modify;
    [ done
    | intros ?; first [apply emit_trace_grows | same_world]
    | intros ?; first [apply calls_emit_request | reflexivity] ].

Ltac stop_step :=
  lazymatch goal with
  | |- stops_well (show _) => apply stops_show
  | |- stops_well (global _ _) => apply stops_global; done
  | |- stops_well (on_session _) => apply stops_on_session
  | |- stops_well (store_widget _ _) => unfold store_widget; stop_update
  | |- stops_well (bind get _) => apply stops_get_bind; [done | intros ?]
  | |- stops_well (bind _ _) => apply stops_bind; [| intros ?]
  | |- stops_well (when _ _) => apply stops_when
  | |- stops_well (for_each _ _) => apply stops_for_each; intros ?
  | |- stops_well (ret _) => apply stops_ret
  | |- stops_well (raise _) => apply stops_raise
  | |- stops_well (lift _) => apply stops_lift
  | |- stops_well (modify _) => stop_update
  end.

Ltac stop_steps := repeat stop_step.

(** ** The script *)

Lemma run_script_stops_well (host : Host) : stops_well (run_script host).
Proof.
  unfold run_script, configure_client, page_top, generate_section, enhance_section,
    history_section, generate_required_code, enhance_code, chat_send_message,
    read_response, st_selectbox, st_radio, st_text_area, st_button, load_dotenv,
    getenv, configure.
  stop_steps.
Qed.
