(* ===== verification/Stopped.v ===== *)
(** * Executions the runtime stops

    When the user interacts with the page while the script is running,
    Streamlit asks the running execution to stop and starts the next one.
    The execution notices at its next Streamlit call: the call raises
    [ScriptControlException] before it displays anything, the script has no handler
    for it, and the execution ends there.  What it has written to the
    session dictionary until then stays.

    This file has the executions that are asked to stop after a number of
    Streamlit calls ([execute_until]) and what they leave.  The calls of
    the script are, in order: the configuration of the page (1), the
    style sheet (2), the header (3), the two selectors (4, 5), the text
    area and the button of the selected action (6, 7), then, after the
    request and the answer, the title (8) and the code block (9), and the
    button of the transcript (10). *)

From stdpp Require Import gmap strings list.
From S2P Require Import Prelude PyStr Prompt Stream Chat Transcript Render World.
From S2P Require Import App Execution StopLogic.

#[local] Open Scope py_scope.

Section Stopped.
Context (host : Host).
Implicit Types (w : World) (ss : session) (n : nat).

(** The world at the first line of an execution that is asked to stop
    after [n] of its Streamlit calls. *)
Definition boot_until n ss : World := set_pending (Some n) (boot host ss).

Definition execute_until n ss : World * result exn unit :=
  run_script host (boot_until n ss).

(** What such an execution leaves, returns, sends and displays. *)
Definition next_session_until n ss : session := session_state (fst (execute_until n ss)).
Definition outcome_until n ss : result exn unit := snd (execute_until n ss).
Definition sent_until n ss : list (Client * list Content * string) :=
  requests (trace (fst (execute_until n ss))).
Definition displayed_until n ss : list Command := shown (trace (fst (execute_until n ss))).

(** The dictionary with the question at the end of the transcript, and
    no answer. *)
Definition asked_only ss (q : string) : session :=
  <["chat_history" := PyList (transcript ss ++ [("You", q)])]> ss.

(** ** The sections under a request to stop *)

(** The two widgets of a section, when the execution notices later. *)
Lemma section_widgets_pending {A} (t : Task) (language : string)
    (k : string -> bool -> script A) w n :
  pending w = Some (S (S n)) ->
  (let* text := st_text_area host (text_label t language) (text_key t) in
   let* pressed := st_button host (button_label t) in
   k text pressed) w
  = k (text_of host t) (clicked (frontend host) (button_label t))
      (set_pending (Some n)
         (update w (keyed host t (session_state w)) (chat w) (section_widgets t language))).
Proof.
  intros Hp; unfold st_text_area, st_button.
  rewrite !bind_assoc, (show_bind_pending _ _ w (S n)) by done.
  rewrite !bind_assoc, (bind_ok _ _ _ _ _ (store_widget_run _ _ _)), bind_ret_l.
  rewrite !bind_assoc; rewrite (show_bind_pending _ _ _ n) by reflexivity.
  rewrite bind_ret_l; f_equal; unfold section_widgets; world_eq.
Qed.

(** What both sections do once the button is clicked on a text, when
    the execution notices after [d] more Streamlit calls: at the title of
    the answer ([d = 0]) or at the code block ([d = 1]) the request has
    been made, the answer read, and the question appended. *)
Lemma respond_block_until (t : Task) (text language : string) w c (d : nat) :
  pending w = Some d -> chat w = Some c ->
  typed (session_state w) = true -> is_Some (session_state w !! "chat_history") ->
  respond_block host t text language w
  = let prompt := prompt_of t text language in
    let request := Request (client c) (history c) prompt in
    match answer host c prompt with
    | Raise e => (update w (session_state w) (Some c) [request], Raise e)
    | Ok a =>
        let c' := Some (record_exchange c prompt a) in
        match d with
        | S (S d') =>
            (set_pending (Some d')
               (update w (extended (session_state w) text a) c'
                  [request; Show (Subheader (title_of t language));
                   Show (Code a (lower language))]), Ok tt)
        | _ =>
            (set_pending (Some 0)
               (update w (asked_only (session_state w) text) c'
                  (request :: if d is 0 then []
                              else [Show (Subheader (title_of t language))])),
             Raise ScriptControlException)
        end
    end.
Proof.
  intros Hp Hc Ht Hk; unfold respond_block; rewrite function_of_ask.
  pose proof (ask_run host (prompt_of t text language) w c Hc) as Hask.
  destruct (answer host c (prompt_of t text language)) as [a|e]; cbv zeta;
    [|by rewrite (bind_fails _ _ _ _ _ Hask)].
  rewrite (bind_ok _ _ _ _ _ Hask); clear Hask.
  destruct w as [ss e k m ch tr p]; cbn in *; subst p.
  unfold update, asked_only, extended, exchange.
  destruct d as [|[|d]];
    script_simpl; rewrite (append_history_ok ss) by done; script_simpl;
    rewrite ?append_history_insert; script_simpl; by rewrite <- ?app_assoc.
Qed.

(** The display of the transcript, when the execution notices after [d]
    more calls: it displays the first [d] of what it would display. *)
Definition finish (d : nat) w : World * result exn unit :=
  let evs := history_events host (session_state w) in
  (set_pending (Some (d - length evs))
     (update w (session_state w) (chat w) (take d evs)),
   if d <? length evs then Raise ScriptControlException else Ok tt).

Lemma for_each_show_until {A} (f : A -> Command) (l : list A) w n :
  pending w = Some n ->
  for_each l (fun x => show (f x)) w
  = (set_pending (Some (n - length l))
       (update w (session_state w) (chat w) (take n (map (fun x => Show (f x)) l))),
     if n <? length l then Raise ScriptControlException else Ok tt).
Proof.
  revert w n; induction l as [|x l IH]; intros w n Hn; cbn [for_each map length].
  - rewrite Nat.sub_0_r, take_nil; world_eq.
  - destruct n as [|n]; [rewrite show_bind_stop by done; world_eq |].
    rewrite (show_bind_pending _ _ _ n), (IH _ n) by done; world_eq.
Qed.

Lemma history_section_until w (d : nat) :
  pending w = Some d ->
  typed (session_state w) = true -> is_Some (session_state w !! "chat_history") ->
  history_section host w = finish d w.
Proof.
  intros Hp Ht Hk; unfold history_section, st_button, finish, history_events,
    history_commands.
  destruct d as [|d]; [rewrite !bind_assoc, show_bind_stop by done; world_eq |].
  rewrite !bind_assoc, (show_bind_pending _ _ _ d), bind_ret_l by done.
  destruct (clicked _ _); cbn [when map length];
    [| world_eq; by rewrite Nat.sub_0_r, take_nil].
  destruct d as [|d]; [rewrite show_bind_stop by done; world_eq |].
  rewrite (show_bind_pending _ _ _ d) by done.
  unfold bind at 1, get; cbn [session_state update set_pending].
  rewrite read_history_ok by done; unfold bind at 1, lift.
  rewrite (for_each_show_until (fun e => Write (history_line e)) _ _ d) by done.
  rewrite !length_map, map_map; world_eq.
Qed.

(** ** The execution under a request to stop *)

(** An execution that gets past the two selectors goes on with the
    section of the selected action, as one that is not stopped. *)
Lemma execute_until_sections n ss :
  execute_until (5 + n) ss
  = (let (w', r) := section_of host (task_of host) (language_of host)
                      (set_pending (Some n)
                         (final host (init_history ss) (fresh_chat host) top_events)) in
     match r with
     | Ok _ => history_section host w'
     | Raise e => (w', Raise e)
     end).
Proof.
  unfold execute_until, boot_until, run_script.
  change (5 + n) with (S (S (S (S (S n))))).
  unfold configure_client, page_top, st_selectbox, st_radio, load_dotenv, getenv,
    configure, boot, set_pending; script_simpl.
  change (mkWorld _ _ _ _ _ _ _)
    with (set_pending (Some n) (final host (init_history ss) (fresh_chat host) top_events)).
  fold (action_of host) (language_of host).
  by destruct (action_of_cases host) as [[-> ->]|[-> ->]].
Qed.

(** The whole execution that gets past the widgets of the selected
    action, on a typed dictionary: [d] is the number of calls it still
    makes before it notices. *)
Lemma execute_until_run ss (d : nat) :
  typed ss = true ->
  execute_until (7 + d) ss
  = let t := task_of host in
    let l := language_of host in
    let text := text_of host t in
    let widgets := top_events ++ section_widgets t l in
    let request := Request (the_client host) [] (the_prompt host) in
    if submitted host t then
      match answer host (fresh_chat host) (the_prompt host) with
      | Raise e =>
          (set_pending (Some d)
             (final host (prepared host ss) (fresh_chat host) (widgets ++ [request])),
           Raise e)
      | Ok a =>
          let c' := record_exchange (fresh_chat host) (the_prompt host) a in
          match d with
          | S (S d') =>
              finish d' (final host (extended (prepared host ss) text a) c'
                           (widgets ++ [request; Show (Subheader (title_of t l));
                                        Show (Code a (lower l))]))
          | _ =>
              (set_pending (Some 0)
                 (final host (asked_only (prepared host ss) text) c'
                    (widgets ++ request :: if d is 0 then []
                                           else [Show (Subheader (title_of t l))])),
               Raise ScriptControlException)
          end
      end
    else finish d (final host (prepared host ss) (fresh_chat host) widgets).
Proof.
  intros Ht; rewrite (execute_until_sections (2 + d)); cbv zeta.
  rewrite section_of_block; rewrite (section_widgets_pending _ _ _ _ d) by reflexivity.
  unfold submitted;
    destruct (clicked _ _), (truthy (text_of host (task_of host)));
    cbn [when andb ret];
    try (by rewrite (history_section_until _ d) by (cbn; auto with session)).
  rewrite (respond_block_until _ _ _ _ (fresh_chat host) d)
    by (cbn; rewrite ?typed_keyed; auto with session); cbv zeta.
  fold (the_prompt host).
  destruct (answer host (fresh_chat host) (the_prompt host)) as [a|e]; [|done].
  destruct d as [|[|d]]; [done | done |].
  by rewrite (history_section_until _ d)
    by (cbn; unfold extended; auto with session).
Qed.

(** An execution that is stopped before the request: it has displayed
    the first [n] of the widgets, sent nothing, and the transcript is as
    it was. *)
Lemma stopped_early n ss :
  n <= 6 ->
  outcome_until n ss = Raise ScriptControlException
  /\ sent_until n ss = []
  /\ transcript (next_session_until n ss) = transcript ss
  /\ displayed_until n ss
     = take n (top_commands ++ section_commands (task_of host) (language_of host)).
Proof.
  unfold outcome_until, sent_until, next_session_until, displayed_until; intros Hn.
  do 5 (destruct n as [|n];
        [by repeat split; cbn; rewrite ?init_history_transcript |]).
  rewrite (execute_until_sections n), section_of_block; unfold st_text_area, st_button.
  destruct n as [|[|n]]; [| | lia].
  - rewrite !bind_assoc, show_bind_stop by done; cbn.
    by rewrite init_history_transcript.
  - rewrite !bind_assoc, (show_bind_pending _ _ _ 0) by done.
    rewrite !bind_assoc, (bind_ok _ _ _ _ _ (store_widget_run _ _ _)), bind_ret_l.
    rewrite !bind_assoc; rewrite show_bind_stop by reflexivity; cbn.
    rewrite transcript_insert_ne by apply text_key_apart.
    by rewrite init_history_transcript.
Qed.

(** What the display of the transcript leaves when it is stopped. *)
Lemma finish_shown (d : nat) w :
  shown (trace (fst (finish d w)))
  = shown (trace w) ++ take d (history_commands host (session_state w)).
Proof.
  unfold finish, history_events; cbn [fst trace update set_pending].
  by rewrite shown_app, take_shows, shown_shows.
Qed.

Lemma finish_requests (d : nat) w : requests (trace (fst (finish d w))) = requests (trace w).
Proof.
  unfold finish, history_events; cbn [fst trace update set_pending].
  by rewrite requests_app, take_shows, requests_shows, app_nil_r.
Qed.

Lemma finish_outcome (d : nat) w :
  snd (finish d w)
  = if d <? length (history_commands host (session_state w))
    then Raise ScriptControlException else Ok tt.
Proof. unfold finish, history_events; cbn [snd]; by rewrite length_map. Qed.

(** ** A stopped execution against the execution that is not stopped *)

(** Every number of calls is at most six, or seven and some more. *)
Lemma stop_cases n : n <= 6 \/ exists d, n = 7 + d.
Proof. destruct (decide (n <= 6)); [by left | right; exists (n - 7); lia]. Qed.

Lemma length_displayed ss :
  typed ss = true ->
  exists rest, displayed host ss
               = (top_commands ++ section_commands (task_of host) (language_of host))
                 ++ rest.
Proof. intros Ht; rewrite displayed_run by done; rewrite app_assoc; eauto. Qed.

(** *** On any dictionary

    The run of the script under a request to stop is the cut of its run
    without ([run_script_stops_well]), whatever the dictionary holds. *)

Lemma execute_cut n ss : cut_of n (boot host ss) (execute host ss) (execute_until n ss).
Proof. apply (run_script_stops_well host). Qed.

Lemma prefix_take {A} (l1 l2 : list A) : l1 `prefix_of` l2 -> l1 = take (length l1) l2.
Proof. intros [k ->]; by rewrite take_app_length. Qed.

Lemma shown_prefix (t1 t2 : list Event) : t1 `prefix_of` t2 -> shown t1 `prefix_of` shown t2.
Proof. intros [k ->]; rewrite shown_app; by apply prefix_app_r. Qed.

Lemma requests_prefix (t1 t2 : list Event) :
  t1 `prefix_of` t2 -> requests t1 `prefix_of` requests t2.
Proof. intros [k ->]; rewrite requests_app; by apply prefix_app_r. Qed.

(** The calls of an execution are the commands it displays. *)
Lemma calls_boot ss : calls (boot host ss) = 0.
Proof. reflexivity. Qed.

Lemma calls_execute ss : calls (execute host ss).1 = length (displayed host ss).
Proof. unfold calls, displayed; reflexivity. Qed.

Lemma calls_execute_until n ss :
  calls (execute_until n ss).1 = length (displayed_until n ss).
Proof. unfold calls, displayed_until; reflexivity. Qed.

(** The execution on [ss] makes no more than [n] calls and is not
    stopped, or it makes more and is stopped after [n]. *)
Lemma execute_until_cases n ss :
  (length (displayed host ss) <= n
   /\ execute_until n ss
      = (set_pending (Some (n - length (displayed host ss))) (execute host ss).1,
         (execute host ss).2))
  \/ (n < length (displayed host ss)
      /\ outcome_until n ss = Raise ScriptControlException
      /\ trace (execute_until n ss).1 `prefix_of` trace (execute host ss).1
      /\ length (displayed_until n ss) = n).
Proof.
  destruct (execute_cut n ss) as [_ H].
  rewrite calls_boot, calls_execute, ?calls_execute_until in H; exact H.
Qed.

(** What an execution that is not stopped leaves. *)
Lemma execute_until_late n ss :
  length (displayed host ss) <= n ->
  displayed_until n ss = displayed host ss
  /\ outcome_until n ss = outcome host ss
  /\ sent_until n ss = sent host ss
  /\ next_session_until n ss = next_session host ss.
Proof.
  intros Hn; destruct (execute_until_cases n ss) as [[_ Heq] | (Hlt & _)]; [| lia].
  unfold displayed_until, outcome_until, sent_until, next_session_until,
    displayed, outcome, sent, next_session.
  rewrite Heq; clear Heq Hn; by destruct (execute host ss).
Qed.

Lemma displayed_until_take n ss : displayed_until n ss = take n (displayed host ss).
Proof.
  destruct (decide (length (displayed host ss) <= n)) as [Hle | Hgt].
  - rewrite take_ge by done; by apply execute_until_late.
  - destruct (execute_until_cases n ss) as [[Hle _] | (_ & _ & Hpre & Hn)]; [lia |].
    rewrite <- Hn at 2; apply prefix_take, shown_prefix, Hpre.
Qed.

Lemma outcome_until_run n ss :
  outcome_until n ss
  = if n <? length (displayed host ss) then Raise ScriptControlException else outcome host ss.
Proof.
  destruct (decide (length (displayed host ss) <= n)) as [Hle | Hgt].
  - rewrite (proj2 (Nat.ltb_ge _ _) Hle); by apply execute_until_late.
  - destruct (execute_until_cases n ss) as [[Hle _] | (Hlt & Hr & _)]; [lia |].
    rewrite (proj2 (Nat.ltb_lt _ _) Hlt); exact Hr.
Qed.

Lemma sent_until_prefix n ss : sent_until n ss `prefix_of` sent host ss.
Proof.
  destruct (execute_until_cases n ss) as [[Hle _] | (_ & _ & Hpre & _)].
  - by destruct (execute_until_late n ss Hle) as (_ & _ & -> & _).
  - apply requests_prefix, Hpre.
Qed.

(** *** On a typed dictionary *)

Lemma sent_until_run n ss :
  typed ss = true -> sent_until n ss = if n <? 7 then [] else sent host ss.
Proof.
  intros Ht; destruct (stop_cases n) as [Hn | [d ->]].
  { destruct (stopped_early n ss Hn) as (_ & -> & _).
    by rewrite (proj2 (Nat.ltb_lt n 7)) by lia. }
  unfold sent_until; rewrite sent_run by done.
  rewrite (execute_until_run ss d Ht); cbv zeta.
  execution_cases; [destruct d as [|[|d]] | |]; rewrite ?finish_requests; by cbn.
Qed.

Lemma transcript_until_run n ss :
  typed ss = true ->
  transcript (next_session_until n ss)
  = transcript ss
    ++ take (if n <? 7 then 0 else if n <? 9 then 1 else 2)
         (match exchange_made host with Some (q, a) => exchange q a | None => [] end).
Proof.
  intros Ht; destruct (stop_cases n) as [Hn | [d ->]].
  { destruct (stopped_early n ss Hn) as (_ & _ & -> & _).
    by rewrite (proj2 (Nat.ltb_lt n 7)), app_nil_r by lia. }
  unfold next_session_until; rewrite (execute_until_run ss d Ht).
  unfold exchange_made, finish; cbv zeta.
  execution_cases; [destruct d as [|[|d]] | |];
    cbn [fst session_state set_pending final update]; unfold asked_only;
    rewrite ?transcript_insert, ?transcript_extended, transcript_prepared,
      ?take_nil, ?app_nil_r; done.
Qed.

(** An execution that is stopped after the button of the selected
    action, the seventh call, which is while the request is made when
    there is one: it has drawn the widgets, and it leaves the question of
    the exchange of the full execution. *)
Lemma displayed_until_request ss :
  typed ss = true ->
  displayed_until 7 ss = top_commands ++ section_commands (task_of host) (language_of host).
Proof.
  intros Ht; rewrite displayed_until_take by done.
  destruct (length_displayed ss Ht) as [rest ->].
  by rewrite (take_app_le (top_commands ++ section_commands _ _)) by (cbn; lia).
Qed.

Lemma next_session_until_request ss :
  typed ss = true ->
  next_session_until 7 ss
  = match exchange_made host with
    | Some (q, _) => asked_only (prepared host ss) q
    | None => prepared host ss
    end.
Proof.
  intros Ht; unfold next_session_until, exchange_made.
  change 7 with (7 + 0); rewrite (execute_until_run ss 0 Ht); cbv zeta.
  by execution_cases.
Qed.

(** ** The environment an execution leaves *)

Lemma bind_env_kept {A B} (m : script A) (k : A -> script B) w :
  (forall a, steps env_kept (k a)) -> env (fst (bind m k w)) = env (fst (m w)).
Proof. intros Hk; unfold bind; destruct (m w) as [w' [a|e]]; [apply Hk | done]. Qed.

(** Nothing after the configuration of the client changes the
    environment. *)
Lemma run_script_env w :
  env (fst (run_script host w)) = env (fst (configure_client host w)).
Proof.
  unfold run_script; apply bind_env_kept; intros _.
  unfold page_top, generate_section, enhance_section, history_section,
    generate_required_code, enhance_code, chat_send_message, read_response,
    st_selectbox, st_radio, st_text_area, st_button.
  script_steps; same_world.
Qed.

(** The configuration of the client that is not stopped at its first
    call leaves the environment [load_dotenv()] has made. *)
Lemma configure_client_env w :
  pending w <> Some 0 -> env (fst (configure_client host w)) = env w ∪ dotenv host.
Proof. destruct w as [? ? ? ? ? ? [[|n]|]]; cbn; done. Qed.

(** Every execution that gets past its first call leaves that
    environment, whatever the dictionary and wherever it ends. *)
Lemma execute_until_env n ss :
  env (fst (execute_until (S n) ss)) = environ host ∪ dotenv host.
Proof. unfold execute_until; by rewrite run_script_env, configure_client_env. Qed.

Lemma execute_env ss : env (fst (execute host ss)) = environ host ∪ dotenv host.
Proof. unfold execute; by rewrite run_script_env, configure_client_env. Qed.

(** ** What a stopped execution leaves *)

(** C20: An execution that is stopped while the answer is displayed, at
    the title or at the code block, has asked the service and read the
    whole answer, and leaves the question in the transcript without the
    answer: the execution raises [ScriptControlException], no code block has been
    displayed, the request has been sent, and a transcript that was a
    sequence of exchanges is none any more. *)
Theorem stopped_after_request ss (a : string) (d : nat) :
  typed ss = true -> well_formed (transcript ss) = true -> d <= 1 ->
  submitted host (task_of host) = true ->
  answer host (fresh_chat host) (the_prompt host) = Ok a ->
  outcome_until (7 + d) ss = Raise ScriptControlException
  /\ sent_until (7 + d) ss = [(the_client host, [], the_prompt host)]
  /\ transcript (next_session_until (7 + d) ss)
     = transcript ss ++ [("You", text_of host (task_of host))]
  /\ code_blocks (displayed_until (7 + d) ss) = []
  /\ well_formed (transcript (next_session_until (7 + d) ss)) = false.
Proof.
  intros Ht Hwf Hd Hs Ha.
  assert (transcript (asked_only (prepared host ss) (text_of host (task_of host)))
          = transcript ss ++ [("You", text_of host (task_of host))]) as Hq
    by (unfold asked_only; by rewrite transcript_insert, transcript_prepared).
  unfold outcome_until, sent_until, next_session_until, displayed_until.
  rewrite (execute_until_run ss d) by done; cbv zeta; rewrite Hs, Ha.
  assert (d = 0 \/ d = 1) as [-> | ->] by lia; cbn [fst snd];
    repeat split; try done; cbn [session_state set_pending final]; rewrite Hq;
    by apply well_formed_dangling.
Qed.

(** However early or late an execution is stopped, the transcript
    it leaves has the transcript it found as a prefix; and stopped before
    its eighth Streamlit call, the first after the request, it has sent
    nothing and the transcript is as it was. *)
Theorem stopped_run_keeps n ss :
  transcript ss `prefix_of` transcript (next_session_until n ss)
  /\ (n <= 6 ->
      outcome_until n ss = Raise ScriptControlException
      /\ sent_until n ss = []
      /\ transcript (next_session_until n ss) = transcript ss).
Proof.
  split; [| intros Hn; destruct (stopped_early n ss Hn); tauto].
  apply (run_script_transcript_grows host (boot_until n ss)).
Qed.

(** C27: A stopped execution is a prefix of the execution that is not
    stopped, on every dictionary.  Asked to stop after [n] Streamlit
    calls, an execution has displayed the first [n] commands of the full
    execution; it raises [ScriptControlException] when the full execution
    makes more than [n] calls and ends as the full execution otherwise;
    its requests are the first requests of the full execution.  When the
    dictionary is typed it has sent the request of the full execution
    when it got past the seventh call; and of the two entries the full
    execution appends to the transcript it has appended none before the
    eighth call, the question before the tenth, and both from then on. *)
Theorem stopped_run_is_prefix n ss :
  displayed_until n ss = take n (displayed host ss)
  /\ outcome_until n ss
     = (if n <? length (displayed host ss) then Raise ScriptControlException
        else outcome host ss)
  /\ sent_until n ss `prefix_of` sent host ss
  /\ (typed ss = true ->
      sent_until n ss = (if n <? 7 then [] else sent host ss)
      /\ transcript (next_session_until n ss)
         = transcript ss
           ++ take (if n <? 7 then 0 else if n <? 9 then 1 else 2)
                (match exchange_made host with
                 | Some (q, a) => exchange q a
                 | None => []
                 end)).
Proof.
  auto 6 using displayed_until_take, outcome_until_run, sent_until_prefix,
    sent_until_run, transcript_until_run.
Qed.

End Stopped.

Lemma stopped_after_request_witness :
  outcome_until adder_host (7 + 0) ∅ = Raise ScriptControlException
  /\ sent_until adder_host (7 + 0) ∅ = [(the_client adder_host, [], the_prompt adder_host)]
  /\ transcript (next_session_until adder_host (7 + 0) ∅)
     = transcript ∅ ++ [("You", text_of adder_host (task_of adder_host))]
  /\ code_blocks (displayed_until adder_host (7 + 0) ∅) = []
  /\ well_formed (transcript (next_session_until adder_host (7 + 0) ∅)) = false.
Proof.
  apply (stopped_after_request adder_host ∅ "def add(a,b): return a+b" 0);
    [done | done | lia | done | done].
Defined.

Lemma stopped_run_is_prefix_witness :
  sent_until adder_host 8 one_exchange
  = (if 8 <? 7 then [] else sent adder_host one_exchange)
  /\ transcript (next_session_until adder_host 8 one_exchange)
     = transcript one_exchange
       ++ take (if 8 <? 7 then 0 else if 8 <? 9 then 1 else 2)
            (match exchange_made adder_host with
             | Some (q, a) => exchange q a
             | None => []
             end).
Proof.
  apply (proj2 (proj2 (proj2 (stopped_run_is_prefix adder_host 8 one_exchange)))); done.
Defined.

Lemma stopped_run_keeps_witness :
  transcript one_exchange `prefix_of` transcript (next_session_until adder_host 6 one_exchange)
  /\ (6 <= 6 ->
      outcome_until adder_host 6 one_exchange = Raise ScriptControlException
      /\ sent_until adder_host 6 one_exchange = []
      /\ transcript (next_session_until adder_host 6 one_exchange)
         = transcript one_exchange).
Proof. apply (stopped_run_keeps adder_host 6 one_exchange). Defined.

(** The adder page, stopped by an interaction of the user while the
    request is made: the question is in the transcript, the answer is
    not, and nothing of the answer is on the page. *)
Example adder_stopped :
  transcript (next_session_until adder_host 7 ∅)
  = [("You", "a function that adds two numbers")]
  /\ last (displayed_until adder_host 7 ∅) = Some (Button "Generate Code").
Proof. by vm_compute. Qed.
