(* ===== verification/Rules.v ===== *)
(** * The rules of Streamlit for the calls of a run

    Streamlit refuses two things a script can do with the calls this
    script makes: [st.set_page_config] anywhere but as the first Streamlit
    call of the run (the comment of app.py 6), and two widgets with the
    same identity in one run.  A widget with a key is identified by the key,
    a widget without one by its kind and its arguments.  This file has the
    check of a run against these rules ([api_ok]) and the theorem that no
    run of the script breaks them, whatever the dictionary, the inputs and
    the service. *)

From stdpp Require Import gmap strings list.
From S2P Require Import Prelude PyStr Prompt Stream Chat Transcript Render World.
From S2P Require Import App Execution Untyped Stopped.

(** The identity of a widget. *)
Inductive WidgetId : Type :=
| ByKey (key : string)
| ByArgs (kind label : string) (options : list string).

#[export] Instance widget_id_eq_dec : EqDecision WidgetId.
Proof. solve_decision. Defined.

Definition widget_id (c : Command) : option WidgetId :=
  match c with
  | Selectbox label options => Some (ByArgs "selectbox" label options)
  | Radio label options => Some (ByArgs "radio" label options)
  | TextArea _ key => Some (ByKey key)
  | Button label => Some (ByArgs "button" label [])
  | _ => None
  end.

Definition widget_ids (cs : list Command) : list WidgetId := omap widget_id cs.

Definition is_page_config (c : Command) : bool :=
  match c with SetPageConfig _ => true | _ => false end.

(** No call of [st.set_page_config] among the commands. *)
Definition no_config (cs : list Command) : bool :=
  forallb (fun c => negb (is_page_config c)) cs.

(** The commands of a run keep the rules: the page is configured by the
    first command or not at all, and no two widgets have the same
    identity. *)
Definition api_ok (cs : list Command) : bool :=
  no_config (tail cs) && bool_decide (NoDup (widget_ids cs)).

(** ** Facts *)

Lemma widget_ids_app (cs1 cs2 : list Command) :
  widget_ids (cs1 ++ cs2) = widget_ids cs1 ++ widget_ids cs2.
Proof. apply omap_app. Qed.

Lemma no_config_app (cs1 cs2 : list Command) :
  no_config (cs1 ++ cs2) = no_config cs1 && no_config cs2.
Proof. apply forallb_app. Qed.

(** The lines of a transcript are no widgets and no configuration. *)
Lemma widget_ids_writes {A} (f : A -> string) (l : list A) :
  widget_ids (map (fun x => Write (f x)) l) = [].
Proof. induction l; cbn; auto. Qed.

Lemma no_config_writes {A} (f : A -> string) (l : list A) :
  no_config (map (fun x => Write (f x)) l) = true.
Proof. induction l; cbn; auto. Qed.

(** The first commands of a run that keeps the rules keep the rules. *)
Lemma no_config_take (cs : list Command) (n : nat) :
  no_config cs = true -> no_config (take n cs) = true.
Proof.
  intros H; rewrite <- (take_drop n cs), no_config_app in H.
  by apply andb_prop in H as [? _].
Qed.

Lemma api_ok_take (cs : list Command) (n : nat) :
  api_ok cs = true -> api_ok (take n cs) = true.
Proof.
  unfold api_ok; rewrite !andb_true_iff, !bool_decide_eq_true; intros [Hc Hd]; split.
  - destruct n as [|n], cs as [|c cs]; try done; by apply no_config_take.
  - rewrite <- (take_drop n cs), widget_ids_app in Hd.
    by apply NoDup_app in Hd as [? _].
Qed.

Section Rules.
Context (host : Host).
Implicit Types (ss : session).

(** What follows the widgets of the selected action in a run has at most
    one widget, the button of the transcript. *)
Definition tail_ok (cs : list Command) : Prop :=
  no_config cs = true
  /\ (widget_ids cs = [] \/ widget_ids cs = [ByArgs "button" "Show Chat History" []]).

Lemma history_commands_tail ss : tail_ok (history_commands host ss).
Proof.
  unfold history_commands; split; cbn [no_config forallb is_page_config negb andb];
    destruct (clicked _ _); cbn; rewrite ?widget_ids_writes; auto.
  apply no_config_writes.
Qed.

(** A run whose commands are those of the top, the widgets of the section
    and such a tail keeps the rules. *)
Lemma api_ok_shape (t : Task) (language : string) (cs : list Command) :
  tail_ok cs -> api_ok (top_commands ++ section_commands t language ++ cs) = true.
Proof.
  intros [Hc Hw]; unfold api_ok.
  change (tail (top_commands ++ ?x)) with (tail top_commands ++ x).
  rewrite !widget_ids_app, !no_config_app, Hc.
  apply andb_true_iff; split; [done |].
  destruct Hw as [-> | ->], t; by vm_compute.
Qed.

Lemma tail_ok_nil : tail_ok [].
Proof. split; auto. Qed.

Lemma tail_ok_answer (title body tag : string) (cs : list Command) :
  tail_ok cs -> tail_ok ([Subheader title; Code body tag] ++ cs).
Proof. by intros [Hc Hw]. Qed.

Lemma str_history_tail : tail_ok (shown (str_history_events host)).
Proof. unfold str_history_events; destruct (clicked _ _); split; cbn; auto. Qed.

(** ** The script keeps the rules *)

(** C26: No run of the script breaks the rules of Streamlit, whatever the
    dictionary, what the user has entered and what the service answers:
    the page is configured by the first call and by no other, as the
    comment of app.py 6 asks, and no two widgets of the run have the same
    identity, so the runtime raises neither for the configuration nor for
    a duplicate widget.  A run that is stopped, at any of its calls and on
    any dictionary, keeps the rules as well. *)
Theorem run_keeps_rules ss :
  api_ok (displayed host ss) = true
  /\ head (displayed host ss) = Some (SetPageConfig page_title)
  /\ forall n, api_ok (displayed_until host n ss) = true.
Proof.
  assert (api_ok (displayed host ss) = true
          /\ head (displayed host ss) = Some (SetPageConfig page_title)) as [Hok Hhd].
  { destruct (session_cases ss) as [Ht | [s Hs]].
    - rewrite displayed_run by done; split; [|done].
      apply api_ok_shape; execution_cases;
        auto using tail_ok_nil, tail_ok_answer, history_commands_tail.
    - rewrite (displayed_str host ss s Hs); split; [|done].
      apply api_ok_shape; destruct (submitted host _);
        auto using tail_ok_nil, str_history_tail. }
  repeat split; [done | done |]; intros n.
  rewrite displayed_until_take; by apply api_ok_take.
Qed.

End Rules.

(** Two text areas with one key in one run break the rules: what the
    script would do if it drew both sections. *)
Example two_areas_one_key :
  api_ok [SetPageConfig page_title; TextArea requirements_label "text";
          TextArea (snippet_label "Go") "text"] = false
  /\ api_ok [Header page_header; SetPageConfig page_title] = false.
Proof. by vm_compute. Qed.
