(* ===== verification/Session.v ===== *)
(** * Sessions

    A browser session is a sequence of executions of the script: Streamlit
    runs the script once when the page is opened and once more for every
    interaction, each time on the session dictionary the previous execution
    left, starting from the empty dictionary.  Each execution has its own
    host: what the user has entered by then, and how the service behaves at
    that time.

    This file has the sessions, the dictionaries they reach, and the
    invariants of the transcript over a whole session. *)

From stdpp Require Import gmap strings list.
From S2P Require Import Prelude PyStr Prompt Stream Chat Transcript Render World.
From S2P Require Import App Execution.

(** The dictionary after the executions of [hosts], in order, from [ss]. *)
Definition run_all (hosts : list Host) (ss : session) : session :=
  foldl (fun s h => next_session h s) ss hosts.

(** The dictionaries a session can be in. *)
Inductive reachable : session -> Prop :=
| reachable_start : reachable ∅
| reachable_step (host : Host) (ss : session) :
    reachable ss -> reachable (next_session host ss).

(** The entries an execution adds to the transcript: the two entries of
    the exchange it made, or none. *)
Definition added (host : Host) : list (string * string) :=
  match exchange_made host with
  | Some (q, a) => exchange q a
  | None => []
  end.

(** ** Facts *)

Lemma run_all_cons (host : Host) (hosts : list Host) (ss : session) :
  run_all (host :: hosts) ss = run_all hosts (next_session host ss).
Proof. unfold run_all; cbn [foldl]; reflexivity. Qed.

Lemma run_all_snoc (hosts : list Host) (host : Host) (ss : session) :
  run_all (hosts ++ [host]) ss = next_session host (run_all hosts ss).
Proof. unfold run_all; by rewrite foldl_snoc. Qed.

Lemma run_all_typed (hosts : list Host) (ss : session) :
  typed ss = true -> typed (run_all hosts ss) = true.
Proof.
  revert ss; induction hosts as [|h hosts IH]; intros ss Ht; [done |].
  rewrite run_all_cons; by apply IH, next_typed.
Qed.

Lemma reachable_run_all (ss : session) :
  reachable ss <-> exists hosts, ss = run_all hosts ∅.
Proof.
  split.
  - induction 1 as [|host ss _ [hosts ->]]; [by exists [] |].
    exists (hosts ++ [host]); by rewrite run_all_snoc.
  - intros [hosts ->]; induction hosts as [|host hosts IH] using rev_ind;
      [constructor |].
    rewrite run_all_snoc; by constructor.
Qed.

Lemma reachable_is_typed (ss : session) : reachable ss -> typed ss = true.
Proof. induction 1; [done | by apply next_typed]. Qed.

Lemma added_well_formed (host : Host) (l : list (string * string)) :
  well_formed l = true -> well_formed (l ++ added host) = true.
Proof.
  intros Hwf; unfold added, exchange_made.
  destruct (submitted host (task_of host)) eqn:Hsub; [|by rewrite app_nil_r].
  destruct (answer host _ _); [|by rewrite app_nil_r].
  apply well_formed_snoc; [done | by apply andb_prop in Hsub as [_ ?]].
Qed.

Lemma transcript_run_all (hosts : list Host) (ss : session) :
  typed ss = true ->
  transcript (run_all hosts ss) = transcript ss ++ flat_map added hosts.
Proof.
  revert ss; induction hosts as [|h hosts IH]; intros ss Ht.
  - cbn; by rewrite app_nil_r.
  - rewrite run_all_cons, IH by (by apply next_typed).
    cbn [flat_map]; by rewrite transcript_next, app_assoc.
Qed.

(** ** Properties of sessions *)

(** C14: The transcript of a session is the record of its exchanges: after
    any sequence of executions from the empty dictionary it is the
    concatenation, in the order of the executions, of the two entries of
    each execution that made an exchange; the executions that made none
    (no click, an empty text, a failure of the service) leave no trace
    in it. *)
Theorem session_transcript (hosts : list Host) :
  transcript (run_all hosts ∅) = flat_map added hosts
  /\ length (transcript (run_all hosts ∅))
     = 2 * length (filter (fun h => is_Some (exchange_made h)) hosts).
Proof.
  rewrite transcript_run_all by done.
  change (transcript ∅) with (@nil (string * string)); cbn [app]; split; [done |].
  induction hosts as [|h hosts IH]; [done |].
  cbn [flat_map]; rewrite length_app, IH, filter_cons; unfold added.
  destruct (exchange_made h) as [[q a]|]; case_decide as Hd; cbn; try lia.
  - by destruct Hd.
  - by destruct Hd as [? [=]].
Qed.

(** C30: Every dictionary a session reaches is typed, has a well-formed
    transcript, hence one of even length, and an execution started on it
    raises nothing but what the service raised. *)
Theorem reachable_invariant (ss : session) :
  reachable ss ->
  typed ss = true
  /\ well_formed (transcript ss) = true
  /\ Nat.Even (length (transcript ss))
  /\ forall host e, outcome host ss = Raise e ->
       answer host (fresh_chat host) (the_prompt host) = Raise e.
Proof.
  intros Hr; pose proof (reachable_is_typed ss Hr) as Ht.
  assert (well_formed (transcript ss) = true) as Hwf.
  { clear Ht; induction Hr as [|host ss Hr IH]; [done |].
    rewrite transcript_next by (by apply reachable_is_typed).
    by apply added_well_formed. }
  repeat split; try done.
  - apply bool_decide_eq_true in Hwf as [xs ->%exchanges_length].
    by exists (length xs).
  - intros host e; rewrite outcome_run by done.
    destruct (submitted host _); [|done].
    by destruct (answer host _ _); intros [= ->].
Qed.

Lemma reachable_invariant_witness :
  typed (next_session adder_host ∅) = true
  /\ well_formed (transcript (next_session adder_host ∅)) = true
  /\ Nat.Even (length (transcript (next_session adder_host ∅)))
  /\ forall host e, outcome host (next_session adder_host ∅) = Raise e ->
       answer host (fresh_chat host) (the_prompt host) = Raise e.
Proof.
  apply (reachable_invariant (next_session adder_host ∅)).
  apply reachable_step, reachable_start.
Defined.

(** Over a whole session the service is never given an earlier
    exchange: in every execution started on a dictionary the session has
    reached, however long its transcript, each request has an empty
    history. *)
Theorem session_requests_fresh (ss : session) (host : Host) :
  reachable ss ->
  Forall (fun r => r.1.2 = [] /\ r.1.1 = the_client host) (sent host ss).
Proof.
  intros Ht%reachable_is_typed; rewrite sent_run by done.
  destruct (submitted host _); by repeat constructor.
Qed.

Lemma session_requests_fresh_witness :
  Forall (fun r => r.1.2 = [] /\ r.1.1 = the_client adder_host)
    (sent adder_host (next_session adder_host ∅)).
Proof.
  apply (session_requests_fresh (next_session adder_host ∅) adder_host).
  apply reachable_step, reachable_start.
Defined.

(** A session only extends its transcript: the transcript at any
    point of a session is a prefix of the transcript at any later point,
    from any dictionary. *)
Theorem session_append_only (hosts : list Host) (ss : session) :
  transcript ss `prefix_of` transcript (run_all hosts ss).
Proof.
  revert ss; induction hosts as [|h hosts IH]; intros ss; [done |].
  rewrite run_all_cons; etrans; [|apply IH].
  apply (run_script_transcript_grows h (boot h ss)).
Qed.
