(* ===== verification/Spec.v ===== *)
(** * The specified controller and what the script implements of it

    The specification describes an interaction controller that owns a
    transcript and a model session.  Its model session keeps the context of
    the conversation: every prompt is sent together with the exchanges made
    so far.  This file states that controller, the abstraction from the
    session dictionary and the page to its state and its requests, and the
    two sides of the comparison: the script implements the controller when
    the service does not look at the context, and differs from it when the
    service does. *)

From stdpp Require Import gmap strings list.
From S2P Require Import Prelude PyStr Prompt Stream Chat Transcript Render World.
From S2P Require Import App Execution Session.

(** ** The controller of the specification *)

Inductive Speaker : Type := SpeakerUser | SpeakerAssistant.

Record ConversationTurn : Type := mkTurn { speaker : Speaker; turn_text : string }.

(** What the rendering surface asks of the controller. *)
Inductive UserAction : Type :=
| GenerateRequested (requirements language : string)
| EnhanceRequested (snippet language : string)
| ShowHistoryRequested
| NoRequest.

(** The state of the controller: the transcript, and the context its model
    session has accumulated. *)
Record Controller : Type := mkController {
  log : list ConversationTurn;
  context : list Content
}.

Definition idle : Controller := {| log := []; context := [] |}.

(** [buildPrompt(task, language, payload)]. *)
Definition buildPrompt (t : Task) (language payload : string) : string :=
  prompt_of t payload language.

(** One interaction: nothing on an empty payload; otherwise the prompt is
    sent with the context, the stream is drained, and both the transcript
    and the context get the exchange.  A failure leaves the state as it
    was. *)
Definition interact (svc : Service) (c : Client) (st : Controller) (t : Task)
    (payload language : string) : Controller * result exn (option string) :=
  if truthy payload then
    let prompt := buildPrompt t language payload in
    match result_bind (svc c (context st) prompt) (accumulate "") with
    | Ok final =>
        ({| log := log st ++ [mkTurn SpeakerUser payload; mkTurn SpeakerAssistant final];
            context := context st ++ [mkContent User prompt; mkContent Model final] |},
         Ok (Some final))
    | Raise e => (st, Raise e)
    end
  else (st, Ok None).

Definition handle (svc : Service) (c : Client) (st : Controller) (a : UserAction) :
    Controller * result exn (option string) :=
  match a with
  | GenerateRequested r l => interact svc c st Generate r l
  | EnhanceRequested s l => interact svc c st Enhance s l
  | ShowHistoryRequested | NoRequest => (st, Ok None)
  end.

(** ** From the script to the controller *)

(** The turns of a transcript: the role "You" is the user. *)
Definition turn_of (entry : string * string) : ConversationTurn :=
  {| speaker := if bool_decide (entry.1 = "You") then SpeakerUser else SpeakerAssistant;
     turn_text := entry.2 |}.

Definition turns (ss : session) : list ConversationTurn := turn_of <$> transcript ss.

(** What the user asked with the page of an execution: the button of the
    selected action with the text entered, possibly empty, and the selected
    language; otherwise the history, or nothing. *)
Definition action_asked (host : Host) : UserAction :=
  let t := task_of host in
  if clicked (frontend host) (button_label t) then
    match t with
    | Generate => GenerateRequested (text_of host t) (language_of host)
    | Enhance => EnhanceRequested (text_of host t) (language_of host)
    end
  else if clicked (frontend host) "Show Chat History" then ShowHistoryRequested
  else NoRequest.

(** The controller over a session: one action per execution, each against
    the service and the client of its host. *)
Definition controller_step (st : Controller) (host : Host) : Controller :=
  fst (handle (service host) (the_client host) st (action_asked host)).

Definition controller_run (hosts : list Host) : Controller :=
  foldl controller_step idle hosts.

(** A service that answers without looking at the context. *)
Definition memoryless (svc : Service) : Prop :=
  forall c h p, svc c h p = svc c [] p.

(** The answer the controller reads at a step: that of the service to
    the prompt of the page, asked with the context accumulated. *)
Definition controller_answer (st : Controller) (host : Host) : result exn string :=
  result_bind (service host (the_client host) (context st) (the_prompt host))
              (accumulate "").

(** Two answers that leave the same in a transcript: the same text, or an
    exception each. *)
Definition same_reply (r r' : result exn string) : Prop :=
  match r, r' with
  | Ok a, Ok a' => a = a'
  | Raise _, Raise _ => True
  | _, _ => False
  end.

(** ** Facts *)

Lemma handle_asked (host : Host) (st : Controller) :
  handle (service host) (the_client host) st (action_asked host)
  = if clicked (frontend host) (button_label (task_of host)) then
      interact (service host) (the_client host) st (task_of host)
        (text_of host (task_of host)) (language_of host)
    else (st, Ok None).
Proof.
  unfold action_asked; destruct (clicked _ (button_label _)); [by destruct (task_of host) |].
  by destruct (clicked _ _).
Qed.

Lemma answer_fresh (host : Host) (p : string) :
  answer host (fresh_chat host) p
  = result_bind (service host (the_client host) [] p) (accumulate "").
Proof. reflexivity. Qed.

(** One execution against one step of the controller, when the context of
    the controller does not change the answer. *)
Lemma step_refines (host : Host) (ss : session) (st : Controller) :
  typed ss = true -> turns ss = log st ->
  service host (the_client host) (context st) (the_prompt host)
  = service host (the_client host) [] (the_prompt host) ->
  let (st', r) := handle (service host) (the_client host) st (action_asked host) in
  turns (next_session host ss) = log st'
  /\ outcome host ss = match r with Ok _ => Ok () | Raise e => Raise e end
  /\ code_blocks (displayed host ss)
     = match r with
       | Ok (Some final) => [(final, lower (language_of host))]
       | _ => []
       end.
Proof.
  intros Ht Hlog Hsvc; rewrite handle_asked; unfold turns.
  rewrite transcript_next, outcome_run, displayed_run by done.
  rewrite !code_blocks_app, ?code_blocks_history.
  unfold exchange_made, submitted, interact, buildPrompt; fold (the_prompt host).
  destruct (clicked _ (button_label _)); cbn [andb];
    [|by rewrite app_nil_r, code_blocks_history].
  destruct (truthy _); [|by rewrite app_nil_r, code_blocks_history].
  rewrite Hsvc, <- answer_fresh.
  destruct (answer host _ _) as [a|e]; cbn [fst snd log];
    rewrite ?app_nil_r, ?code_blocks_app, ?code_blocks_history; [|done].
  by rewrite fmap_app, <- Hlog.
Qed.

Lemma controller_run_snoc (hosts : list Host) (host : Host) :
  controller_run (hosts ++ [host]) = controller_step (controller_run hosts) host.
Proof. unfold controller_run; by rewrite foldl_snoc. Qed.

(** ** The script against the controller *)

(** C11: One execution of the script implements one step of the specified
    controller taken from a state whose model session has no context: the
    transcripts agree after the step, the execution raises exactly when the
    controller fails, with the same exception, and the code block displayed
    is the final text the controller exposes. *)
Theorem execution_refines_step (host : Host) (ss : session) (st : Controller) :
  typed ss = true -> turns ss = log st -> context st = [] ->
  let (st', r) := handle (service host) (the_client host) st (action_asked host) in
  turns (next_session host ss) = log st'
  /\ outcome host ss = match r with Ok _ => Ok () | Raise e => Raise e end
  /\ code_blocks (displayed host ss)
     = match r with
       | Ok (Some final) => [(final, lower (language_of host))]
       | _ => []
       end.
Proof. intros Ht Hlog Hctx; apply step_refines; [done | done | by rewrite Hctx]. Qed.

Lemma execution_refines_step_witness :
  let (st', r) := handle (service adder_host) (the_client adder_host) idle
                    (action_asked adder_host) in
  turns (next_session adder_host ∅) = log st'
  /\ outcome adder_host ∅ = match r with Ok _ => Ok () | Raise e => Raise e end
  /\ code_blocks (displayed adder_host ∅)
     = match r with
       | Ok (Some final) => [(final, lower (language_of adder_host))]
       | _ => []
       end.
Proof. apply (execution_refines_step adder_host ∅ idle); done. Defined.

(** C38: Against services that answer without looking at the context, a
    whole session of the script implements the specified controller: after
    any sequence of executions from the empty dictionary the transcript is
    the transcript of the controller after the same actions. *)
Theorem memoryless_session_refines (hosts : list Host) :
  Forall (fun h => memoryless (service h)) hosts ->
  turns (run_all hosts ∅) = log (controller_run hosts).
Proof.
  induction hosts as [|host hosts IH] using rev_ind; [done |].
  rewrite Forall_app, Forall_singleton; intros [Hs Hm].
  rewrite run_all_snoc, controller_run_snoc; unfold controller_step.
  pose proof (step_refines host (run_all hosts ∅) (controller_run hosts)) as Hstep.
  destruct (handle _ _ _ _) as [st' r].
  by destruct Hstep as [? _]; [apply run_all_typed | apply IH | apply Hm |].
Qed.

Lemma memoryless_session_refines_witness :
  turns (run_all [adder_host; adder_host] ∅) = log (controller_run [adder_host; adder_host]).
Proof.
  apply (memoryless_session_refines [adder_host; adder_host]).
  repeat constructor.
Defined.

(** A page that asks for code against the service whose answer shows the
    context it was given. *)
Definition echo_host : Host :=
  {| environ := {["GOOGLE_API_KEY" := "secret"]}; dotenv := ∅;
     service := echo_service; frontend := adder_frontend |}.

(** ** The context the script does not carry *)

(** What a step of the controller adds to its transcript and its
    context. *)
Lemma controller_step_run (st : Controller) (host : Host) :
  controller_step st host
  = if submitted host (task_of host) then
      match controller_answer st host with
      | Ok a =>
          {| log := log st ++ [mkTurn SpeakerUser (text_of host (task_of host));
                               mkTurn SpeakerAssistant a];
             context := context st ++ [mkContent User (the_prompt host); mkContent Model a] |}
      | Raise _ => st
      end
    else st.
Proof.
  unfold controller_step, controller_answer, submitted; rewrite handle_asked.
  destruct (clicked _ _); [|done]; unfold interact, buildPrompt; fold (the_prompt host).
  destruct (truthy _); [|done]; cbn [andb]; by destruct (result_bind _ _).
Qed.

Lemma controller_step_log (st : Controller) (host : Host) :
  log (controller_step st host)
  = log st ++ (if submitted host (task_of host) then
                 match controller_answer st host with
                 | Ok a => [mkTurn SpeakerUser (text_of host (task_of host));
                            mkTurn SpeakerAssistant a]
                 | Raise _ => []
                 end
               else []).
Proof.
  rewrite controller_step_run; destruct (submitted _ _); [| by rewrite app_nil_r].
  destruct (controller_answer _ _); by rewrite ?app_nil_r.
Qed.

(** The context of the controller has the two sides of every exchange
    of its transcript. *)
Lemma controller_context_length (hosts : list Host) :
  length (context (controller_run hosts)) = length (log (controller_run hosts)).
Proof.
  induction hosts as [|host hosts IH] using rev_ind; [done |].
  rewrite controller_run_snoc, controller_step_run.
  destruct (submitted _ _); [|done]; destruct (controller_answer _ _); [|done].
  cbn [log context]; rewrite !length_app, IH; done.
Qed.

Lemma turns_next (host : Host) (ss : session) :
  typed ss = true ->
  turns (next_session host ss)
  = turns ss ++ (if submitted host (task_of host) then
                   match answer host (fresh_chat host) (the_prompt host) with
                   | Ok a => [mkTurn SpeakerUser (text_of host (task_of host));
                              mkTurn SpeakerAssistant a]
                   | Raise _ => []
                   end
                 else []).
Proof.
  intros Ht; unfold turns; rewrite transcript_next, fmap_app by done; f_equal.
  unfold exchange_made; destruct (submitted _ _); [|done].
  by destruct (answer _ _ _).
Qed.

(** C15: The script does not carry the context the specified controller
    carries.  At a request made when the transcripts of the two agree,
    after any requests of a session: the script sends the prompt with no
    history, whereas the context of the controller has an entry for every
    entry of the transcript; and the transcripts agree after the request
    exactly when the answer of the service to the prompt with no history
    and its answer with that context leave the same, the same text or an
    exception each.  So the script implements the controller for the
    services that do not look at the context, and for no service that
    does. *)
Theorem context_not_carried (hosts : list Host) (host : Host) (ss : session) :
  typed ss = true -> turns ss = log (controller_run hosts) ->
  submitted host (task_of host) = true ->
  sent host ss = [(the_client host, [], the_prompt host)]
  /\ length (context (controller_run hosts)) = length (transcript ss)
  /\ (turns (next_session host ss) = log (controller_step (controller_run hosts) host)
      <-> same_reply (answer host (fresh_chat host) (the_prompt host))
                     (controller_answer (controller_run hosts) host)).
Proof.
  intros Ht Hlog Hsub; split; [by rewrite sent_run, Hsub | split].
  { by rewrite controller_context_length, <- Hlog; unfold turns; rewrite length_fmap. }
  rewrite turns_next, controller_step_log, Hsub, Hlog by done.
  destruct (answer _ _ _) as [a|e], (controller_answer _ _) as [a'|e']; cbn [same_reply];
    (split; [intros H%app_inv_head | intros H]); by simplify_eq.
Qed.

Lemma context_not_carried_witness :
  sent echo_host (run_all [echo_host] ∅) = [(the_client echo_host, [], the_prompt echo_host)]
  /\ length (context (controller_run [echo_host])) = length (transcript (run_all [echo_host] ∅))
  /\ (turns (next_session echo_host (run_all [echo_host] ∅))
      = log (controller_step (controller_run [echo_host]) echo_host)
      <-> same_reply (answer echo_host (fresh_chat echo_host) (the_prompt echo_host))
                     (controller_answer (controller_run [echo_host]) echo_host)).
Proof.
  apply (context_not_carried [echo_host] echo_host (run_all [echo_host] ∅));
    [by apply run_all_typed | by vm_compute | by vm_compute].
Defined.

(** Against the service whose answer shows the context it was given, the
    second answers of a session differ, and so do the transcripts. *)
Example echo_session_differs :
  ~ same_reply (answer echo_host (fresh_chat echo_host) (the_prompt echo_host))
               (controller_answer (controller_run [echo_host]) echo_host)
  /\ turns (run_all [echo_host; echo_host] ∅) <> log (controller_run [echo_host; echo_host]).
Proof.
  split; intros H; [vm_compute in H; discriminate H |].
  apply (f_equal (fun l => String.length <$> (turn_text <$> l))) in H.
  vm_compute in H; discriminate H.
Qed.
