(* ===== verification/Runtime.v ===== *)
(** * The Streamlit runtime: the page and the interactions of the user

    Streamlit runs the script once when the page is opened and once more
    after every interaction of the user with a widget.  Between two runs it
    keeps the value of every widget and the session dictionary; a button is
    [True] only in the run its click has started.  The value of a widget
    with a key is kept in the session dictionary under the key, and when a
    run does not draw a widget its value is dropped.

    This file has the page ([Page]), the interactions ([Interaction]), the
    run an interaction starts ([rerun]) built on [execute], and what
    sequences of interactions do ([browse]).  The runtime is not code of the
    repository: it is modelled from the documented behaviour of the calls
    the script makes ([st.selectbox], [st.radio], [st.text_area] with
    [key=], [st.button]). *)

From stdpp Require Import gmap strings list.
From S2P Require Import Prelude PyStr Prompt Stream Chat Transcript Render World.
From S2P Require Import App Execution Stopped.

(** The process that serves the page: its environment, its [.env] file
    and the remote service it reaches. *)
Record Server : Type := mkServer {
  server_environ : gmap string string;
  server_dotenv : gmap string string;
  endpoint : Service
}.

(** What the runtime keeps between two runs: the options selected in the
    two selectors, the keys of the widgets the last run has drawn, and the
    session dictionary. *)
Record Page : Type := mkPage {
  language_index : nat;
  action_index : nat;
  widget_keys : list string;
  store : session
}.

(** The page before its first run. *)
Definition blank : Page :=
  {| language_index := 0; action_index := 0; widget_keys := []; store := ∅ |}.

(** What starts a run: the page is opened, or run again as it is (the
    "Rerun" command of the runtime), an option is selected, a text is
    entered in the text area that is on the page, a button is clicked.
    A reload of the page in the browser is not an interaction of the
    session: it ends the session and starts a new one, on the blank page
    ([Leave] and [Visit] in [Process.v]). *)
Inductive Interaction : Type :=
| Open
| Select (n : nat)
| Choose (n : nat)
| Enter (text : string)
| Click (label : string).

#[export] Instance interaction_eq_dec : EqDecision Interaction.
Proof. solve_decision. Defined.

#[export] Instance page_eq_dec : EqDecision Page.
Proof. solve_decision. Defined.

(** The task of the action with index [n]. *)
Definition task_at (n : nat) : Task :=
  if String.eqb (pick actions n) "Code Enhancing" then Enhance else Generate.

(** The text a dictionary holds for a widget, empty when it holds none:
    the default of [st.text_area]. *)
Definition text_at (ss : session) (key : string) : string :=
  match ss !! key with
  | Some (PyStr s) => s
  | _ => ""
  end.

(** What is on the page. *)
Definition page_task (p : Page) : Task := task_at (action_index p).
Definition page_language (p : Page) : string := pick languages (language_index p).
Definition page_text (p : Page) : string := text_at (store p) (text_key (page_task p)).
Definition page_prompt (p : Page) : string :=
  prompt_of (page_task p) (page_text p) (page_language p).

(** The values of the widgets after an interaction, before the run. *)
Definition act (i : Interaction) (p : Page) : Page :=
  match i with
  | Open | Click _ => p
  | Select n =>
      {| language_index := n; action_index := action_index p;
         widget_keys := widget_keys p; store := store p |}
  | Choose n =>
      {| language_index := language_index p; action_index := n;
         widget_keys := widget_keys p; store := store p |}
  | Enter text =>
      {| language_index := language_index p; action_index := action_index p;
         widget_keys := widget_keys p;
         store := <[text_key (page_task p) := PyStr text]> (store p) |}
  end.

(** What the widgets return in the run an interaction starts. *)
Definition frontend_of (p : Page) (i : Interaction) : Frontend :=
  {| choice := fun label =>
       if String.eqb label language_label then language_index p
       else if String.eqb label action_label then action_index p
       else 0;
     entered := text_at (store p);
     clicked := fun label =>
       match i with Click l => String.eqb l label | _ => false end |}.

Definition host_of (srv : Server) (p : Page) (i : Interaction) : Host :=
  {| environ := server_environ srv; dotenv := server_dotenv srv;
     service := endpoint srv; frontend := frontend_of p i |}.

(** The keys of the text areas among the commands of a run. *)
Definition text_keys (cs : list Command) : list string :=
  omap (fun c => match c with TextArea _ k => Some k | _ => None end) cs.

(** The end of a run: the values of the widgets the run has not drawn are
    dropped from the dictionary. *)
Definition sweep (old drawn : list string) (ss : session) : session :=
  foldr delete ss (list_difference old drawn).

(** The run an interaction starts, and the page it leaves. *)
Definition rerun (srv : Server) (i : Interaction) (p : Page) : Page :=
  let p1 := act i p in
  let w := fst (execute (host_of srv p1 i) (store p1)) in
  let drawn := text_keys (shown (trace w)) in
  {| language_index := language_index p1; action_index := action_index p1;
     widget_keys := drawn;
     store := sweep (widget_keys p1) drawn (session_state w) |}.

(** What the run of an interaction displays, sends and raises. *)
Definition page_shown (srv : Server) (i : Interaction) (p : Page) : list Command :=
  displayed (host_of srv (act i p) i) (store (act i p)).

Definition page_sent (srv : Server) (i : Interaction) (p : Page) :
    list (Client * list Content * string) :=
  sent (host_of srv (act i p) i) (store (act i p)).

Definition page_outcome (srv : Server) (i : Interaction) (p : Page) : result exn unit :=
  outcome (host_of srv (act i p) i) (store (act i p)).

(** A sequence of interactions. *)
Definition browse (srv : Server) (acts : list Interaction) (p : Page) : Page :=
  foldl (fun q i => rerun srv i q) p acts.

(** ** What a run is expected to do, by the page *)

(** The client of the server. *)
Definition server_client (srv : Server) : Client :=
  GenerativeModel ((server_environ srv ∪ server_dotenv srv) !! "GOOGLE_API_KEY")
    "gemini-pro".

(** The answer of the service to the prompt of the page. *)
Definition reply (srv : Server) (p : Page) : result exn string :=
  result_bind (endpoint srv (server_client srv) [] (page_prompt p)) (accumulate "").

(** An interaction asks the service when it is a click on the button of
    the selected action and the text area is not empty. *)
Definition asks (i : Interaction) (p : Page) : bool :=
  match i with
  | Click l => String.eqb l (button_label (page_task p)) && truthy (page_text p)
  | _ => false
  end.

(** The entries an interaction adds to the transcript. *)
Definition recorded (srv : Server) (i : Interaction) (p : Page) : list (string * string) :=
  if asks i p then
    match reply srv p with
    | Ok a => exchange (page_text p) a
    | Raise _ => []
    end
  else [].

(** The pages the runtime works on: the dictionary is typed and no widget
    has the key of the transcript. *)
Definition page_ok (p : Page) : bool :=
  typed (store p) && bool_decide ("chat_history" ∉ widget_keys p).

(** A page that has been run: the text area of the selected action is the
    one widget with a key on it, and the keys of the dictionary are that of
    the transcript and that of the area. *)
Definition settled (p : Page) : Prop :=
  widget_keys p = [text_key (page_task p)]
  /\ dom (store p) = {["chat_history"; text_key (page_task p)]}.

(** ** The host of a run *)

Section Run.
Context (srv : Server).
Implicit Types (p : Page) (i : Interaction) (ss : session).

Lemma task_of_host_of p i : task_of (host_of srv p i) = page_task p.
Proof. reflexivity. Qed.

Lemma language_of_host_of p i : language_of (host_of srv p i) = page_language p.
Proof. reflexivity. Qed.

Lemma text_of_host_of p i : text_of (host_of srv p i) (page_task p) = page_text p.
Proof. reflexivity. Qed.

Lemma the_prompt_host_of p i : the_prompt (host_of srv p i) = page_prompt p.
Proof. reflexivity. Qed.

Lemma the_client_host_of p i : the_client (host_of srv p i) = server_client srv.
Proof. reflexivity. Qed.

Lemma answer_host_of p i :
  answer (host_of srv p i) (fresh_chat (host_of srv p i)) (page_prompt p) = reply srv p.
Proof. reflexivity. Qed.

Lemma submitted_host_of p i : submitted (host_of srv p i) (page_task p) = asks i p.
Proof. unfold submitted, asks; rewrite text_of_host_of; by destruct i. Qed.

(** The exchange the run of an interaction makes is the one the page
    tells. *)
Lemma exchange_made_host_of p i :
  match exchange_made (host_of srv p i) with
  | Some (q, a) => exchange q a
  | None => []
  end = recorded srv i p.
Proof.
  unfold exchange_made, recorded.
  rewrite task_of_host_of, submitted_host_of, the_prompt_host_of, answer_host_of.
  destruct (asks i p); [|done].
  by destruct (reply srv p).
Qed.

(** ** The widgets a run draws *)

Lemma text_keys_app (cs1 cs2 : list Command) :
  text_keys (cs1 ++ cs2) = text_keys cs1 ++ text_keys cs2.
Proof. apply omap_app. Qed.

Lemma text_keys_history (h : Host) ss : text_keys (history_commands h ss) = [].
Proof.
  unfold history_commands; destruct (clicked _ _); [|done].
  cbn; induction (transcript ss); cbn; auto.
Qed.

(** A run draws one text area: that of the selected action. *)
Lemma text_keys_displayed (h : Host) ss :
  typed ss = true -> text_keys (displayed h ss) = [text_key (task_of h)].
Proof.
  intros Ht; rewrite displayed_run by done.
  rewrite !text_keys_app.
  destruct (submitted h _); [destruct (answer h _ _) |];
    rewrite ?text_keys_app, ?text_keys_history; done.
Qed.

(** ** The end of a run *)

Lemma lookup_sweep_kept (old drawn : list string) ss (k : string) :
  k ∉ old \/ k ∈ drawn -> sweep old drawn ss !! k = ss !! k.
Proof.
  intros Hk; apply lookup_foldr_delete_not_elem_of.
  rewrite list_elem_of_difference; tauto.
Qed.

Lemma lookup_sweep_dropped (old drawn : list string) ss (k : string) :
  k ∈ old -> k ∉ drawn -> sweep old drawn ss !! k = None.
Proof. intros Ho Hd; apply lookup_foldr_delete; by rewrite list_elem_of_difference. Qed.

Lemma lookup_sweep_Some (old drawn : list string) ss (k : string) :
  is_Some (sweep old drawn ss !! k) -> is_Some (ss !! k) /\ (k ∉ old \/ k ∈ drawn).
Proof.
  intros [v [Hk Hv]%lookup_foldr_delete_Some]; split; [by exists v |].
  rewrite list_elem_of_difference in Hk.
  destruct (decide (k ∈ old)); [|by left].
  destruct (decide (k ∈ drawn)); [by right | tauto].
Qed.

Lemma transcript_sweep (old drawn : list string) ss :
  "chat_history" ∉ old -> transcript (sweep old drawn ss) = transcript ss.
Proof. intros Ho; unfold transcript; rewrite lookup_sweep_kept; auto. Qed.

Lemma typed_sweep (old drawn : list string) ss :
  "chat_history" ∉ old -> typed (sweep old drawn ss) = typed ss.
Proof. intros Ho; unfold typed; rewrite lookup_sweep_kept; auto. Qed.

(** ** One interaction *)

Lemma page_ok_iff p :
  page_ok p = true <-> typed (store p) = true /\ "chat_history" ∉ widget_keys p.
Proof. unfold page_ok; by rewrite andb_true_iff, bool_decide_eq_true. Qed.

Lemma act_keys i p : widget_keys (act i p) = widget_keys p.
Proof. by destruct i. Qed.

Lemma transcript_act i p : transcript (store (act i p)) = transcript (store p).
Proof. destruct i; try done; cbn; apply transcript_insert_ne, text_key_apart. Qed.

Lemma act_ok i p : page_ok p = true -> page_ok (act i p) = true.
Proof.
  rewrite !page_ok_iff, act_keys; intros [Ht Hk]; split; [|done].
  destruct i; try done; cbn; by rewrite typed_insert_ne by apply text_key_apart.
Qed.

(** [page_facts i p Hp] adds what [page_ok p] gives for the run of [i]:
    no widget has the key of the transcript, and the dictionary is typed
    after the interaction. *)
Ltac page_facts i p Hp :=
  pose proof (proj2 (proj1 (page_ok_iff p) Hp));
  pose proof (proj1 (proj1 (page_ok_iff (act i p)) (act_ok i p Hp))).

Lemma rerun_eq i p :
  rerun srv i p
  = {| language_index := language_index (act i p);
       action_index := action_index (act i p);
       widget_keys := text_keys (page_shown srv i p);
       store := sweep (widget_keys p) (text_keys (page_shown srv i p))
                  (next_session (host_of srv (act i p) i) (store (act i p))) |}.
Proof. unfold rerun, page_shown, displayed, next_session; by rewrite act_keys. Qed.

Lemma page_shown_keys i p :
  page_ok p = true -> text_keys (page_shown srv i p) = [text_key (page_task (act i p))].
Proof.
  intros Hp; page_facts i p Hp.
  by apply (text_keys_displayed (host_of srv (act i p) i)).
Qed.

Lemma rerun_keys i p :
  page_ok p = true -> widget_keys (rerun srv i p) = [text_key (page_task (act i p))].
Proof. intros Hp; by rewrite rerun_eq, page_shown_keys. Qed.

Lemma rerun_store i p :
  page_ok p = true ->
  store (rerun srv i p)
  = sweep (widget_keys p) [text_key (page_task (act i p))]
      (next_session (host_of srv (act i p) i) (store (act i p))).
Proof. intros Hp; by rewrite rerun_eq, page_shown_keys. Qed.

Lemma rerun_ok i p : page_ok p = true -> page_ok (rerun srv i p) = true.
Proof.
  intros Hp; pose proof (act_ok i p Hp) as [Ht Hk]%page_ok_iff.
  rewrite act_keys in Hk.
  apply page_ok_iff; rewrite rerun_keys, rerun_store by done; split.
  - rewrite typed_sweep by done.
    by apply (next_typed (host_of srv (act i p) i)).
  - rewrite list_elem_of_singleton; intros H.
    by apply (text_key_apart (page_task (act i p))).
Qed.

(** The transcript after an interaction. *)
Lemma rerun_transcript i p :
  page_ok p = true ->
  transcript (store (rerun srv i p)) = transcript (store p) ++ recorded srv i (act i p).
Proof.
  intros Hp; page_facts i p Hp.
  rewrite rerun_store, transcript_sweep, transcript_next by done.
  by rewrite transcript_act, exchange_made_host_of.
Qed.

(** The dictionary after an interaction, key by key: the transcript, the
    text of the area on the page, nothing for a widget that is no longer
    on the page, and what was there for any other key. *)
Lemma rerun_lookup i p (k : string) :
  page_ok p = true ->
  store (rerun srv i p) !! k
  = if decide (k = "chat_history")
    then Some (PyList (transcript (store (rerun srv i p))))
    else if decide (k = text_key (page_task (act i p)))
    then Some (PyStr (page_text (act i p)))
    else if decide (k ∈ widget_keys p) then None
    else store (act i p) !! k.
Proof.
  intros Hp; page_facts i p Hp.
  pose proof (text_key_apart (page_task (act i p))) as Hkey.
  rewrite !rerun_store by done.
  destruct (decide (k = "chat_history")) as [->|Hch].
  - rewrite transcript_sweep, lookup_sweep_kept by auto.
    by rewrite next_session_lookup, decide_True.
  - destruct (decide (k = text_key (page_task (act i p)))) as [->|Hne].
    + rewrite lookup_sweep_kept by (right; apply list_elem_of_singleton; done).
      by rewrite next_session_lookup, decide_False, decide_True.
    + destruct (decide (k ∈ widget_keys p)) as [Hin|Hout].
      * apply lookup_sweep_dropped; [done |].
        by rewrite list_elem_of_singleton.
      * rewrite lookup_sweep_kept by auto.
        by rewrite next_session_lookup, !decide_False.
Qed.

(** The text on the page after a run is the text the run was given. *)
Lemma page_text_rerun i p :
  page_ok p = true -> page_text (rerun srv i p) = page_text (act i p).
Proof.
  intros Hp; unfold page_text at 1, text_at.
  change (page_task (rerun srv i p)) with (page_task (act i p)).
  rewrite rerun_lookup, decide_False, decide_True; try done.
  apply text_key_apart.
Qed.

Lemma page_eq (p q : Page) :
  language_index p = language_index q -> action_index p = action_index q ->
  widget_keys p = widget_keys q -> store p = store q -> p = q.
Proof. destruct p, q; cbn; by intros -> -> -> ->. Qed.

(** A run that was started without a change of the page and that asks
    for nothing leaves the page of a run as it is. *)
Lemma rerun_quiet_fixed i j p :
  page_ok p = true ->
  act j (rerun srv i p) = rerun srv i p -> asks j (rerun srv i p) = false ->
  rerun srv j (rerun srv i p) = rerun srv i p.
Proof.
  intros Hp Hact Hasks; pose proof (rerun_ok i p Hp) as Hq.
  assert (page_task (act j (rerun srv i p)) = page_task (act i p)) as Htask
    by by rewrite Hact.
  apply page_eq; try (by rewrite <- Hact at 2); [by rewrite !rerun_keys, Htask |].
  apply map_eq; intros k.
  rewrite (rerun_lookup j), (rerun_transcript j) by done.
  unfold recorded at 1; rewrite Hact, Hasks, app_nil_r.
  rewrite page_text_rerun, rerun_keys, (rerun_lookup i p k) by done.
  change (page_task (rerun srv i p)) with (page_task (act i p)).
  repeat case_decide; try done.
  by match goal with H : _ ∈ [_] |- _ => apply list_elem_of_singleton in H end.
Qed.

Lemma page_sent_run i p :
  page_ok p = true ->
  page_sent srv i p
  = if asks i (act i p) then [(server_client srv, [], page_prompt (act i p))] else [].
Proof.
  intros Hp; page_facts i p Hp; unfold page_sent.
  by rewrite sent_run, task_of_host_of, submitted_host_of.
Qed.

Lemma page_outcome_run i p :
  page_ok p = true ->
  page_outcome srv i p
  = if asks i (act i p) then
      match reply srv (act i p) with Ok _ => Ok () | Raise e => Raise e end
    else Ok ().
Proof.
  intros Hp; page_facts i p Hp; unfold page_outcome.
  by rewrite outcome_run, task_of_host_of, submitted_host_of.
Qed.

Lemma rerun_well_formed i p :
  page_ok p = true -> well_formed (transcript (store p)) = true ->
  well_formed (transcript (store (rerun srv i p))) = true.
Proof.
  intros Hp Hwf; rewrite rerun_transcript by done; unfold recorded.
  destruct (asks i (act i p)) eqn:Ha; [|by rewrite app_nil_r].
  destruct (reply srv (act i p)); [|by rewrite app_nil_r].
  apply well_formed_snoc; [done |].
  destruct i; try done; by apply andb_prop in Ha as [_ ?].
Qed.

(** The keys of the dictionary before a run are known: each is the key of
    the transcript, of the text area of the selected action, or of a widget
    that was on the page. *)
Definition known i p : Prop :=
  forall k : string, is_Some (store (act i p) !! k) ->
    k = "chat_history" \/ k = text_key (page_task (act i p)) \/ k ∈ widget_keys p.

Lemma known_blank i : known i blank.
Proof.
  intros k; destruct i; cbn; rewrite ?lookup_empty; try by intros [? ?].
  intros [v [[<- _]|[_ Hv]]%lookup_insert_Some]; [auto | by rewrite lookup_empty in Hv].
Qed.

Lemma known_settled i p : settled p -> known i p.
Proof.
  intros [Hkeys Hdom] k Hk; rewrite Hkeys, list_elem_of_singleton.
  assert (forall k', is_Some (store p !! k') ->
            k' = "chat_history" \/ k' = text_key (page_task p)) as Hall.
  { intros k'; rewrite <- elem_of_dom, Hdom; set_solver. }
  destruct i; cbn in *; try (destruct (Hall k Hk); auto).
  destruct Hk as [v [[<- _]|[_ Hv]]%lookup_insert_Some]; [auto |].
  destruct (Hall k); eauto.
Qed.

Lemma rerun_settled i p : page_ok p = true -> known i p -> settled (rerun srv i p).
Proof.
  intros Hp Hknown; split; [by rewrite rerun_keys |].
  apply set_eq; intros k; rewrite elem_of_dom, rerun_lookup by done.
  rewrite elem_of_union, !elem_of_singleton.
  change (page_task (rerun srv i p)) with (page_task (act i p)).
  repeat case_decide; split; eauto; [by intros [? ?] | tauto | | tauto].
  intros Hk; destruct (Hknown k Hk) as [?|[?|?]]; done.
Qed.

Lemma browse_snoc (acts : list Interaction) i p :
  browse srv (acts ++ [i]) p = rerun srv i (browse srv acts p).
Proof. unfold browse; by rewrite foldl_snoc. Qed.

Lemma browse_ok (acts : list Interaction) p :
  page_ok p = true -> page_ok (browse srv acts p) = true.
Proof.
  intros Hp; induction acts as [|i acts IH] using rev_ind; [done |].
  rewrite browse_snoc; by apply rerun_ok.
Qed.

Lemma blank_ok : page_ok blank = true.
Proof. done. Qed.

Lemma browse_known (acts : list Interaction) i : known i (browse srv acts blank).
Proof.
  revert i; induction acts as [|j acts IH] using rev_ind; intros i;
    [apply known_blank |].
  rewrite browse_snoc.
  apply known_settled, rerun_settled; [apply browse_ok, blank_ok | apply IH].
Qed.

Lemma browse_settled (acts : list Interaction) :
  acts ≠ [] -> settled (browse srv acts blank).
Proof.
  destruct acts as [|i acts _] using rev_ind; [done | intros _].
  rewrite browse_snoc.
  apply rerun_settled; [apply browse_ok, blank_ok | apply browse_known].
Qed.

Lemma browse_well_formed (acts : list Interaction) p :
  page_ok p = true -> well_formed (transcript (store p)) = true ->
  well_formed (transcript (store (browse srv acts p))) = true.
Proof.
  intros Hp Hwf; induction acts as [|i acts IH] using rev_ind; [done |].
  rewrite browse_snoc; apply rerun_well_formed; [by apply browse_ok | done].
Qed.

(** ** Properties of interactions *)

(** C12: What an interaction does: the transcript grows by the exchange of
    a click on the button of the selected action when the text area is not
    empty and the service answers, and by nothing otherwise; a request is
    sent for such a click only, with no history; the run raises only what
    the service raised.  Opening the page, selecting an option, entering
    a text and clicking "Show Chat History" send nothing. *)
Theorem interaction_effect i p :
  page_ok p = true ->
  transcript (store (rerun srv i p)) = transcript (store p) ++ recorded srv i (act i p)
  /\ page_sent srv i p
     = (if asks i (act i p)
        then [(server_client srv, [], page_prompt (act i p))] else [])
  /\ page_outcome srv i p
     = (if asks i (act i p) then
          match reply srv (act i p) with Ok _ => Ok () | Raise e => Raise e end
        else Ok ()).
Proof.
  intros Hp; by rewrite rerun_transcript, page_sent_run, page_outcome_run.
Qed.

(** C32: A text that was entered is there at the next interaction: after
    the user has entered a text that is not empty, which sends nothing, a
    click on the button of the selected action sends the prompt built from
    that text and the selected language, and the transcript gets the text
    and the answer. *)
Theorem entered_text_is_sent p (s : string) :
  page_ok p = true -> s ≠ "" ->
  let q := rerun srv (Enter s) p in
  let click := Click (button_label (page_task p)) in
  page_sent srv (Enter s) p = []
  /\ page_text q = s
  /\ page_sent srv click q
     = [(server_client srv, [], prompt_of (page_task p) s (page_language p))]
  /\ transcript (store (rerun srv click q))
     = transcript (store p)
       ++ match reply srv q with Ok a => exchange s a | Raise _ => [] end.
Proof.
  intros Hp Hs%truthy_true_iff; cbv zeta.
  pose proof (rerun_ok (Enter s) p Hp) as Hq.
  assert (page_text (rerun srv (Enter s) p) = s) as Htext.
  { rewrite page_text_rerun by done.
    unfold page_text, text_at; cbn; by rewrite lookup_insert_eq. }
  assert (asks (Click (button_label (page_task p))) (rerun srv (Enter s) p) = true)
    as Hasks.
  { unfold asks; rewrite Htext, Hs.
    change (page_task (rerun srv (Enter s) p)) with (page_task p).
    by rewrite String.eqb_refl. }
  rewrite !page_sent_run, !rerun_transcript by done.
  unfold recorded; change (act (Click ?l) ?q) with q; rewrite Hasks.
  cbn [asks]; rewrite app_nil_r, Htext.
  unfold page_prompt; by rewrite Htext.
Qed.

(** C33: The text of an area that is no longer on the page is dropped:
    after another action has been chosen the dictionary has nothing under
    the key of the area that was on the page, and when the first action is
    chosen again its area is empty. *)
Theorem hidden_text_is_dropped p (n m : nat) :
  page_ok p = true -> widget_keys p = [text_key (page_task p)] ->
  task_at n ≠ page_task p -> task_at m = page_task p ->
  store (rerun srv (Choose n) p) !! text_key (page_task p) = None
  /\ page_text (rerun srv (Choose m) (rerun srv (Choose n) p)) = "".
Proof.
  intros Hp Hkeys Hn Hm.
  pose proof (text_key_apart (page_task p)) as Hkey.
  assert (store (rerun srv (Choose n) p) !! text_key (page_task p) = None) as Hnone.
  { rewrite rerun_lookup, decide_False, decide_False, decide_True; try done.
    - rewrite Hkeys; by apply list_elem_of_singleton.
    - intros H%(inj text_key); by apply Hn. }
  split; [done |].
  unfold page_text at 1, text_at.
  rewrite rerun_lookup, decide_False, decide_True;
    [| done | apply text_key_apart | by apply rerun_ok].
  unfold page_text, text_at, page_task; cbn [act action_index store].
  by rewrite Hm, Hnone.
Qed.

(** C34: A run that changes nothing is a fixed point: once the script
    has run, a run of the page as it is, and a click on a button that makes no
    request (the button of the transcript, or the button of the action
    over an empty text), leave the page, its widgets and the whole
    dictionary as they are, and send nothing. *)
Theorem quiet_run_changes_nothing i j p :
  page_ok p = true -> j = Open \/ (exists l, j = Click l) ->
  asks j (rerun srv i p) = false ->
  rerun srv j (rerun srv i p) = rerun srv i p
  /\ page_sent srv j (rerun srv i p) = [].
Proof.
  intros Hp Hj Hasks; pose proof (rerun_ok i p Hp) as Hq.
  assert (act j (rerun srv i p) = rerun srv i p) as Hact
    by by destruct Hj as [-> | [l ->]].
  split; [by apply rerun_quiet_fixed |].
  by rewrite page_sent_run, Hact, Hasks.
Qed.

(** C19: Every page the user can reach from the blank page, by
    interactions whose runs reach their end, keeps the invariant of the
    runtime: the dictionary is typed, no widget has the key of the
    transcript, the transcript is a sequence of exchanges, and after the
    first run the keys of the dictionary are that of the transcript and
    that of the one text area on the page. *)
Theorem browse_invariant (acts : list Interaction) :
  page_ok (browse srv acts blank) = true
  /\ well_formed (transcript (store (browse srv acts blank))) = true
  /\ (acts ≠ [] -> settled (browse srv acts blank)).
Proof.
  split; [apply browse_ok, blank_ok |].
  split; [by apply browse_well_formed | apply browse_settled].
Qed.

End Run.

(** [page_facts], for the files that build on this one. *)
Ltac page_facts i p Hp :=
  pose proof (proj2 (proj1 (page_ok_iff p) Hp));
  pose proof (proj1 (proj1 (page_ok_iff (act i p)) (act_ok i p Hp))).

(** ** Servers that are the same to the script *)

(** Two servers are the same to the script when they reach the same
    service with the same client. *)
Definition same_service (srv srv' : Server) : Prop :=
  endpoint srv = endpoint srv' /\ server_client srv = server_client srv'.

#[export] Instance same_service_equiv : Equivalence same_service.
Proof.
  unfold same_service; split; [done | by intros ?? [-> ->] |].
  by intros ??? [-> ->] [-> ->].
Qed.

#[export] Instance reply_proper : Proper (same_service ==> (=) ==> (=)) reply.
Proof. intros srv srv' [He Hc] p ? <-; unfold reply; by rewrite He, Hc. Qed.

#[export] Instance recorded_proper :
  Proper (same_service ==> (=) ==> (=) ==> (=)) recorded.
Proof. intros srv srv' Hs i ? <- p ? <-; unfold recorded; by rewrite Hs. Qed.

(** A run is the same on two such servers. *)
Lemma rerun_service (srv srv' : Server) (i : Interaction) (p : Page) :
  same_service srv srv' -> page_ok p = true -> rerun srv i p = rerun srv' i p.
Proof.
  intros Hs Hp; apply page_eq; try done; [by rewrite !rerun_keys |].
  assert (recorded srv i (act i p) = recorded srv' i (act i p)) as Hr
    by by rewrite Hs.
  apply map_eq; intros k; by rewrite !rerun_lookup, !rerun_transcript, Hr.
Qed.

Lemma page_sent_service (srv srv' : Server) (i : Interaction) (p : Page) :
  same_service srv srv' -> page_ok p = true -> page_sent srv i p = page_sent srv' i p.
Proof. intros [_ Hc] Hp; by rewrite !page_sent_run, Hc. Qed.

(** ** The environment a run leaves *)

(** The environment a run leaves to the process. *)
Definition environ_after (srv : Server) (i : Interaction) (p : Page) :
    gmap string string :=
  env (fst (execute (host_of srv (act i p) i) (store (act i p)))).

Lemma environ_after_run (srv : Server) (i : Interaction) (p : Page) :
  environ_after srv i p = server_environ srv ∪ server_dotenv srv.
Proof. unfold environ_after; by rewrite execute_env. Qed.

(** ** Example pages *)

(** A server with a credential whose service answers in two chunks. *)
Definition adder_server : Server :=
  {| server_environ := {["GOOGLE_API_KEY" := "secret"]}; server_dotenv := ∅;
     endpoint := fixed_service ["def add(a,b):"; " return a+b"] |}.

(** The page after it was opened and a text was entered. *)
Definition typing : list Interaction := [Open; Enter "a function that adds two numbers"].

Lemma interaction_effect_witness :
  transcript (store (rerun adder_server Open blank))
  = transcript (store blank) ++ recorded adder_server Open (act Open blank)
  /\ page_sent adder_server Open blank
     = (if asks Open (act Open blank)
        then [(server_client adder_server, [], page_prompt (act Open blank))] else [])
  /\ page_outcome adder_server Open blank
     = (if asks Open (act Open blank) then
          match reply adder_server (act Open blank) with
          | Ok _ => Ok ()
          | Raise e => Raise e
          end
        else Ok ()).
Proof. apply (interaction_effect adder_server Open blank); done. Defined.

Lemma entered_text_is_sent_witness :
  let q := rerun adder_server (Enter "add") blank in
  let click := Click (button_label (page_task blank)) in
  page_sent adder_server (Enter "add") blank = []
  /\ page_text q = "add"
  /\ page_sent adder_server click q
     = [(server_client adder_server, [],
         prompt_of (page_task blank) "add" (page_language blank))]
  /\ transcript (store (rerun adder_server click q))
     = transcript (store blank)
       ++ match reply adder_server q with Ok a => exchange "add" a | Raise _ => [] end.
Proof. apply (entered_text_is_sent adder_server blank "add"); done. Defined.

Lemma quiet_run_changes_nothing_witness :
  rerun adder_server (Click "Show Chat History") (rerun adder_server Open blank)
  = rerun adder_server Open blank
  /\ page_sent adder_server (Click "Show Chat History") (rerun adder_server Open blank) = [].
Proof.
  apply (quiet_run_changes_nothing adder_server Open (Click "Show Chat History") blank);
    [done | right; by eexists | done].
Defined.

(** A page with a text in the area of the first action. *)
Definition drafted : Page :=
  {| language_index := 0; action_index := 0; widget_keys := ["requirements"];
     store := {["chat_history" := PyList []; "requirements" := PyStr "a draft"]} |}.

Lemma hidden_text_is_dropped_witness :
  store (rerun adder_server (Choose 1) drafted) !! text_key (page_task drafted) = None
  /\ page_text (rerun adder_server (Choose 0) (rerun adder_server (Choose 1) drafted)) = "".
Proof. apply (hidden_text_is_dropped adder_server drafted 1 0); done. Defined.
