(* ===== verification/Bounds.v ===== *)
(** * Bounds: the sizes of what a run displays, sends and stores

    The script has no limit of its own: the text area takes any text, the
    answer of the service has any length and the transcript grows as long
    as the session lasts.  What is bounded is what one run adds, and this
    file states it:

    - one run ([run_bounds]): the number of Streamlit calls, between
      the seven of the top of the page and of the section and eleven more
      than the transcript has entries at the end; the two entries a run
      adds to the transcript at most; the size of the prompt, which is
      the text of the user and an [overhead] of 392 to 402 characters,
      the template and the name of the language;
    - one session ([browse_bounds]): the requests of a sequence of
      interactions ([browse_sent]) are at most its [clicks], the
      transcript has at most two entries for every request, exactly two
      when the service is reliable, and no request is larger than 402
      characters more than the longest text the user has entered
      ([longest]), however long the conversation has become: the chat is
      opened anew by every run, so a request carries the prompt and
      nothing of the transcript. *)

From stdpp Require Import gmap strings list list_numbers.
From S2P Require Import Prelude PyStr Prompt Stream Chat Transcript Render World.
From S2P Require Import App Execution Stopped Runtime.

(** ** The measures of a sequence of interactions *)

(** The size of the text an interaction enters. *)
Definition text_size (i : Interaction) : nat :=
  match i with
  | Enter text => String.length text
  | _ => 0
  end.

(** The size of the longest text entered in a sequence of interactions. *)
Definition longest (acts : list Interaction) : nat := max_list (text_size <$> acts).

(** The number of its clicks. *)
Definition clicks (acts : list Interaction) : nat :=
  sum_list_with (fun i => match i with Click _ => 1 | _ => 0 end) acts.

(** The requests the runs of a sequence of interactions send, in order. *)
Fixpoint browse_sent (srv : Server) (acts : list Interaction) (p : Page) :
    list (Client * list Content * string) :=
  match acts with
  | [] => []
  | i :: acts => page_sent srv i p ++ browse_sent srv acts (rerun srv i p)
  end.

(** What a prompt has more than the text of the user: the template and
    the name of the language. *)
Definition overhead (t : Task) (language : string) : nat :=
  String.length (prompt_of t "" language).


(** No text of the dictionary of a page is longer than [n]. *)
Definition texts_within (n : nat) (p : Page) : Prop :=
  forall k : string, String.length (text_at (store p) k) <= n.

(** ** The prompt *)

Lemma language_length (language : string) :
  language ∈ languages -> 2 <= String.length language <= 10.
Proof.
  unfold languages; rewrite !elem_of_cons, elem_of_nil.
  intros [-> | [-> | [-> | [-> | [-> | []]]]]]; cbn; lia.
Qed.

Lemma prompt_of_length (t : Task) (text language : string) :
  String.length (prompt_of t text language)
  = (match t with Generate => 390 | Enhance => 392 end)
    + String.length language + String.length text.
Proof. destruct (prompt_length text language), t; by unfold prompt_of. Qed.

Lemma prompt_of_overhead (t : Task) (text language : string) :
  String.length (prompt_of t text language) = overhead t language + String.length text.
Proof. unfold overhead; rewrite !prompt_of_length; cbn; lia. Qed.

Lemma overhead_bounds (t : Task) (language : string) :
  language ∈ languages -> 392 <= overhead t language <= 402.
Proof.
  intros Hl%language_length; unfold overhead; rewrite prompt_of_length.
  destruct t; cbn; lia.
Qed.

Lemma prompt_of_bounds (t : Task) (text language : string) :
  language ∈ languages ->
  392 + String.length text <= String.length (prompt_of t text language)
  <= 402 + String.length text.
Proof. intros Hl%(overhead_bounds t); rewrite prompt_of_overhead; lia. Qed.

(** ** One run *)

Section Run.
Context (host : Host).
Implicit Types ss : session.

Lemma history_commands_length ss :
  1 <= length (history_commands host ss) <= 2 + length (transcript ss).
Proof.
  unfold history_commands; destruct (clicked _ _); cbn [length];
    rewrite ?length_map; lia.
Qed.

Lemma exchange_made_length :
  length (match exchange_made host with
          | Some (q, a) => exchange q a
          | None => []
          end)
  = match exchange_made host with Some _ => 2 | None => 0 end.
Proof. by destruct (exchange_made host) as [[q a]|]. Qed.

Lemma transcript_next_length ss :
  typed ss = true ->
  length (transcript (next_session host ss))
  = length (transcript ss) + match exchange_made host with Some _ => 2 | None => 0 end.
Proof.
  intros Ht; by rewrite transcript_next, length_app, exchange_made_length.
Qed.

Lemma displayed_length ss :
  typed ss = true ->
  7 <= length (displayed host ss) <= 11 + length (transcript (next_session host ss)).
Proof.
  intros Ht; rewrite displayed_run by done.
  pose proof (history_commands_length (next_session host ss)).
  execution_cases; rewrite !length_app; cbn [length top_commands section_commands];
    rewrite ?length_app; cbn [length]; lia.
Qed.

End Run.

(** ** One session *)

Section Browse.
Context (srv : Server).
Implicit Types (p : Page) (i : Interaction) (acts : list Interaction).

Lemma browse_sent_app acts acts' p :
  browse_sent srv (acts ++ acts') p
  = browse_sent srv acts p ++ browse_sent srv acts' (browse srv acts p).
Proof.
  revert p; induction acts as [|i acts IH]; intros p; [done |].
  cbn [app browse_sent]; by rewrite IH, app_assoc.
Qed.

Lemma page_sent_length i p :
  page_ok p = true ->
  length (page_sent srv i p) = if asks i (act i p) then 1 else 0.
Proof. intros Hp; rewrite page_sent_run by done; by destruct (asks _ _). Qed.

Lemma asks_click i p : asks i p = true -> exists l, i = Click l.
Proof. destruct i; try done; eauto. Qed.

Lemma recorded_length i p :
  length (recorded srv i p) <= if asks i p then 2 else 0.
Proof.
  unfold recorded; destruct (asks i p); [|done].
  destruct (reply srv p); cbn; lia.
Qed.

(** What one interaction adds to the measures. *)
Lemma rerun_bounds i p :
  page_ok p = true ->
  length (transcript (store (rerun srv i p)))
  <= length (transcript (store p)) + 2 * length (page_sent srv i p)
  /\ length (page_sent srv i p) <= clicks [i].
Proof.
  intros Hp; rewrite rerun_transcript, length_app, page_sent_length by done.
  pose proof (recorded_length i (act i p)) as Hr.
  destruct (asks i (act i p)) eqn:Ha; [|lia].
  apply asks_click in Ha as [l ->]; change (clicks [Click l]) with 1; lia.
Qed.

Lemma clicks_app acts acts' : clicks (acts ++ acts') = clicks acts + clicks acts'.
Proof. apply sum_list_with_app. Qed.

Lemma browse_lengths acts p :
  page_ok p = true ->
  length (transcript (store (browse srv acts p)))
  <= length (transcript (store p)) + 2 * length (browse_sent srv acts p)
  /\ length (browse_sent srv acts p) <= clicks acts.
Proof.
  intros Hp; induction acts as [|i acts IH] using rev_ind; [cbn; lia |].
  rewrite browse_snoc, browse_sent_app, clicks_app, length_app.
  cbn [browse_sent]; rewrite app_nil_r.
  pose proof (rerun_bounds i (browse srv acts p) (browse_ok srv acts p Hp)); lia.
Qed.

(** Against a reliable service every request adds its two entries. *)
Lemma recorded_reliable i p :
  reliable (endpoint srv) -> length (recorded srv i p) = if asks i p then 2 else 0.
Proof.
  intros Hr; unfold recorded; destruct (asks i p); [|done].
  destruct (Hr (server_client srv) [] (page_prompt p)) as (s & Hs & Hf).
  rewrite <- (answer_host_of srv p i).
  by rewrite (answer_complete (host_of srv p i) (fresh_chat (host_of srv p i)) _ s Hs Hf).
Qed.

Lemma browse_length_reliable acts p :
  reliable (endpoint srv) -> page_ok p = true ->
  length (transcript (store (browse srv acts p)))
  = length (transcript (store p)) + 2 * length (browse_sent srv acts p).
Proof.
  intros Hr Hp; induction acts as [|i acts IH] using rev_ind; [cbn; lia |].
  pose proof (browse_ok srv acts p Hp) as Hq.
  rewrite browse_snoc, browse_sent_app, length_app, rerun_transcript, length_app by done.
  cbn [browse_sent]; rewrite app_nil_r, page_sent_length, recorded_reliable, IH by done.
  destruct (asks i _); lia.
Qed.

(** *** The texts of the page *)

Lemma text_at_insert ss (k k' : string) (s : string) :
  text_at (<[k := PyStr s]> ss) k' = if decide (k = k') then s else text_at ss k'.
Proof.
  unfold text_at; case_decide; subst; by rewrite ?lookup_insert_eq, ?lookup_insert_ne.
Qed.

Lemma act_texts (n : nat) i p :
  text_size i <= n -> texts_within n p -> texts_within n (act i p).
Proof.
  intros Hi Hp k; destruct i; try apply Hp.
  cbn [act store]; rewrite text_at_insert; case_decide; [done | apply Hp].
Qed.

Lemma rerun_texts (n : nat) i p :
  page_ok p = true -> text_size i <= n -> texts_within n p ->
  texts_within n (rerun srv i p).
Proof.
  intros Hp Hi Hn k; pose proof (act_texts n i p Hi Hn) as Ha.
  unfold text_at; rewrite rerun_lookup by done.
  repeat case_decide; cbn; try lia; [apply Ha | apply (Ha k)].
Qed.

Lemma blank_texts (n : nat) : texts_within n blank.
Proof. intros k; cbn; unfold text_at; rewrite lookup_empty; cbn; lia. Qed.

Lemma page_prompt_bound (n : nat) p :
  texts_within n p -> String.length (page_prompt p) <= 402 + n.
Proof.
  intros Hn; unfold page_prompt.
  assert (page_language p ∈ languages) as Hl
    by (apply list_elem_of_In, pick_in; discriminate).
  pose proof (prompt_of_bounds (page_task p) (page_text p) _ Hl).
  pose proof (Hn (text_key (page_task p))) as Ht; fold (page_text p) in Ht.
  lia.
Qed.

(** Every request of a sequence of interactions that enter texts of [n]
    characters at most has an empty history and a prompt of [402 + n]
    characters at most. *)
Lemma browse_sent_bound (n : nat) acts p :
  page_ok p = true -> texts_within n p -> Forall (fun i => text_size i <= n) acts ->
  forall c h q, (c, h, q) ∈ browse_sent srv acts p ->
    h = [] /\ String.length q <= 402 + n.
Proof.
  revert p; induction acts as [|i acts IH]; intros p Hp Hn Hacts c h q;
    [by intros ?%elem_of_nil |].
  apply Forall_cons in Hacts as [Hi Hacts].
  cbn [browse_sent]; rewrite elem_of_app, page_sent_run by done.
  intros [Hin | Hin].
  - destruct (asks i (act i p)); [|by apply elem_of_nil in Hin].
    apply list_elem_of_singleton in Hin as [= -> -> ->].
    split; [done | by apply page_prompt_bound, act_texts].
  - eapply (IH (rerun srv i p)); eauto using rerun_ok, rerun_texts.
Qed.

Lemma longest_bound acts : Forall (fun i => text_size i <= longest acts) acts.
Proof.
  apply Forall_forall; intros i Hi.
  by apply max_list_elem_of_le, list_elem_of_fmap_2.
Qed.

End Browse.

(** ** Theorems *)

(** C23: One run makes between 7 Streamlit calls and 11 more than the
    transcript has entries when it ends, and a run that is stopped with a
    budget of [n] calls makes at most [n]; it adds two entries to the
    transcript when it makes an exchange, and none otherwise; the prompt of its request is the text of the user
    and the [overhead] of the template and the language, 392 to 402
    characters, and the request carries no history, whatever the length
    of the transcript. *)
Theorem run_bounds (host : Host) (ss : session) :
  typed ss = true ->
  (7 <= length (displayed host ss) <= 11 + length (transcript (next_session host ss)))
  /\ (forall n, length (displayed_until host n ss) <= n)
  /\ length (transcript (next_session host ss))
     = length (transcript ss) + match exchange_made host with Some _ => 2 | None => 0 end
  /\ (forall c h q, (c, h, q) ∈ sent host ss ->
        length h = 0
        /\ String.length q
           = overhead (task_of host) (language_of host)
             + String.length (text_of host (task_of host)))
  /\ 392 <= overhead (task_of host) (language_of host) <= 402.
Proof.
  intros Ht; split; [by apply displayed_length | split; [| split; [| split]]].
  - intros n; rewrite displayed_until_take, length_take; lia.
  - by apply transcript_next_length.
  - intros c h q; rewrite sent_run by done.
    destruct (submitted host (task_of host)); [|by intros ?%elem_of_nil].
    intros [= -> -> ->]%list_elem_of_singleton; split; [done |].
    apply prompt_of_overhead.
  - apply overhead_bounds, language_of_in.
Qed.


(** C22: In a session, whatever the user does and the service answers:
    the transcript has at most two entries for every request that was
    sent, exactly two when the service is reliable; there are no more
    requests than clicks; and every request has an empty history and a
    prompt of at most 402 characters more than the longest text the user
    has entered.  The size of a request does not grow with the
    conversation. *)
Theorem browse_bounds (srv : Server) (acts : list Interaction) :
  length (transcript (store (browse srv acts blank)))
  <= 2 * length (browse_sent srv acts blank)
  /\ (reliable (endpoint srv) ->
      length (transcript (store (browse srv acts blank)))
      = 2 * length (browse_sent srv acts blank))
  /\ length (browse_sent srv acts blank) <= clicks acts
  /\ forall c h q, (c, h, q) ∈ browse_sent srv acts blank ->
       h = [] /\ String.length q <= 402 + longest acts.
Proof.
  pose proof (browse_lengths srv acts blank (blank_ok)) as [Ht Hs].
  split; [exact Ht | split; [| split; [exact Hs |]]].
  - intros Hr; by rewrite browse_length_reliable by done.
  - apply browse_sent_bound; auto using blank_ok, blank_texts, longest_bound.
Qed.

(** ** On concrete inputs *)

Lemma run_bounds_witness :
  7 <= length (displayed adder_host one_exchange) <= 15.
Proof.
  destruct (run_bounds adder_host one_exchange eq_refl) as ((H1 & H2) & _ & H3 & _).
  rewrite H3 in H2; change (length (transcript one_exchange)) with 2 in H2.
  destruct (exchange_made adder_host); lia.
Defined.


(** A session of two requests: the transcript has four entries, and the
    bounds are reached. *)
Example browse_bounds_reached :
  let acts := [Open; Enter "a function that adds two numbers"; Click "Generate Code";
               Click "Generate Code"; Click "Show Chat History"] in
  length (transcript (store (browse adder_server acts blank))) = 4
  /\ length (browse_sent adder_server acts blank) = 2
  /\ clicks acts = 3 /\ longest acts = 32.
Proof. vm_compute; auto. Qed.
