(* ===== verification/Interrupt.v ===== *)
(** * Interactions that stop a run

    A request takes the service seconds, everything else the script does
    takes the runtime next to nothing: when the user interacts with the
    page while a run is going on, the run is most likely at its request.
    The runtime then stops the run at its next Streamlit call, the title of
    the answer, and starts the run of the new interaction on what the
    stopped run has left.

    This file has the page a run leaves when it is stopped after its
    seventh Streamlit call, the button of the selected action
    ([stopped_run]), the sequences of interactions in which some runs are
    stopped in this way ([browse_timed]), and the invariant the pages keep
    then, which is weaker than that of [browse]: the transcript is a
    [conversation], in which a question can be without its answer.  The
    widgets of the page are drawn by then, so the runtime keeps their
    values as it does at the end of a run. *)

From stdpp Require Import gmap strings list.
From S2P Require Import Prelude PyStr Prompt Stream Chat Transcript Render World.
From S2P Require Import App Execution Stopped Runtime.

(** How the run of an interaction ends: it reaches its end, or the next
    interaction of the user stops it while it makes its request. *)
Inductive Timing : Type := Completes | Cut.

#[export] Instance timing_eq_dec : EqDecision Timing.
Proof. solve_decision. Defined.

Section Interrupt.
Context (srv : Server).
Implicit Types (p : Page) (i : Interaction) (x : Interaction * Timing).

(** The page a run leaves when it is stopped after the button of the
    selected action. *)
Definition stopped_run (i : Interaction) (p : Page) : Page :=
  let p1 := act i p in
  let w := fst (execute_until (host_of srv p1 i) 7 (store p1)) in
  let drawn := text_keys (shown (trace w)) in
  {| language_index := language_index p1; action_index := action_index p1;
     widget_keys := drawn;
     store := sweep (widget_keys p1) drawn (session_state w) |}.

(** The run of an interaction with its timing, and a sequence of them. *)
Definition run_timed (x : Interaction * Timing) (p : Page) : Page :=
  match x.2 with
  | Completes => rerun srv x.1 p
  | Cut => stopped_run x.1 p
  end.

Definition browse_timed (xs : list (Interaction * Timing)) (p : Page) : Page :=
  foldl (fun q x => run_timed x q) p xs.

(** The environment a run leaves to the process, stopped or not. *)
Definition environ_timed (x : Interaction * Timing) (p : Page) : gmap string string :=
  match x.2 with
  | Completes => environ_after srv x.1 p
  | Cut => env (fst (execute_until (host_of srv (act x.1 p) x.1) 7 (store (act x.1 p))))
  end.

(** The requests a run sends, stopped or not. *)
Definition sent_timed (x : Interaction * Timing) (p : Page) :
    list (Client * list Content * string) :=
  match x.2 with
  | Completes => page_sent srv x.1 p
  | Cut => sent_until (host_of srv (act x.1 p) x.1) 7 (store (act x.1 p))
  end.

(** The entry a stopped run adds to the transcript: the question, when
    the run has asked and the service has answered. *)
Definition asked_alone (i : Interaction) (p : Page) : list (string * string) :=
  if asks i p then
    match reply srv p with
    | Ok _ => [("You", page_text p)]
    | Raise _ => []
    end
  else [].

(** ** The stopped run *)

Lemma stopped_run_eq i p :
  stopped_run i p
  = {| language_index := language_index (act i p);
       action_index := action_index (act i p);
       widget_keys := text_keys (displayed_until (host_of srv (act i p) i) 7 (store (act i p)));
       store := sweep (widget_keys p)
                  (text_keys (displayed_until (host_of srv (act i p) i) 7 (store (act i p))))
                  (next_session_until (host_of srv (act i p) i) 7 (store (act i p))) |}.
Proof.
  unfold stopped_run, displayed_until, next_session_until; by rewrite act_keys.
Qed.

Lemma stopped_run_keys i p :
  page_ok p = true -> widget_keys (stopped_run i p) = [text_key (page_task (act i p))].
Proof.
  intros Hp; page_facts i p Hp.
  by rewrite stopped_run_eq; cbn [widget_keys]; rewrite displayed_until_request.
Qed.

Lemma stopped_run_transcript i p :
  page_ok p = true ->
  transcript (store (stopped_run i p)) = transcript (store p) ++ asked_alone i (act i p).
Proof.
  intros Hp; page_facts i p Hp.
  rewrite stopped_run_eq; cbn [store]; rewrite transcript_sweep by done.
  rewrite next_session_until_request by done; unfold exchange_made, asked_alone.
  rewrite task_of_host_of, submitted_host_of, the_prompt_host_of, answer_host_of.
  destruct (asks i (act i p)); [destruct (reply srv (act i p)) |];
    unfold asked_only;
    by rewrite ?transcript_insert, transcript_prepared, ?transcript_act, ?app_nil_r.
Qed.

Lemma stopped_run_ok i p : page_ok p = true -> page_ok (stopped_run i p) = true.
Proof.
  intros Hp; page_facts i p Hp.
  apply page_ok_iff; rewrite stopped_run_keys by done; split.
  - rewrite stopped_run_eq; cbn [store]; rewrite typed_sweep by done.
    rewrite next_session_until_request by done.
    destruct (exchange_made _) as [[q a]|]; unfold asked_only;
      auto using typed_insert, prepared_typed.
  - rewrite list_elem_of_singleton; intros H'.
    by apply (text_key_apart (page_task (act i p))).
Qed.

(** ** The conversation *)

Lemma asks_truthy i p : asks i p = true -> truthy (page_text p) = true.
Proof. destruct i; try done; by intros [_ ?]%andb_prop. Qed.

Lemma rerun_conversation i p :
  page_ok p = true -> conversation (transcript (store p)) = true ->
  conversation (transcript (store (rerun srv i p))) = true.
Proof.
  intros Hp Hc; rewrite rerun_transcript by done; unfold recorded, conversation.
  destruct (asks i (act i p)) eqn:Ha; [| by rewrite app_nil_r].
  destruct (reply srv (act i p)); [| by rewrite app_nil_r].
  by rewrite dialogue_snoc_exchange, (asks_truthy i _ Ha), andb_true_r.
Qed.

Lemma stopped_run_conversation i p :
  page_ok p = true -> conversation (transcript (store p)) = true ->
  conversation (transcript (store (stopped_run i p))) = true.
Proof.
  intros Hp Hc; rewrite stopped_run_transcript by done; unfold asked_alone, conversation.
  destruct (asks i (act i p)) eqn:Ha; [| by rewrite app_nil_r].
  destruct (reply srv (act i p)); [| by rewrite app_nil_r].
  by rewrite dialogue_snoc_question, (asks_truthy i _ Ha), andb_true_r.
Qed.

(** ** Sequences of interactions *)

Lemma run_timed_ok x p : page_ok p = true -> page_ok (run_timed x p) = true.
Proof. destruct x as [i []]; [apply rerun_ok | apply stopped_run_ok]. Qed.

Lemma run_timed_conversation x p :
  page_ok p = true -> conversation (transcript (store p)) = true ->
  conversation (transcript (store (run_timed x p))) = true.
Proof.
  destruct x as [i []]; [apply rerun_conversation | apply stopped_run_conversation].
Qed.

Lemma browse_timed_snoc (xs : list (Interaction * Timing)) x p :
  browse_timed (xs ++ [x]) p = run_timed x (browse_timed xs p).
Proof. unfold browse_timed; by rewrite foldl_snoc. Qed.

(** When every run reaches its end the sequence is one of [browse]. *)
Lemma browse_timed_completes (xs : list (Interaction * Timing)) p :
  Forall (fun x => x.2 = Completes) xs -> browse_timed xs p = browse srv xs.*1 p.
Proof.
  induction xs as [|[i c] xs IH] using rev_ind; [done |].
  intros [Hxs [Hx _]%Forall_cons]%Forall_app; cbn in Hx; subst c.
  rewrite fmap_app, browse_timed_snoc, IH by done.
  change ([(i, Completes)].*1) with [i]; by rewrite browse_snoc.
Qed.

Lemma browse_timed_ok (xs : list (Interaction * Timing)) p :
  page_ok p = true -> page_ok (browse_timed xs p) = true.
Proof.
  intros Hp; induction xs as [|x xs IH] using rev_ind; [done |].
  rewrite browse_timed_snoc; by apply run_timed_ok.
Qed.

Lemma browse_timed_conversation (xs : list (Interaction * Timing)) p :
  page_ok p = true -> conversation (transcript (store p)) = true ->
  conversation (transcript (store (browse_timed xs p))) = true.
Proof.
  intros Hp Hc; induction xs as [|x xs IH] using rev_ind; [done |].
  rewrite browse_timed_snoc; apply run_timed_conversation; [| done].
  by apply browse_timed_ok.
Qed.

(** C21: Every page the user can reach from the blank page, with runs
    that reach their end and runs that the next interaction stops while
    they make their request, is a page the runtime works on whose
    transcript is a conversation: questions of the user that are not
    empty, each followed by its answer or by nothing.  It is a sequence
    of exchanges when no run was stopped. *)
Theorem browse_timed_invariant (xs : list (Interaction * Timing)) :
  page_ok (browse_timed xs blank) = true
  /\ conversation (transcript (store (browse_timed xs blank))) = true
  /\ (Forall (fun x => x.2 = Completes) xs ->
      well_formed (transcript (store (browse_timed xs blank))) = true).
Proof.
  split; [by apply browse_timed_ok | split; [by apply browse_timed_conversation |]].
  intros Hxs; rewrite browse_timed_completes by done.
  by apply browse_well_formed.
Qed.

(** A run has called [load_dotenv()] when it is stopped at its request. *)
Lemma environ_timed_run x p :
  environ_timed x p = server_environ srv ∪ server_dotenv srv.
Proof.
  destruct x as [i []]; unfold environ_timed; cbn [fst snd];
    [apply environ_after_run | apply (execute_until_env (host_of srv (act i p) i))].
Qed.

(** A run that is stopped at its request has sent it. *)
Lemma sent_timed_run x p : page_ok p = true -> sent_timed x p = page_sent srv x.1 p.
Proof.
  intros Hp; destruct x as [i []]; unfold sent_timed, page_sent; cbn [fst snd];
    [reflexivity |].
  page_facts i p Hp; by rewrite sent_until_run.
Qed.

End Interrupt.

(** ** Servers that are the same to the script *)

Lemma exchange_made_service (srv srv' : Server) (i : Interaction) (p : Page) :
  same_service srv srv' ->
  exchange_made (host_of srv p i) = exchange_made (host_of srv' p i).
Proof.
  intros Hs; unfold exchange_made.
  rewrite !task_of_host_of, !submitted_host_of, !the_prompt_host_of, !answer_host_of.
  by rewrite Hs.
Qed.

(** A stopped run is the same on two such servers, and so is a run with
    its timing. *)
Lemma stopped_run_service (srv srv' : Server) (i : Interaction) (p : Page) :
  same_service srv srv' -> page_ok p = true -> stopped_run srv i p = stopped_run srv' i p.
Proof.
  intros Hs Hp; page_facts i p Hp.
  rewrite !stopped_run_eq, !displayed_until_request, !next_session_until_request by done.
  by rewrite (exchange_made_service srv srv').
Qed.

Lemma sent_timed_service (srv srv' : Server) (x : Interaction * Timing) (p : Page) :
  same_service srv srv' -> page_ok p = true -> sent_timed srv x p = sent_timed srv' x p.
Proof. intros Hs Hp; rewrite !sent_timed_run by done; by apply page_sent_service. Qed.

Lemma run_timed_service (srv srv' : Server) (x : Interaction * Timing) (p : Page) :
  same_service srv srv' -> page_ok p = true -> run_timed srv x p = run_timed srv' x p.
Proof.
  destruct x as [i []]; [apply rerun_service | apply stopped_run_service].
Qed.

(** The user asks for a function and, while the answer is on its way,
    clicks on the button of the transcript: the question is in the
    transcript, the answer is not, and it is no sequence of exchanges. *)
Definition impatient : list (Interaction * Timing) :=
  [(Open, Completes); (Enter "a function that adds two numbers", Completes);
   (Click "Generate Code", Cut); (Click "Show Chat History", Completes)].

Example impatient_run :
  transcript (store (browse_timed adder_server impatient blank))
  = [("You", "a function that adds two numbers")]
  /\ well_formed (transcript (store (browse_timed adder_server impatient blank))) = false
  /\ last (page_shown adder_server (Click "Show Chat History")
             (browse_timed adder_server (take 3 impatient) blank))
     = Some (Write "You: a function that adds two numbers").
Proof. by vm_compute. Qed.
