(* ===== verification/Runner.v ===== *)
(** * The runs a process serves

    A Streamlit process runs the script for the sessions that are open,
    one run for every interaction.  What the process relies on is little,
    and it is the same whether the runs reach their end ([rerun]) or can
    be stopped by the next interaction ([run_timed]): a run takes a page
    the runtime works on to such a page, the page it leaves and the
    requests it sends depend on the server only by the service and the
    client the script makes, and it leaves the environment
    [load_dotenv()] has made.

    This file states that interface ([Runner]) and shows that both kinds
    of run provide it ([completed_runs], [timed_runs]).  The process of
    [Process.v] is written against the interface, and its theorems on the
    isolation of sessions and on the credential hold for both. *)

From stdpp Require Import gmap strings list.
From S2P Require Import Prelude PyStr Prompt Stream Chat Transcript Render World.
From S2P Require Import App Execution Stopped Runtime Bounds Interrupt.

(** A request: the client, the history of the chat and the prompt. *)
Abbreviation Sent := (Client * list Content * string)%type.

(** The runs started by the interactions [I]: the page and the
    environment a run leaves and the requests it sends, and what the
    process is promised. *)
Class Runner (I : Type) : Type := {
  run : Server -> I -> Page -> Page;
  run_sent : Server -> I -> Page -> list Sent;
  run_environ : Server -> I -> Page -> gmap string string;
  run_ok : forall srv i p, page_ok p = true -> page_ok (run srv i p) = true;
  run_service : forall srv srv' i p,
    same_service srv srv' -> page_ok p = true -> run srv i p = run srv' i p;
  run_sent_service : forall srv srv' i p,
    same_service srv srv' -> page_ok p = true -> run_sent srv i p = run_sent srv' i p;
  run_environ_loaded : forall srv i p,
    run_environ srv i p = server_environ srv ∪ server_dotenv srv
}.

(** The runs that reach their end. *)
#[export] Instance completed_runs : Runner Interaction :=
  {| run := rerun; run_sent := page_sent; run_environ := environ_after;
     run_ok := rerun_ok; run_service := rerun_service;
     run_sent_service := page_sent_service;
     run_environ_loaded := environ_after_run |}.

(** The runs that reach their end or are stopped at their request. *)
#[export] Instance timed_runs : Runner (Interaction * Timing) :=
  {| run := run_timed; run_sent := sent_timed; run_environ := environ_timed;
     run_ok := run_timed_ok; run_service := run_timed_service;
     run_sent_service := sent_timed_service;
     run_environ_loaded := environ_timed_run |}.

(** ** The runs of one session *)

Section Runner.
Context {I : Type} `{!Runner I}.
Implicit Types (srv : Server) (i : I) (acts : list I) (p : Page).

(** The page a sequence of interactions leads to. *)
Definition session_run srv acts p : Page := foldl (fun q i => run srv i q) p acts.

(** The requests its runs send, in order. *)
Fixpoint session_sent srv acts p : list Sent :=
  match acts with
  | [] => []
  | i :: acts => run_sent srv i p ++ session_sent srv acts (run srv i p)
  end.

Lemma session_run_snoc srv acts i p :
  session_run srv (acts ++ [i]) p = run srv i (session_run srv acts p).
Proof. unfold session_run; by rewrite foldl_snoc. Qed.

Lemma session_run_ok srv acts p :
  page_ok p = true -> page_ok (session_run srv acts p) = true.
Proof.
  intros Hp; induction acts as [|i acts IH] using rev_ind; [done |].
  rewrite session_run_snoc; by apply run_ok.
Qed.

(** The sessions of two servers that are the same to the script are the
    same. *)
Lemma session_run_service srv srv' acts p :
  same_service srv srv' -> page_ok p = true ->
  session_run srv acts p = session_run srv' acts p.
Proof.
  intros Hs Hp; induction acts as [|i acts IH] using rev_ind; [done |].
  rewrite !session_run_snoc, IH; apply run_service; [done |].
  by apply session_run_ok.
Qed.

End Runner.

(** For the two kinds of run these are the sequences of [Runtime.v] and
    of [Interrupt.v]. *)
Lemma session_run_completed (srv : Server) (acts : list Interaction) (p : Page) :
  session_run srv acts p = browse srv acts p.
Proof. reflexivity. Qed.

Lemma session_run_timed (srv : Server) (xs : list (Interaction * Timing)) (p : Page) :
  session_run srv xs p = browse_timed srv xs p.
Proof. reflexivity. Qed.

Lemma session_sent_completed (srv : Server) (acts : list Interaction) (p : Page) :
  session_sent srv acts p = browse_sent srv acts p.
Proof. revert p; induction acts as [|i acts IH]; intros p; cbn; [done | by rewrite IH]. Qed.

(** With runs that can be stopped, too, a session sends no more requests
    than it has clicks. *)
Lemma session_sent_timed_clicks (srv : Server) (xs : list (Interaction * Timing))
    (p : Page) :
  page_ok p = true -> length (session_sent srv xs p) <= clicks xs.*1.
Proof.
  revert p; induction xs as [|[i c] xs IH]; intros p Hp; [done |].
  cbn [session_sent fmap list_fmap fst]; rewrite length_app.
  change (i :: xs.*1) with ([i] ++ xs.*1); rewrite clicks_app.
  cbn [run_sent run timed_runs]; rewrite sent_timed_run by done; cbn [fst].
  pose proof (proj2 (rerun_bounds srv i p Hp)).
  specialize (IH (run_timed srv (i, c) p) (run_timed_ok srv (i, c) p Hp)); lia.
Qed.
