(* ===== verification/Config.v ===== *)
(** * Configuration: a process without a credential

    The script reads [GOOGLE_API_KEY] at the top of every run (app.py
    10-11) and gives what it finds to the client (app.py 14), also when it
    finds nothing: no statement of the script looks at the credential.
    What happens then is up to the service.  Against a service that
    refuses the clients without a credential ([rejects_anonymous]) the
    page is displayed as usual, and it is the request of a click that
    fails, with the error of the service; nothing is written to the
    transcript, however often the user tries. *)

From stdpp Require Import gmap strings list.
From S2P Require Import Prelude PyStr Prompt Stream Chat Transcript Render World.
From S2P Require Import App Execution Runtime.

(** A service that refuses the clients without a credential. *)
Definition rejects_anonymous (svc : Service) : Prop :=
  forall c h p, api_key c = None -> exists m, svc c h p = Raise (UpstreamError m).

Lemma echo_service_rejects : rejects_anonymous echo_service.
Proof. intros c h p Hc; unfold echo_service; rewrite Hc; eauto. Qed.

Lemma unreachable_service_rejects : rejects_anonymous unreachable_service.
Proof. intros c h p _; unfold unreachable_service; eauto. Qed.

(** ** One execution *)

Section Execution.
Context (host : Host).
Hypothesis Hkey : credential host = None.
Hypothesis Hsvc : rejects_anonymous (service host).
Implicit Types ss : session.

Lemma answer_anonymous (p : string) :
  exists m, answer host (fresh_chat host) p = Raise (UpstreamError m).
Proof.
  destruct (Hsvc (the_client host) [] p Hkey) as [m Hm].
  exists m; by apply answer_refused.
Qed.

Lemma exchange_made_anonymous : exchange_made host = None.
Proof.
  unfold exchange_made; destruct (submitted host _); [|done].
  by destruct (answer_anonymous (the_prompt host)) as [m ->].
Qed.

(** The execution without a credential: the page is displayed, and a
    request is sent and refused. *)
Lemma anonymous_run ss :
  typed ss = true ->
  transcript (next_session host ss) = transcript ss
  /\ sent host ss
     = (if submitted host (task_of host)
        then [(GenerativeModel None "gemini-pro", [], the_prompt host)] else [])
  /\ (if submitted host (task_of host)
      then exists m, outcome host ss = Raise (UpstreamError m)
      else outcome host ss = Ok ())
  /\ displayed host ss
     = top_commands ++ section_commands (task_of host) (language_of host)
       ++ (if submitted host (task_of host) then []
           else history_commands host (next_session host ss)).
Proof.
  intros Ht.
  rewrite transcript_next, exchange_made_anonymous, app_nil_r by done.
  rewrite sent_run, outcome_run, displayed_run by done.
  unfold the_client; rewrite Hkey.
  destruct (answer_anonymous (the_prompt host)) as [m ->].
  destruct (submitted host _); eauto.
Qed.

End Execution.

(** ** The sessions of a server without a credential *)

Section Anonymous.
Context (srv : Server).
Hypothesis Hkey : api_key (server_client srv) = None.
Hypothesis Hsvc : rejects_anonymous (endpoint srv).
Implicit Types (p : Page) (i : Interaction) (acts : list Interaction).

Lemma recorded_anonymous i p : recorded srv i p = [].
Proof.
  unfold recorded, reply; destruct (asks i p); [|done].
  by destruct (Hsvc (server_client srv) [] (page_prompt p) Hkey) as [m ->].
Qed.

Lemma browse_anonymous acts p :
  page_ok p = true -> transcript (store (browse srv acts p)) = transcript (store p).
Proof.
  intros Hp; induction acts as [|i acts IH] using rev_ind; [done |].
  rewrite browse_snoc, rerun_transcript by (by apply browse_ok).
  by rewrite recorded_anonymous, app_nil_r.
Qed.

(** What the run of an interaction sends and raises. *)
Lemma rerun_anonymous i p :
  page_ok p = true ->
  page_sent srv i p
  = (if asks i (act i p)
     then [(GenerativeModel None "gemini-pro", [], page_prompt (act i p))] else [])
  /\ (if asks i (act i p)
      then exists m, page_outcome srv i p = Raise (UpstreamError m)
      else page_outcome srv i p = Ok ()).
Proof.
  intros Hp; rewrite page_sent_run, page_outcome_run by done; unfold reply.
  destruct (Hsvc (server_client srv) [] (page_prompt (act i p)) Hkey) as [m ->].
  replace (server_client srv) with (GenerativeModel None "gemini-pro")
    by (by unfold server_client in *; cbn in Hkey; rewrite Hkey).
  destruct (asks i (act i p)); eauto.
Qed.

End Anonymous.

(** C29: A missing credential surfaces when it is used, not when the
    process starts or the page is opened.  On a server that has no
    [GOOGLE_API_KEY], in its environment or in its [.env] file, against a
    service that refuses the clients without a credential: whatever the
    user has done before, an interaction that makes no request runs to its
    end without an error; a click that makes a request sends it with a
    client that has no credential and raises the error of the service;
    and the transcript stays empty. *)
Theorem missing_credential_on_use (srv : Server) (acts : list Interaction)
    (i : Interaction) :
  api_key (server_client srv) = None -> rejects_anonymous (endpoint srv) ->
  let p := browse srv acts blank in
  transcript (store p) = []
  /\ page_sent srv i p
     = (if asks i (act i p)
        then [(GenerativeModel None "gemini-pro", [], page_prompt (act i p))] else [])
  /\ (if asks i (act i p)
      then exists m, page_outcome srv i p = Raise (UpstreamError m)
      else page_outcome srv i p = Ok ()).
Proof.
  intros Hkey Hsvc p; assert (page_ok p = true) as Hp by apply browse_ok, blank_ok.
  split; [by apply browse_anonymous | by apply rerun_anonymous].
Qed.

(** ** On concrete inputs *)

(** A server without a credential whose service asks for one. *)
Definition anonymous_server : Server :=
  {| server_environ := ∅; server_dotenv := ∅; endpoint := echo_service |}.

Lemma missing_credential_on_use_witness :
  let p := browse anonymous_server typing blank in
  transcript (store p) = []
  /\ page_sent anonymous_server (Click "Generate Code") p
     = (if asks (Click "Generate Code") (act (Click "Generate Code") p)
        then [(GenerativeModel None "gemini-pro", [],
               page_prompt (act (Click "Generate Code") p))]
        else [])
  /\ (if asks (Click "Generate Code") (act (Click "Generate Code") p)
      then exists m,
          page_outcome anonymous_server (Click "Generate Code") p = Raise (UpstreamError m)
      else page_outcome anonymous_server (Click "Generate Code") p = Ok ()).
Proof.
  apply (missing_credential_on_use anonymous_server typing (Click "Generate Code")
           eq_refl echo_service_rejects).
Defined.

(** The click asks, and the error is that of the service. *)
Example anonymous_click :
  let p := browse anonymous_server typing blank in
  asks (Click "Generate Code") (act (Click "Generate Code") p) = true
  /\ page_outcome anonymous_server (Click "Generate Code") p
     = Raise (UpstreamError "no credential").
Proof. by vm_compute. Qed.
