(* ===== verification/Process.v ===== *)
(** * The server process and its sessions

    One Streamlit process serves every browser that has the page open.
    Each browser has a session of its own: its widgets and its session
    dictionary, a [Page].  The script runs in the process for one session
    at a time; what is bound at the top of the script ([model], [chat]) is
    bound again in every run, and what the script changes outside of it is
    shared by all sessions: [load_dotenv()] (app.py 10) adds the variables
    of the [.env] file to [os.environ], the environment of the process,
    where they stay.

    This file has the process ([Process]), what happens in it ([Step]: a
    session interacts, a browser leaves, the [.env] file is edited), the
    processes a start can lead to ([served]), and the theorems on them:
    the invariant of every session, that a session sees nothing of the
    others, and when the credential is read.  The process is written
    against the interface of [Runner.v]: what holds of every kind of run
    is proved once ([Section Serving]), and then stated for the runs that
    reach their end ([Section Completed]) and for the runs the next
    interaction can stop ([Section Timed]).  The sessions and their
    scheduling are not code of the repository: they are modelled from the
    documented behaviour of Streamlit. *)

From stdpp Require Import gmap strings list.
From S2P Require Import Prelude PyStr Prompt Stream Chat Transcript Render World.
From S2P Require Import App Execution Stopped Runtime Bounds Interrupt Runner.

(** The process: its environment, the [.env] file in its directory, and
    the page of every session that is open. *)
Record Process : Type := mkProcess {
  process_environ : gmap string string;
  process_dotenv : gmap string string;
  pages : gmap nat Page
}.

(** What happens in a process: the user of a session interacts with the
    page, the browser of a session leaves, the [.env] file is edited. *)
Inductive Step (I : Type) : Type :=
| Visit (sid : nat) (i : I)
| Leave (sid : nat)
| Edit (d : gmap string string).

Arguments Visit {I} sid i.
Arguments Leave {I} sid.
Arguments Edit {I} d.

#[export] Instance step_eq_dec {I : Type} `{!EqDecision I} : EqDecision (Step I).
Proof. solve_decision. Defined.

Section Process.
Context (svc : Service) {I : Type} `{!Runner I}.
Implicit Types (c : Process) (sid : nat) (i : I) (p : Page).
Implicit Types (s : Step I) (steps : list (Step I)).

(** The process as the server of one run. *)
Definition server_of c : Server :=
  {| server_environ := process_environ c; server_dotenv := process_dotenv c;
     endpoint := svc |}.

(** The page of a session: the blank page when the session is new. *)
Definition page_of c sid : Page := default blank (pages c !! sid).

(** One run of the script for the session [sid]: the page of the session
    is replaced, and the environment of the process is the one the run
    leaves. *)
Definition visit sid i c : Process :=
  {| process_environ := run_environ (server_of c) i (page_of c sid);
     process_dotenv := process_dotenv c;
     pages := <[sid := run (server_of c) i (page_of c sid)]> (pages c) |}.

Definition step c s : Process :=
  match s with
  | Visit sid i => visit sid i c
  | Leave sid =>
      {| process_environ := process_environ c; process_dotenv := process_dotenv c;
         pages := delete sid (pages c) |}
  | Edit d =>
      {| process_environ := process_environ c; process_dotenv := d;
         pages := pages c |}
  end.

(** The process when it starts, and after a sequence of steps. *)
Definition start (e d : gmap string string) : Process :=
  {| process_environ := e; process_dotenv := d; pages := ∅ |}.

Definition serve steps c : Process := foldl step c steps.

(** The processes a start leads to. *)
Inductive served (e d : gmap string string) : Process -> Prop :=
| served_start : served e d (start e d)
| served_step c s : served e d c -> served e d (step c s).

(** One session alone: what the steps of a process do to the page of
    the session [sid] when the server is [srv] all along.  [None] is a
    session that is not open. *)
Definition track (srv : Server) sid (op : option Page) s : option Page :=
  match s with
  | Visit k i => if decide (k = sid) then Some (run srv i (default blank op)) else op
  | Leave k => if decide (k = sid) then None else op
  | Edit _ => op
  end.

Definition alone (srv : Server) sid steps : option Page :=
  foldl (track srv sid) None steps.

(** The requests the process sends for the session [sid] in a sequence
    of steps. *)
Fixpoint serve_sent sid steps c : list Sent :=
  match steps with
  | [] => []
  | s :: steps =>
      match s with
      | Visit k i =>
          if decide (k = sid) then run_sent (server_of c) i (page_of c sid) else []
      | _ => []
      end ++ serve_sent sid steps (step c s)
  end.

(** The credential of a process: what the next run gives the client. *)
Definition process_credential c : option string :=
  (process_environ c ∪ process_dotenv c) !! "GOOGLE_API_KEY".

(** The session a step is of. *)
Definition session_of s : option nat :=
  match s with
  | Visit k _ | Leave k => Some k
  | Edit _ => None
  end.

(** The steps of one session among the steps of a process. *)
Definition project sid steps : list (Step I) :=
  filter (fun s => session_of s = Some sid) steps.

(** A step that leaves the credential of the [.env] file [d] as it is. *)
Definition keeps_credential (d : gmap string string) s : Prop :=
  match s with
  | Edit d' => d' !! "GOOGLE_API_KEY" = d !! "GOOGLE_API_KEY"
  | _ => True
  end.

(** The steps under which the credential of a process started on [e] and
    [d] cannot change: the process was started with a credential, or no
    edit of the [.env] file touches the credential. *)
Definition steady (e d : gmap string string) steps : Prop :=
  is_Some (e !! "GOOGLE_API_KEY") \/ Forall (keeps_credential d) steps.

(** The invariants of a process: a property of every open page.  Every
    page is one the runtime works on ([pages_ok]); when the runs reach
    their end it has been run and has a transcript of exchanges
    ([process_ok]); when runs can be stopped its transcript is a
    conversation ([process_conversing]). *)
Definition every_page (P : Page -> Prop) c : Prop :=
  forall sid p, pages c !! sid = Some p -> P p.

Definition pages_ok : Process -> Prop := every_page (fun p => page_ok p = true).

Definition process_ok : Process -> Prop :=
  every_page (fun p =>
    page_ok p = true /\ settled p /\ well_formed (transcript (store p)) = true).

Definition process_conversing : Process -> Prop :=
  every_page (fun p => page_ok p = true /\ conversation (transcript (store p)) = true).

End Process.

(** ** The environment of the process *)

(** A lookup in the environment after [load_dotenv()]: the variable of
    the process when it has one, that of the file otherwise. *)
Definition first_of {A} (a b : option A) : option A :=
  match a with Some _ => a | None => b end.

Lemma lookup_union_first (m1 m2 : gmap string string) (k : string) :
  (m1 ∪ m2) !! k = first_of (m1 !! k) (m2 !! k).
Proof. rewrite lookup_union; by destruct (m1 !! k), (m2 !! k). Qed.

Lemma first_of_idemp {A} (a b : option A) : first_of (first_of a b) b = first_of a b.
Proof. by destruct a, b. Qed.

(** ** The steps of a process, whatever the runs *)

Section Serving.
Context (svc : Service) {I : Type} `{!Runner I}.
Implicit Types (c : Process) (sid : nat) (i : I) (p : Page) (P : Page -> Prop).
Implicit Types (s : Step I) (steps : list (Step I)) (e d : gmap string string).

Lemma serve_snoc steps s c : serve svc (steps ++ [s]) c = step svc (serve svc steps c) s.
Proof. apply foldl_snoc. Qed.

Lemma served_serve e d steps : served svc e d (serve svc steps (start e d)).
Proof.
  induction steps as [|s steps IH] using rev_ind; [constructor |].
  rewrite serve_snoc; by constructor.
Qed.

Lemma served_inv e d c :
  served svc e d c -> exists steps, c = serve svc steps (start e d).
Proof.
  induction 1 as [|c s _ [steps ->]]; [by exists [] |].
  exists (steps ++ [s]); by rewrite serve_snoc.
Qed.

(** *** The pages *)

(** A property of every page that the runs keep is kept by the steps. *)
Lemma step_every_page P c s :
  (forall sid i, P (run (server_of svc c) i (page_of c sid))) ->
  every_page P c -> every_page P (step svc c s).
Proof.
  intros Hrun Hc; destruct s as [k i | k | d']; [| | exact Hc];
    intros sid p; unfold step, visit; cbn [pages].
  - intros [[<- <-] | [_ Hin]]%lookup_insert_Some; [apply Hrun | by apply (Hc sid)].
  - intros [_ Hin]%lookup_delete_Some; by apply (Hc sid).
Qed.

Lemma serve_every_page P steps c :
  (forall c s, every_page P c -> every_page P (step svc c s)) ->
  every_page P c -> every_page P (serve svc steps c).
Proof.
  intros Hstep Hc; induction steps as [|s steps IH] using rev_ind; [done |].
  rewrite serve_snoc; by apply Hstep.
Qed.

Lemma start_every_page P e d : every_page P (start e d).
Proof. intros sid p Hp; cbn in Hp; by rewrite lookup_empty in Hp. Qed.

Lemma page_of_every P c sid : P blank -> every_page P c -> P (page_of c sid).
Proof.
  intros Hb Hc; unfold page_of; destruct (pages c !! sid) as [p|] eqn:Hp; cbn;
    [by apply (Hc sid) | done].
Qed.

Lemma page_of_pages_ok c sid : pages_ok c -> page_ok (page_of c sid) = true.
Proof. apply (page_of_every (fun p => page_ok p = true)), blank_ok. Qed.

Lemma step_pages_ok c s : pages_ok c -> pages_ok (step svc c s).
Proof.
  intros Hc; apply step_every_page; [| done].
  intros sid i; by apply run_ok, page_of_pages_ok.
Qed.

Lemma serve_pages_ok steps e d : pages_ok (serve svc steps (start e d)).
Proof.
  apply serve_every_page; [apply step_pages_ok | apply start_every_page].
Qed.

(** *** The environment and the credential *)

Lemma visit_environ sid i c :
  process_environ (visit svc sid i c) = process_environ c ∪ process_dotenv c.
Proof. unfold visit; cbn [process_environ]; by rewrite run_environ_loaded. Qed.

Lemma step_environ_grows c s : process_environ c ⊆ process_environ (step svc c s).
Proof.
  destruct s; [| done ..]; cbn [step]; rewrite visit_environ.
  apply map_union_subseteq_l.
Qed.

Lemma served_environ e d c : served svc e d c -> e ⊆ process_environ c.
Proof.
  induction 1 as [|c s _ He]; [done |].
  etrans; [exact He | apply step_environ_grows].
Qed.

Lemma process_credential_first c :
  process_credential c
  = first_of (process_environ c !! "GOOGLE_API_KEY") (process_dotenv c !! "GOOGLE_API_KEY").
Proof. apply lookup_union_first. Qed.

(** A run does not change the credential of the runs after it. *)
Lemma visit_credential sid i c :
  process_credential (visit svc sid i c) = process_credential c.
Proof.
  rewrite !process_credential_first, visit_environ, lookup_union_first.
  apply first_of_idemp.
Qed.

(** A variable the process has is there after any steps. *)
Lemma serve_environ_key steps c (k : string) (v : string) :
  process_environ c !! k = Some v -> process_environ (serve svc steps c) !! k = Some v.
Proof.
  intros Hk; induction steps as [|s steps IH] using rev_ind; [done |].
  rewrite serve_snoc; by eapply lookup_weaken, step_environ_grows.
Qed.

Lemma serve_dotenv_key steps e d :
  Forall (keeps_credential d) steps ->
  process_dotenv (serve svc steps (start e d)) !! "GOOGLE_API_KEY"
  = d !! "GOOGLE_API_KEY"
  /\ process_credential (serve svc steps (start e d)) = (e ∪ d) !! "GOOGLE_API_KEY".
Proof.
  induction steps as [|s steps IH] using rev_ind; [done |].
  intros [Hsteps [Hs _]%Forall_cons]%Forall_app; destruct (IH Hsteps) as [Hd Hc].
  rewrite serve_snoc; destruct s as [k i | k | d']; cbn [step];
    [by rewrite visit_credential | done |].
  split; [done |]; rewrite process_credential_first in *.
  cbn [process_environ process_dotenv]; by rewrite Hs, <- Hd.
Qed.

(** Under steady steps the credential is the one of the start. *)
Lemma serve_credential steps e d :
  steady e d steps ->
  process_credential (serve svc steps (start e d)) = (e ∪ d) !! "GOOGLE_API_KEY".
Proof.
  intros [[v Hv] | Hsteps]; [| by apply serve_dotenv_key].
  rewrite process_credential_first, lookup_union_first.
  by rewrite (serve_environ_key steps (start e d) _ v), Hv.
Qed.

Lemma serve_same_service steps e d :
  steady e d steps ->
  same_service (server_of svc (serve svc steps (start e d))) (mkServer e d svc).
Proof.
  intros Hs; split; [done |]; unfold server_client; cbn [server_environ server_dotenv server_of].
  by rewrite <- (serve_credential steps e d Hs).
Qed.

Lemma steady_app e d steps steps' : steady e d (steps ++ steps') -> steady e d steps.
Proof. intros [? | [? _]%Forall_app]; [by left | by right]. Qed.

(** *** One session among the others *)

Lemma alone_snoc (srv : Server) sid steps s :
  alone srv sid (steps ++ [s]) = track srv sid (alone srv sid steps) s.
Proof. apply foldl_snoc. Qed.

(** The page of a session is the page the session has alone. *)
Lemma session_alone e d steps sid :
  steady e d steps ->
  pages (serve svc steps (start e d)) !! sid = alone (mkServer e d svc) sid steps.
Proof.
  induction steps as [|s steps IH] using rev_ind; intros Hs; [done |].
  pose proof (steady_app _ _ _ _ Hs) as Hsteps; specialize (IH Hsteps).
  rewrite serve_snoc, alone_snoc.
  destruct s as [k i | k | d']; cbn [step track visit pages]; [| | done].
  - destruct (decide (k = sid)) as [-> | Hne]; [| by rewrite lookup_insert_ne].
    rewrite lookup_insert_eq; unfold page_of; rewrite IH; f_equal.
    apply run_service; [by apply serve_same_service |]; rewrite <- IH.
    apply (page_of_pages_ok (serve svc steps (start e d)) sid), serve_pages_ok.
  - destruct (decide (k = sid)) as [-> | Hne];
      [apply lookup_delete_eq | by rewrite lookup_delete_ne].
Qed.

Lemma track_other (srv : Server) sid (op : option Page) s :
  session_of s ≠ Some sid -> track srv sid op s = op.
Proof. destruct s; cbn; try done; intros Hk; case_decide; congruence. Qed.

(** Only the steps of a session count for it. *)
Lemma alone_project (srv : Server) sid steps (op : option Page) :
  foldl (track srv sid) op (project sid steps) = foldl (track srv sid) op steps.
Proof.
  revert op; induction steps as [|s steps IH]; intros op; [done |].
  unfold project; rewrite filter_cons; case_decide; cbn [foldl];
    [| rewrite track_other by done]; apply IH.
Qed.

(** A session that only interacts has the page its interactions lead
    to. *)
Lemma alone_visits (srv : Server) sid (acts : list I) :
  alone srv sid (map (Visit sid) acts)
  = if acts is [] then None else Some (session_run srv acts blank).
Proof.
  induction acts as [|i acts IH] using rev_ind; [done |].
  rewrite map_app; cbn [map]; rewrite alone_snoc, IH, session_run_snoc.
  cbn [track]; rewrite decide_True by done.
  by destruct acts.
Qed.

(** The page of a session after a step of another session, or of none. *)
Lemma page_of_other c sid s :
  session_of s ≠ Some sid -> page_of (step svc c s) sid = page_of c sid.
Proof.
  destruct s as [k i | k | d']; cbn [session_of]; intros Hk; unfold page_of;
    cbn [step visit pages]; [| | done].
  - rewrite lookup_insert_ne; [done | congruence].
  - rewrite lookup_delete_ne; [done | congruence].
Qed.

(** The requests of a session that only interacts are the requests of
    its interactions, from the page it has. *)
Lemma serve_sent_alone e d sid steps : forall pre (acts : list I),
  steady e d (pre ++ steps) ->
  project sid steps = map (Visit sid) acts ->
  let c := serve svc pre (start e d) in
  serve_sent svc sid steps c = session_sent (mkServer e d svc) acts (page_of c sid).
Proof.
  induction steps as [|s steps IH]; intros pre acts Hs Hacts c;
    [by destruct acts |].
  assert (same_service (server_of svc c) (mkServer e d svc)) as Hsrv
    by (by eapply serve_same_service, steady_app).
  assert (page_ok (page_of c sid) = true) as Hp
    by apply page_of_pages_ok, serve_pages_ok.
  specialize (IH (pre ++ [s])); rewrite <- app_assoc, serve_snoc in IH; fold c in IH.
  unfold project in Hacts; rewrite filter_cons in Hacts; cbn [serve_sent].
  case_decide as Hk.
  - destruct s as [k i | k | d'], acts as [|j acts]; simplify_eq/=.
    rewrite decide_True, (run_sent_service _ _ _ _ Hsrv Hp) by done; f_equal.
    rewrite (IH acts) by done; f_equal.
    unfold page_of, visit; cbn [pages]; rewrite lookup_insert_eq; cbn.
    by apply run_service.
  - rewrite (IH acts), page_of_other by done.
    destruct s as [k i | k | d']; [| done ..].
    rewrite decide_False; [done | by intros ->].
Qed.

(** The sessions of a process are isolated, whatever the runs. *)
Lemma isolated e d steps sid :
  steady e d steps ->
  pages (serve svc steps (start e d)) !! sid
  = alone (mkServer e d svc) sid (project sid steps)
  /\ (forall acts : list I,
        project sid steps = map (Visit sid) acts ->
        serve_sent svc sid steps (start e d)
        = session_sent (mkServer e d svc) acts blank
        /\ (acts ≠ [] ->
            pages (serve svc steps (start e d)) !! sid
            = Some (session_run (mkServer e d svc) acts blank))).
Proof.
  intros Hs; rewrite session_alone by done.
  assert (alone (mkServer e d svc) sid steps
          = alone (mkServer e d svc) sid (project sid steps)) as ->
    by (unfold alone; by rewrite alone_project).
  split; [done |]; intros acts Hacts; split.
  - by apply (serve_sent_alone e d sid steps []).
  - intros Hne; rewrite Hacts, alone_visits; by destruct acts.
Qed.

End Serving.

(** ** Runs that reach their end *)

Section Completed.
Context (svc : Service).
Implicit Types (c : Process) (sid : nat) (i : Interaction) (p : Page).
Implicit Types (s : Step Interaction) (steps : list (Step Interaction)).
Implicit Types (e d : gmap string string).

Lemma page_of_ok c sid :
  process_ok c ->
  page_ok (page_of c sid) = true
  /\ well_formed (transcript (store (page_of c sid))) = true
  /\ (forall i, known i (page_of c sid)).
Proof.
  intros Hc; unfold page_of; destruct (pages c !! sid) as [p|] eqn:Hp; cbn.
  - destruct (Hc sid p Hp) as (? & ? & ?); auto using known_settled.
  - split; [apply blank_ok |]; split; [done | apply known_blank].
Qed.

Lemma step_ok c s : process_ok c -> process_ok (step svc c s).
Proof.
  intros Hc; apply step_every_page; [| done]; intros sid i.
  destruct (page_of_ok c sid Hc) as (Hp & Hwf & Hknown); cbn [run completed_runs].
  auto using rerun_ok, rerun_settled, rerun_well_formed.
Qed.

Lemma serve_ok steps e d : process_ok (serve svc steps (start e d)).
Proof. apply serve_every_page; [apply step_ok | apply start_every_page]. Qed.

(** A reload of the page in the browser: the session ends and a new one
    starts on the blank page, with an empty transcript.  This is the only
    way a transcript is emptied. *)
Lemma reload_starts_anew c sid :
  let c' := step svc (step svc c (Leave sid)) (Visit sid Open) in
  page_of c' sid = rerun (server_of svc c) Open blank
  /\ transcript (store (page_of c' sid)) = [].
Proof.
  cbv zeta.
  assert (page_of (step svc (step svc c (Leave sid)) (Visit sid Open)) sid
          = rerun (server_of svc c) Open blank) as ->.
  { unfold page_of at 1; unfold step, visit; cbn [pages].
    rewrite lookup_insert_eq; unfold page_of; cbn [pages].
    by rewrite lookup_delete_eq. }
  split; [done | by rewrite rerun_transcript by apply blank_ok].
Qed.

(** C24: The sessions of a process are isolated: as long as the
    credential cannot change, the page of a session after any steps of the
    process is the page the steps of that session alone lead to on the
    server of the start, whatever the other sessions have done in between;
    for a session that has only interacted, the requests the process has
    sent for it are the requests of its interactions alone, and its page
    is the page its interactions lead to from the blank page. *)
Theorem sessions_isolated e d steps sid :
  steady e d steps ->
  pages (serve svc steps (start e d)) !! sid
  = alone (mkServer e d svc) sid (project sid steps)
  /\ (forall acts : list Interaction,
        project sid steps = map (Visit sid) acts ->
        serve_sent svc sid steps (start e d) = browse_sent (mkServer e d svc) acts blank
        /\ (acts ≠ [] ->
            pages (serve svc steps (start e d)) !! sid
            = Some (browse (mkServer e d svc) acts blank))).
Proof.
  intros Hs; destruct (isolated svc e d steps sid Hs) as [Hpage Hacts].
  split; [done |]; intros acts Hp; rewrite <- session_sent_completed.
  by apply Hacts.
Qed.

(** C31: Every process a start leads to keeps its invariant: every open
    page is one the runtime works on, has been run, and has a transcript
    of exchanges; and the environment of the process has every variable
    it was started with, with its value. *)
Theorem served_process_ok e d c :
  served (I := Interaction) svc e d c -> process_ok c /\ e ⊆ process_environ c.
Proof.
  intros Hc; split; [| exact (served_environ svc e d c Hc)].
  apply served_inv in Hc as [steps ->]; apply serve_ok.
Qed.

(** The request of a run of the process: the prompt of the page, with a
    client that has the credential of the process. *)
Lemma visit_sent c sid i :
  pages_ok c ->
  page_sent (server_of svc c) i (page_of c sid)
  = if asks i (act i (page_of c sid))
    then [(GenerativeModel (process_credential c) "gemini-pro", [],
           page_prompt (act i (page_of c sid)))]
    else [].
Proof. intros Hc; by rewrite page_sent_run by (by apply page_of_pages_ok). Qed.

(** C28: The credential is read from the [.env] file by every run until
    one run has found it, and never again after that.  In a process
    without the variable, the run after an edit of the file that gives
    the credential [k] sends its request with a client made with [k];
    that run leaves the variable in the environment of the process; and
    the request of every later run, of any session and after any steps,
    edits of the file included, is sent with a client made with [k]. *)
Theorem credential_follows_dotenv c d' (k : string) sid i steps sid' j :
  pages_ok c ->
  process_environ c !! "GOOGLE_API_KEY" = None ->
  d' !! "GOOGLE_API_KEY" = Some k ->
  let c1 := step svc c (Edit d') in
  let c2 := serve svc steps (visit svc sid i c1) in
  page_sent (server_of svc c1) i (page_of c1 sid)
  = (if asks i (act i (page_of c1 sid))
     then [(GenerativeModel (Some k) "gemini-pro", [], page_prompt (act i (page_of c1 sid)))]
     else [])
  /\ environ_after (server_of svc c1) i (page_of c1 sid) !! "GOOGLE_API_KEY" = Some k
  /\ page_sent (server_of svc c2) j (page_of c2 sid')
     = (if asks j (act j (page_of c2 sid'))
        then [(GenerativeModel (Some k) "gemini-pro", [], page_prompt (act j (page_of c2 sid')))]
        else []).
Proof.
  intros Hc He Hd c1 c2.
  assert (process_credential c1 = Some k) as Hc1
    by (rewrite process_credential_first; cbn; by rewrite He, Hd).
  assert (process_environ (visit svc sid i c1) !! "GOOGLE_API_KEY" = Some k) as Hv
    by (rewrite visit_environ; exact Hc1).
  assert (pages_ok c2) as Hc2
    by (apply serve_every_page; [apply step_pages_ok | by apply (step_pages_ok _ c1 (Visit sid i))]).
  assert (pages_ok c1) as Hp1 by exact Hc.
  split; [rewrite (visit_sent c1 sid i Hp1), Hc1; reflexivity | split].
  - rewrite environ_after_run; exact Hc1.
  - rewrite (visit_sent c2 sid' j Hc2), process_credential_first; unfold c2.
    rewrite (serve_environ_key svc steps _ _ k Hv); reflexivity.
Qed.

End Completed.

(** ** Runs the next interaction can stop *)

Section Timed.
Context (svc : Service).
Implicit Types (c : Process) (sid : nat) (x : Interaction * Timing) (p : Page).
Implicit Types (s : Step (Interaction * Timing)) (e d : gmap string string).
Implicit Types (steps : list (Step (Interaction * Timing))).

Lemma step_conversing c s : process_conversing c -> process_conversing (step svc c s).
Proof.
  intros Hc; apply step_every_page; [| done]; intros sid x.
  destruct (page_of_every _ c sid (conj blank_ok eq_refl) Hc) as [Hp Ht].
  cbn [run timed_runs]; auto using run_timed_ok, run_timed_conversation.
Qed.

Lemma serve_conversing steps e d : process_conversing (serve svc steps (start e d)).
Proof. apply serve_every_page; [apply step_conversing | apply start_every_page]. Qed.

(** C25: The sessions of a process are isolated also when runs are
    stopped: as long as the credential cannot change, a session that has
    only interacted has the page its interactions lead to from the blank
    page, with its runs stopped where they were, whatever the other
    sessions have done and whichever of their runs were stopped; the
    requests the process has sent for it are those of its interactions
    alone, no more than it has clicks; its transcript is a sequence of
    exchanges when none of its own runs was stopped; and every open page
    is one the runtime works on whose transcript is a conversation. *)
Theorem timed_sessions_isolated e d steps sid :
  steady e d steps ->
  (forall xs : list (Interaction * Timing),
     project sid steps = map (Visit sid) xs -> xs ≠ [] ->
     pages (serve svc steps (start e d)) !! sid
     = Some (browse_timed (mkServer e d svc) xs blank)
     /\ serve_sent svc sid steps (start e d)
        = session_sent (mkServer e d svc) xs blank
     /\ length (serve_sent svc sid steps (start e d)) <= clicks xs.*1
     /\ (Forall (fun x => x.2 = Completes) xs ->
         well_formed (transcript (store (browse_timed (mkServer e d svc) xs blank)))
         = true))
  /\ process_conversing (serve svc steps (start e d)).
Proof.
  intros Hs; split; [| apply serve_conversing].
  intros xs Hxs Hne; destruct (isolated svc e d steps sid Hs) as [_ Hacts].
  destruct (Hacts xs Hxs) as [Hsent Hpage].
  rewrite <- session_run_timed, Hsent.
  split; [by apply Hpage | split; [done | split]].
  - apply session_sent_timed_clicks, blank_ok.
  - apply browse_timed_invariant.
Qed.

End Timed.

(** ** Example processes *)

(** Two browsers on one process: the first asks for a function, the
    second opens the page in between and asks for its transcript. *)
Definition two_browsers : list (Step Interaction) :=
  [Visit 1 Open; Visit 1 (Enter "a function that adds two numbers");
   Visit 2 Open; Visit 1 (Click "Generate Code");
   Visit 2 (Click "Show Chat History")].

Definition adder_start : Process :=
  start {["GOOGLE_API_KEY" := "secret"]} ∅.

Lemma sessions_isolated_witness :
  pages (serve (endpoint adder_server) two_browsers adder_start) !! 2
  = alone adder_server 2 (project 2 two_browsers)
  /\ (forall acts : list Interaction,
        project 2 two_browsers = map (Visit 2) acts ->
        serve_sent (endpoint adder_server) 2 two_browsers adder_start
        = browse_sent adder_server acts blank
        /\ (acts ≠ [] ->
            pages (serve (endpoint adder_server) two_browsers adder_start) !! 2
            = Some (browse adder_server acts blank))).
Proof.
  apply (sessions_isolated (endpoint adder_server) {["GOOGLE_API_KEY" := "secret"]}
           ∅ two_browsers 2).
  left; by eexists.
Defined.

Lemma served_process_ok_witness :
  process_ok (serve (endpoint adder_server) two_browsers adder_start)
  /\ {["GOOGLE_API_KEY" := "secret"]}
     ⊆ process_environ (serve (endpoint adder_server) two_browsers adder_start).
Proof.
  apply (served_process_ok (endpoint adder_server) {["GOOGLE_API_KEY" := "secret"]} ∅),
    served_serve.
Defined.

(** A process started without a credential and without a [.env] file. *)
Definition bare : Process := start ∅ ∅.

(** A session of the bare process that has entered its requirements. *)
Definition bare_typed : Process :=
  serve (endpoint adder_server)
    [Visit 1 Open; Visit 1 (Enter "a function that adds two numbers")] bare.

Lemma credential_follows_dotenv_witness :
  let svc := endpoint adder_server in
  let c1 := step svc bare_typed (Edit {["GOOGLE_API_KEY" := "k1"]}) in
  let c2 := serve svc [Edit {["GOOGLE_API_KEY" := "k2"]}; Visit 2 Open]
              (visit svc 1 (Click "Generate Code") c1) in
  page_sent (server_of svc c1) (Click "Generate Code") (page_of c1 1)
  = (if asks (Click "Generate Code") (act (Click "Generate Code") (page_of c1 1))
     then [(GenerativeModel (Some "k1") "gemini-pro", [],
            page_prompt (act (Click "Generate Code") (page_of c1 1)))]
     else [])
  /\ environ_after (server_of svc c1) (Click "Generate Code") (page_of c1 1)
       !! "GOOGLE_API_KEY" = Some "k1"
  /\ page_sent (server_of svc c2) (Click "Generate Code") (page_of c2 1)
     = (if asks (Click "Generate Code") (act (Click "Generate Code") (page_of c2 1))
        then [(GenerativeModel (Some "k1") "gemini-pro", [],
               page_prompt (act (Click "Generate Code") (page_of c2 1)))]
        else []).
Proof.
  apply (credential_follows_dotenv (endpoint adder_server) bare_typed
           {["GOOGLE_API_KEY" := "k1"]} "k1" 1 (Click "Generate Code")
           [Edit {["GOOGLE_API_KEY" := "k2"]}; Visit 2 Open] 1 (Click "Generate Code"));
    [apply serve_pages_ok | done | done].
Defined.

(** The three clicks of that session, run: before the file has the
    credential the request leaves without one; after the edit it leaves
    with the credential of the file; and after the second edit, still with
    the first. *)
Example credential_follows_dotenv_run :
  let svc := endpoint adder_server in
  let click := Click "Generate Code" in
  let c1 := step svc bare_typed (Edit {["GOOGLE_API_KEY" := "k1"]}) in
  let c2 := serve svc [Edit {["GOOGLE_API_KEY" := "k2"]}; Visit 2 Open]
              (visit svc 1 click c1) in
  (api_key ∘ fst ∘ fst) <$> page_sent (server_of svc bare_typed) click (page_of bare_typed 1)
  = [None]
  /\ (api_key ∘ fst ∘ fst) <$> page_sent (server_of svc c1) click (page_of c1 1) = [Some "k1"]
  /\ (api_key ∘ fst ∘ fst) <$> page_sent (server_of svc c2) click (page_of c2 1) = [Some "k1"].
Proof. by vm_compute. Qed.

(** The two browsers, run: the transcript of the first has its exchange,
    the transcript of the second is empty, and the request of the first
    has left without anything of the second. *)
Example two_browsers_run :
  let c := serve (endpoint adder_server) two_browsers adder_start in
  transcript (store (page_of c 1))
  = [("You", "a function that adds two numbers"); ("Bot", "def add(a,b): return a+b")]
  /\ transcript (store (page_of c 2)) = []
  /\ process_environ c !! "GOOGLE_API_KEY" = Some "secret".
Proof. by vm_compute. Qed.

(** Two browsers, the first of which clicks a second time while its
    request is being answered: the run of the first click is stopped. *)
Definition impatient_browser : list (Step (Interaction * Timing)) :=
  [Visit 1 (Open, Completes);
   Visit 1 (Enter "a function that adds two numbers", Completes);
   Visit 2 (Open, Completes);
   Visit 1 (Click "Generate Code", Cut);
   Visit 2 (Click "Show Chat History", Completes);
   Visit 1 (Click "Generate Code", Completes)].

Lemma timed_sessions_isolated_witness :
  (forall xs : list (Interaction * Timing),
     project 2 impatient_browser = map (Visit 2) xs -> xs ≠ [] ->
     pages (serve (endpoint adder_server) impatient_browser adder_start) !! 2
     = Some (browse_timed adder_server xs blank)
     /\ serve_sent (endpoint adder_server) 2 impatient_browser adder_start
        = session_sent adder_server xs blank
     /\ length (serve_sent (endpoint adder_server) 2 impatient_browser adder_start)
        <= clicks xs.*1
     /\ (Forall (fun x => x.2 = Completes) xs ->
         well_formed (transcript (store (browse_timed adder_server xs blank))) = true))
  /\ process_conversing (serve (endpoint adder_server) impatient_browser adder_start).
Proof.
  apply (timed_sessions_isolated (endpoint adder_server) {["GOOGLE_API_KEY" := "secret"]}
           ∅ impatient_browser 2).
  left; by eexists.
Defined.

(** The impatient browser, run: the first has its question twice, once
    without an answer, and the second has nothing of it. *)
Example impatient_browser_run :
  let c := serve (endpoint adder_server) impatient_browser adder_start in
  transcript (store (page_of c 1))
  = [("You", "a function that adds two numbers");
     ("You", "a function that adds two numbers"); ("Bot", "def add(a,b): return a+b")]
  /\ transcript (store (page_of c 2)) = [].
Proof. by vm_compute. Qed.
