(* ===== verification/Refinement.v ===== *)
(** * The application against the specified controller

    The runtime and the script together, driven by the interactions of the
    user ([Runtime]), against the controller of the specification driven by
    the actions those interactions stand for ([Spec]): the controller is
    run beside the page, one step per interaction, and the two transcripts
    are compared. *)

From stdpp Require Import gmap strings list.
From S2P Require Import Prelude PyStr Prompt Stream Chat Transcript Render World.
From S2P Require Import App Execution Session Spec Runtime.

Section Refinement.
Context (srv : Server).
Implicit Types (p : Page) (i : Interaction) (st : Controller).

(** What an interaction asks of the controller: a click on the button of
    the selected action asks for the task with the text and the language
    of the page, a click on "Show Chat History" for the transcript, and
    anything else for nothing. *)
Definition asked (i : Interaction) (p : Page) : UserAction :=
  match i with
  | Click l =>
      if String.eqb l (button_label (page_task p)) then
        match page_task p with
        | Generate => GenerateRequested (page_text p) (page_language p)
        | Enhance => EnhanceRequested (page_text p) (page_language p)
        end
      else if String.eqb l "Show Chat History" then ShowHistoryRequested
      else NoRequest
  | _ => NoRequest
  end.

(** The controller beside the page: one step per interaction, on the
    action the interaction stands for on the page it is made on. *)
Definition supervise_step (st : Controller) (i : Interaction) (p : Page) : Controller :=
  fst (handle (endpoint srv) (server_client srv) st (asked i (act i p))).

Fixpoint supervise (acts : list Interaction) (p : Page) (st : Controller) : Controller :=
  match acts with
  | [] => st
  | i :: acts' => supervise acts' (rerun srv i p) (supervise_step st i p)
  end.

Lemma asked_host_of i p : action_asked (host_of srv p i) = asked i p.
Proof. destruct i; try done; unfold action_asked, asked; by rewrite task_of_host_of. Qed.

Lemma turns_rerun i p :
  page_ok p = true ->
  turns (store (rerun srv i p))
  = turns (next_session (host_of srv (act i p) i) (store (act i p))).
Proof.
  intros Hp; pose proof Hp as [_ Hk]%page_ok_iff; unfold turns.
  by rewrite rerun_store, transcript_sweep.
Qed.

Lemma turns_act i p : turns (store (act i p)) = turns (store p).
Proof. unfold turns; by rewrite transcript_act. Qed.

(** One interaction against one step of the controller. *)
Lemma rerun_refines i p st :
  memoryless (endpoint srv) -> page_ok p = true -> turns (store p) = log st ->
  turns (store (rerun srv i p)) = log (supervise_step st i p).
Proof.
  intros Hm Hp Hlog; pose proof (act_ok i p Hp) as [Ht _]%page_ok_iff.
  pose proof (step_refines (host_of srv (act i p) i) (store (act i p)) st) as Hstep.
  rewrite turns_rerun by done; unfold supervise_step.
  rewrite asked_host_of in Hstep.
  change (service (host_of srv (act i p) i)) with (endpoint srv) in Hstep.
  change (the_client (host_of srv (act i p) i)) with (server_client srv) in Hstep.
  destruct (handle _ _ _ _) as [st' r]; cbn [fst].
  by destruct Hstep as [? _]; [| rewrite turns_act | apply Hm |].
Qed.

Lemma browse_cons (i : Interaction) (acts : list Interaction) p :
  browse srv (i :: acts) p = browse srv acts (rerun srv i p).
Proof. reflexivity. Qed.

(** ** The refinement *)

(** C13: Against a service that answers without looking at the context,
    the application implements the specified controller over any sequence
    of interactions: started on a page and a controller with the same
    transcript, the page after the interactions and the controller after
    the actions they stand for have the same transcript. *)
Theorem page_refines_controller (acts : list Interaction) p st :
  memoryless (endpoint srv) -> page_ok p = true -> turns (store p) = log st ->
  turns (store (browse srv acts p)) = log (supervise acts p st).
Proof.
  intros Hm; revert p st; induction acts as [|i acts IH]; intros p st Hp Hlog;
    [done |].
  rewrite browse_cons; cbn [supervise].
  apply IH; [by apply rerun_ok | by apply rerun_refines].
Qed.

End Refinement.

Lemma adder_memoryless : memoryless (endpoint adder_server).
Proof. done. Qed.

(** The user opens the page, enters requirements, asks for the code, and
    asks for the transcript. *)
Definition adder_visit : list Interaction :=
  [Open; Enter "a function that adds two numbers"; Click "Generate Code";
   Click "Show Chat History"].

Lemma page_refines_controller_witness :
  turns (store (browse adder_server adder_visit blank))
  = log (supervise adder_server adder_visit blank idle).
Proof.
  apply (page_refines_controller adder_server adder_visit blank idle);
    [apply adder_memoryless | done | done].
Defined.

(** The visit, run: the transcript has the one exchange, the text entered
    is still in its area, and the last run has displayed the transcript. *)
Example adder_visit_run :
  transcript (store (browse adder_server adder_visit blank))
  = [("You", "a function that adds two numbers"); ("Bot", "def add(a,b): return a+b")]
  /\ page_text (browse adder_server adder_visit blank) = "a function that adds two numbers"
  /\ last (page_shown adder_server (Click "Show Chat History")
             (browse adder_server (take 3 adder_visit) blank))
     = Some (Write "Bot: def add(a,b): return a+b").
Proof. by vm_compute. Qed.
